(** * Order lifecycle and cancellation sweeps of the banana marketplace

    A shallow embedding of the two scheduled sweep handlers
    ([check-farm-confirm], [auto-cancel-orders]) and of the page actions that
    write to the order tables ([OrderDetail.updateStatus], the two
    [FarmOrders] pages, [UserOrders.submitReview]), together with the part of
    the relational schema they act on.  Further on come the rest of those
    pages (the tabs and buttons of the farm pages, [loadOrder],
    [confirmReceived], the review dialog) and the order figures of the farm
    dashboard.

    Conventions.
    - A table with a primary key is a finite map from the key to the row.
    - Instants are integers (milliseconds since the epoch, as a JS [Date]);
      calendar dates are day numbers.  The handlers run with the UTC zone, so
      [setHours(h - 48)] moves an instant back by exactly 48 hours and
      [setDate(d - 7)] by exactly 7 days.
    - Every reading of a clock ([new Date()] in the handlers, [NOW()] in the
      [updated_at] trigger) consumes one tick of the world; the environment
      maps ticks to instants and is not assumed monotone.
    - The store client never throws: a request returns an error object or
      none.  Which requests fail is decided by the environment.  The two
      credentials a handler reads are taken to be present.
    - For a page, the rows of [orders] are those the signed-in user may read
      and write under the row-level policies; a row outside them behaves as
      a missing one (an update of it changes nothing and returns no
      error). *)

From stdpp Require Import gmap strings list fin_maps pretty.

From Stdlib Require Import ZArith Lia.

(** ** Schema *)

(** [CREATE TYPE public.order_status AS ENUM (...)] *)
Inductive order_status :=
  | pending | confirmed | shipped | delivered | cancelled | reviewed.

#[global] Instance order_status_eq_dec : EqDecision order_status.
Proof. solve_decision. Defined.

(** [public.orders]; the key [id] is the map key.  [carrier] is written by the
    farm page although the first migration does not declare it. *)
Record Order := mkOrder {
  o_user_id : string;
  o_farm_id : string;
  o_product_id : string;
  o_quantity : Z;
  o_total_price : Z;
  o_status : order_status;
  o_tracking_number : option string;
  o_carrier : option string;
  o_delivery_address : string;
  o_delivery_notes : option string;
  o_confirmed_at : option Z;
  o_shipped_at : option Z;
  o_delivered_at : option Z;
  o_cancelled_at : option Z;
  o_cancellation_reason : option string;
  o_created_at : option Z;
  o_updated_at : option Z
}.

(** [public.products], the columns the sweeps and pages read. *)
Record Product := mkProduct {
  p_farm_id : string;
  p_name : string;
  p_harvest_date : Z
}.

(** [public.reviews] without the generated [id] and [created_at]. *)
Record Review := mkReview {
  r_order_id : string;
  r_user_id : string;
  r_farm_id : string;
  r_rating : Z;
  r_comment : string
}.

(** [public.notifications] without the generated [id] and [created_at];
    [read] takes its default. *)
Record Notification := mkNotification {
  n_user_id : string;
  n_title : string;
  n_message : string;
  n_type : string;
  n_related_order_id : option string;
  n_read : bool
}.

(** The object passed to [.update(...)]: an absent key is [None]. *)
Record OrderPatch := mkPatch {
  set_status : option order_status;
  set_tracking_number : option string;
  set_carrier : option string;
  set_confirmed_at : option Z;
  set_shipped_at : option Z;
  set_delivered_at : option Z;
  set_cancelled_at : option Z;
  set_cancellation_reason : option string
}.

Definition overwrite {A} (new old : option A) : option A :=
  match new with Some v => Some v | None => old end.

(** [UPDATE orders SET ...] on one row, before the trigger. *)
Definition apply_patch (p : OrderPatch) (o : Order) : Order :=
  {| o_user_id := o_user_id o;
     o_farm_id := o_farm_id o;
     o_product_id := o_product_id o;
     o_quantity := o_quantity o;
     o_total_price := o_total_price o;
     o_status := default (o_status o) (set_status p);
     o_tracking_number := overwrite (set_tracking_number p) (o_tracking_number o);
     o_carrier := overwrite (set_carrier p) (o_carrier o);
     o_delivery_address := o_delivery_address o;
     o_delivery_notes := o_delivery_notes o;
     o_confirmed_at := overwrite (set_confirmed_at p) (o_confirmed_at o);
     o_shipped_at := overwrite (set_shipped_at p) (o_shipped_at o);
     o_delivered_at := overwrite (set_delivered_at p) (o_delivered_at o);
     o_cancelled_at := overwrite (set_cancelled_at p) (o_cancelled_at o);
     o_cancellation_reason :=
       overwrite (set_cancellation_reason p) (o_cancellation_reason o);
     o_created_at := o_created_at o;
     o_updated_at := o_updated_at o |}.

(** [update_updated_at_column()]: [NEW.updated_at = NOW()]. *)
Definition touch (t : Z) (o : Order) : Order :=
  {| o_user_id := o_user_id o;
     o_farm_id := o_farm_id o;
     o_product_id := o_product_id o;
     o_quantity := o_quantity o;
     o_total_price := o_total_price o;
     o_status := o_status o;
     o_tracking_number := o_tracking_number o;
     o_carrier := o_carrier o;
     o_delivery_address := o_delivery_address o;
     o_delivery_notes := o_delivery_notes o;
     o_confirmed_at := o_confirmed_at o;
     o_shipped_at := o_shipped_at o;
     o_delivered_at := o_delivered_at o;
     o_cancelled_at := o_cancelled_at o;
     o_cancellation_reason := o_cancellation_reason o;
     o_created_at := o_created_at o;
     o_updated_at := Some t |}.

(** ** World, environment and requests *)

Record World := mkWorld {
  orders : gmap string Order;
  products : gmap string Product;
  reviews : list Review;
  notifications : list Notification;
  ticks : nat
}.

(** A value that reaches a [catch]: an instance of [Error], or anything else
    (the error objects of the store client are plain objects carrying a
    [message]). *)
Inductive JsThrown :=
  | JsError (message : string)
  | JsObject (message : string).

Definition thrown_message (x : JsThrown) : string :=
  match x with JsError m => m | JsObject m => m end.

(** What the surroundings of a run decide: the instants the clock shows, and
    which requests the store refuses, each with the error it answers:
    the select of a sweep, the update of the row with a given key, the insert
    of a given notification, the insert of a review, the select on [reviews]
    that precedes it. *)
Record Env := mkEnv {
  clock : nat → Z;
  fetch_error : option JsThrown;
  update_error : string → option JsThrown;
  notification_error : Notification → option JsThrown;
  review_error : option JsThrown;
  review_select_error : option JsThrown
}.

(** The page of part_002 keeps its orders in [reservations]; the columns of
    that table are not declared in the sources, so a request to it is
    recorded and has no modelled effect. *)
Inductive Table := orders_table | reservations_table.

(** Write requests sent to the store, in the order they are issued. *)
Inductive Write :=
  | UpdateRow (t : Table) (id : string) (p : OrderPatch)
  | InsertNotification (n : Notification)
  | InsertReview (r : Review).

(** ** A state-and-trace monad for handlers *)

Definition M (A : Type) : Type := World → A * World * list Write.

Definition ret {A} (a : A) : M A := λ w, (a, w, []).

Definition bind {A B} (m : M A) (k : A → M B) : M B :=
  λ w, let '(a, w1, t1) := m w in
       let '(b, w2, t2) := k a w1 in
       (b, w2, t1 ++ t2).

Notation "'let*' x ':=' m 'in' k" := (bind m (λ x, k))
  (at level 10, x name, m at level 100, k at level 200, only parsing).

Notation "m ';;;' k" := (bind m (λ _, k))
  (at level 100, k at level 200, right associativity, only parsing).

Definition result {A} (r : A * World * list Write) : A := r.1.1.

Definition world_of {A} (r : A * World * list Write) : World := r.1.2.

Definition writes_of {A} (r : A * World * list Write) : list Write := r.2.

(** [for (const x of l) body(x)] where [continue] ends the body early. *)
Fixpoint for_each {A} (l : list A) (body : A → M unit) : M unit :=
  match l with
  | [] => ret tt
  | x :: l' => body x ;;; for_each l' body
  end.

Definition set_orders (f : gmap string Order → gmap string Order) (w : World) : World :=
  {| orders := f (orders w); products := products w; reviews := reviews w;
     notifications := notifications w; ticks := ticks w |}.

Definition add_notification (n : Notification) (w : World) : World :=
  {| orders := orders w; products := products w; reviews := reviews w;
     notifications := notifications w ++ [n]; ticks := ticks w |}.

(** Whether the store accepts the insert of a notification. *)
Definition stored (e : Env) (n : Notification) : bool :=
  match notification_error e n with Some _ => false | None => true end.

(** The effect of an insert into [notifications] on the store. *)
Definition deliver (e : Env) (n : Notification) (w : World) : World :=
  if stored e n then add_notification n w else w.

Definition add_review (r : Review) (w : World) : World :=
  {| orders := orders w; products := products w; reviews := reviews w ++ [r];
     notifications := notifications w; ticks := ticks w |}.

Definition tick (w : World) : World :=
  {| orders := orders w; products := products w; reviews := reviews w;
     notifications := notifications w; ticks := S (ticks w) |}.

(** The notifications among a list of writes. *)
Definition emitted (ws : list Write) : list Notification :=
  omap (λ x, match x with InsertNotification n => Some n | _ => None end) ws.

Definition about (id : string) (n : Notification) : bool :=
  bool_decide (n_related_order_id n = Some id).

(** The notifications a run emitted for one order. *)
Definition emitted_for (id : string) (ws : list Write) : list Notification :=
  List.filter (about id) (emitted ws).

(** The updates of [orders] a run requested for one order. *)
Definition update_requests (k : string) (ws : list Write) : list Write :=
  List.filter
    (λ x, match x with
          | UpdateRow orders_table k' _ => bool_decide (k' = k)
          | _ => false
          end) ws.

Definition hour_ms : Z := 3600000.

Definition day_ms : Z := 86400000.

(** [d.toISOString().split('T')[0]]: the UTC calendar day of an instant. *)
Definition iso_date (t : Z) : Z := (t / day_ms)%Z.

Section Store.
Context (e : Env).

(** [new Date()], also [NOW()] in a trigger. *)
Definition new_Date : M Z := λ w, (clock e (ticks w), tick w, []).

(** [supabase.from('orders').update(p).eq('id', id)]: the request is
    issued; when the store refuses it the error comes back and no row
    changes; otherwise the row with that key, if any, is rewritten and the
    [BEFORE UPDATE] trigger stamps it. *)
Definition update_orders (id : string) (p : OrderPatch) : M (option JsThrown) :=
  λ w,
    match update_error e id with
    | Some err => (Some err, w, [UpdateRow orders_table id p])
    | None =>
        match orders w !! id with
        | Some o =>
            (None,
             tick (set_orders (insert id (touch (clock e (ticks w)) (apply_patch p o))) w),
             [UpdateRow orders_table id p])
        | None => (None, w, [UpdateRow orders_table id p])
        end
    end.

(** [supabase.from('reservations').update(p).eq('id', id)] *)
Definition update_reservations (id : string) (p : OrderPatch) : M (option JsThrown) :=
  λ w, (update_error e id, w, [UpdateRow reservations_table id p]).

(** [await supabase.from('notifications').insert(n)]: the request is issued
    and its answer dropped, so a refused insert goes unnoticed. *)
Definition insert_notification (n : Notification) : M unit :=
  λ w, (tt, deliver e n w, [InsertNotification n]).
End Store.

(** What a handler answers: the status code and the parsed JSON body. *)
Inductive Body :=
  | NoBody
  | SuccessBody (success : bool) (message : string)
  | ErrorBody (error : string).

Record Response := mkResponse { status_code : Z; body : Body }.

(** [new Response(null, { headers: corsHeaders })] *)
Definition preflight : Response := {| status_code := 200; body := NoBody |}.

(** [{ data, error }] of a select. *)
Record Selected (A : Type) := mkSelected {
  data : option (list A);
  error : option JsThrown
}.

Arguments data {A} _.

Arguments error {A} _.

Arguments mkSelected {A} _ _.

(** The update both sweeps send. *)
Definition cancel_patch (t : Z) (reason : string) : OrderPatch :=
  {| set_status := Some cancelled;
     set_tracking_number := None;
     set_carrier := None;
     set_confirmed_at := None;
     set_shipped_at := None;
     set_delivered_at := None;
     set_cancelled_at := Some t;
     set_cancellation_reason := Some reason |}.

(** The row an accepted cancelling update leaves behind when the handler
    read the clock at tick [i] and the trigger at the next one. *)
Definition cancelled_row (e : Env) (reason : string) (i : nat) (o : Order) : Order :=
  touch (clock e (S i)) (apply_patch (cancel_patch (clock e i) reason) o).

(** [error instanceof Error ? error.message : 'Unknown error'] in a 500. *)
Definition error_response (x : JsThrown) : Response :=
  {| status_code := 500;
     body := ErrorBody match x with
                       | JsError m => m
                       | JsObject _ => "Unknown error"
                       end |}.

Definition success_response (message : string) : Response :=
  {| status_code := 200; body := SuccessBody true message |}.

(** [rows?.length || 0] *)
Definition length_or_0 {A} (rows : option (list A)) : nat :=
  match rows with Some l => length l | None => 0 end.

(** [rows || []] *)
Definition rows_or_empty {A} (rows : option (list A)) : list A :=
  match rows with Some l => l | None => [] end.

(** ** check-farm-confirm (part_000) *)

Module CheckFarmConfirm.

(** [select('id, user_id, farm_id')] *)
Record Row := mkRow { id : string; user_id : string; farm_id : string }.

Definition reason : string := "Farm did not confirm within 48 hours".

(** [.eq('status', 'pending').lt('created_at', twoDaysAgo)] on one row; a
    null [created_at] matches no comparison. *)
Definition matches (twoDaysAgo : Z) (o : Order) : bool :=
  bool_decide (o_status o = pending) &&
  match o_created_at o with
  | Some t => (t <? twoDaysAgo)%Z
  | None => false
  end.

(** One row of the select, or none when the filters reject it. *)
Definition select_row (twoDaysAgo : Z) (kv : string * Order) : option Row :=
  if matches twoDaysAgo kv.2
  then Some {| id := kv.1; user_id := o_user_id kv.2; farm_id := o_farm_id kv.2 |}
  else None.

(** "Notify user", lines 54-60. *)
Definition user_notice (order : Row) : Notification :=
  {| n_user_id := user_id order;
     n_title := "Order Cancelled";
     n_message := "Your order was cancelled as the farm did not confirm within 48 hours.";
     n_type := "order_cancelled";
     n_related_order_id := Some (id order);
     n_read := false |}.

(** "Notify farm", lines 63-69. *)
Definition farm_notice (order : Row) : Notification :=
  {| n_user_id := farm_id order;
     n_title := "Missed Confirmation";
     n_message := "An order was auto-cancelled due to no confirmation within 48 hours.";
     n_type := "confirmation_missed";
     n_related_order_id := Some (id order);
     n_read := false |}.

Definition notes (order : Row) : list Notification :=
  [user_notice order; farm_notice order].

(** The rows the select returns in world [w] for the instant [now]. *)
Definition selected (now : Z) (w : World) : list Row :=
  omap (select_row (now - 48 * hour_ms)) (map_to_list (orders w)).

Section Handler.
Context (e : Env).

Definition select_expired (twoDaysAgo : Z) : M (Selected Row) :=
  λ w,
    match fetch_error e with
    | Some err => (mkSelected None (Some err), w, [])
    | None =>
        (mkSelected
           (Some (omap (select_row twoDaysAgo) (map_to_list (orders w))))
           None, w, [])
    end.

(** The body of the loop, lines 38-72. *)
Definition cancel_one (order : Row) : M unit :=
  let* now := new_Date e in
  let* updateError := update_orders e (id order) (cancel_patch now reason) in
  match updateError with
  | Some _ => ret tt
  | None =>
      insert_notification e (user_notice order) ;;;
      insert_notification e (farm_notice order)
  end.

(** The [try] block: [inl] is a thrown value. *)
Definition try_block : M (JsThrown + Response) :=
  let* now := new_Date e in
  let twoDaysAgo := (now - 48 * hour_ms)%Z in
  let* fetched := select_expired twoDaysAgo in
  match error fetched with
  | Some fetchError => ret (inl fetchError)
  | None =>
      for_each (rows_or_empty (data fetched)) cancel_one ;;;
      ret (inr (success_response
                  ("Cancelled " +:+ pretty (length_or_0 (data fetched))
                     +:+ " unconfirmed orders")))
  end.

Definition serve (method : string) : M Response :=
  if bool_decide (method = "OPTIONS") then ret preflight
  else
    let* outcome := try_block in
    match outcome with
    | inl thrown => ret (error_response thrown)
    | inr response => ret response
    end.
End Handler.

End CheckFarmConfirm.

(** ** auto-cancel-orders *)

Module AutoCancelOrders.

(** [select('id, user_id, products!inner (harvest_date)')] *)
Record Row := mkRow { id : string; user_id : string; harvest_date : Z }.

Definition reason : string := "Auto-cancelled: Exceeded 7 days after harvest date".

(** [.in('status', ['pending', 'confirmed'])] *)
Definition status_in (o : Order) : bool :=
  bool_decide (o_status o = pending) || bool_decide (o_status o = confirmed).

(** One row of the select: the inner join drops an order without a product,
    [.lt('products.harvest_date', cutoff)] compares dates. *)
Definition select_row (ps : gmap string Product) (cutoff : Z)
    (kv : string * Order) : option Row :=
  match ps !! o_product_id kv.2 with
  | Some p =>
      if status_in kv.2 && (p_harvest_date p <? cutoff)%Z
      then Some {| id := kv.1; user_id := o_user_id kv.2;
                   harvest_date := p_harvest_date p |}
      else None
  | None => None
  end.

(** "Create notification for user", lines 59-65. *)
Definition user_notice (order : Row) : Notification :=
  {| n_user_id := user_id order;
     n_title := "Order Cancelled";
     n_message := "Your order was automatically cancelled as it exceeded the pickup window.";
     n_type := "order_cancelled";
     n_related_order_id := Some (id order);
     n_read := false |}.

Definition notes (order : Row) : list Notification := [user_notice order].

(** The rows the select returns in world [w] for the instant [now]. *)
Definition selected (now : Z) (w : World) : list Row :=
  omap (select_row (products w) (iso_date (now - 7 * day_ms))) (map_to_list (orders w)).

Section Handler.
Context (e : Env).

Definition select_to_cancel (cutoff : Z) : M (Selected Row) :=
  λ w,
    match fetch_error e with
    | Some err => (mkSelected None (Some err), w, [])
    | None =>
        (mkSelected
           (Some (omap (select_row (products w) cutoff) (map_to_list (orders w))))
           None, w, [])
    end.

(** The body of the loop, lines 43-68. *)
Definition cancel_one (order : Row) : M unit :=
  let* now := new_Date e in
  let* updateError := update_orders e (id order) (cancel_patch now reason) in
  match updateError with
  | Some _ => ret tt
  | None =>
      insert_notification e (user_notice order)
  end.

Definition try_block : M (JsThrown + Response) :=
  let* now := new_Date e in
  let sevenDaysAgo := (now - 7 * day_ms)%Z in
  let* fetched := select_to_cancel (iso_date sevenDaysAgo) in
  match error fetched with
  | Some fetchError => ret (inl fetchError)
  | None =>
      for_each (rows_or_empty (data fetched)) cancel_one ;;;
      ret (inr (success_response
                  ("Cancelled " +:+ pretty (length_or_0 (data fetched))
                     +:+ " orders")))
  end.

Definition serve (method : string) : M Response :=
  if bool_decide (method = "OPTIONS") then ret preflight
  else
    let* outcome := try_block in
    match outcome with
    | inl thrown => ret (error_response thrown)
    | inr response => ret response
    end.
End Handler.

End AutoCancelOrders.

(** ** Page actions *)

(** [toast.error(...)], [toast.success(...)] *)
Inductive Toast :=
  | toast_error (message : string)
  | toast_success (message : string).

(** The members of ECMAScript's WhiteSpace and LineTerminator below 128:
    TAB, LF, VT, FF, CR and SP.  Text typed into the forms is taken to be
    ASCII. *)
Definition is_space (c : Stdlib.Strings.Ascii.ascii) : bool :=
  let n := Stdlib.Strings.Ascii.nat_of_ascii c in
  ((9 <=? n) && (n <=? 13)) || (n =? 32).

Fixpoint trim_start (s : string) : string :=
  match s with
  | EmptyString => EmptyString
  | String c s' => if is_space c then trim_start s' else s
  end.

(** [s.trim()] *)
Definition trim (s : string) : string :=
  String.rev (trim_start (String.rev (trim_start s))).

(** Empty, or made of white space only. *)
Fixpoint all_space (s : string) : bool :=
  match s with
  | EmptyString => true
  | String c s' => is_space c && all_space s'
  end.

(** [!s] for a string. *)
Definition falsy (s : string) : bool := bool_decide (s = "").

(** The text of a status in a template literal. *)
Definition status_name (s : order_status) : string :=
  match s with
  | pending => "pending"
  | confirmed => "confirmed"
  | shipped => "shipped"
  | delivered => "delivered"
  | cancelled => "cancelled"
  | reviewed => "reviewed"
  end.

(** [{ status }] *)
Definition status_patch (s : order_status) : OrderPatch :=
  {| set_status := Some s;
     set_tracking_number := None;
     set_carrier := None;
     set_confirmed_at := None;
     set_shipped_at := None;
     set_delivered_at := None;
     set_cancelled_at := None;
     set_cancellation_reason := None |}.

(** [{ status, ...extra }]: a [status] key of [extra] would win. *)
Definition with_status (s : order_status) (extra : OrderPatch) : OrderPatch :=
  {| set_status := overwrite (set_status extra) (Some s);
     set_tracking_number := set_tracking_number extra;
     set_carrier := set_carrier extra;
     set_confirmed_at := set_confirmed_at extra;
     set_shipped_at := set_shipped_at extra;
     set_delivered_at := set_delivered_at extra;
     set_cancelled_at := set_cancelled_at extra;
     set_cancellation_reason := set_cancellation_reason extra |}.

(** *** src/pages/farm/OrderDetail.tsx *)

Module OrderDetail.

Record State := mkState {
  order : option (string * Order);
  trackingNumber : string;
  updating : bool
}.

Definition setUpdating (b : bool) (st : State) : State :=
  {| order := order st; trackingNumber := trackingNumber st; updating := b |}.

Definition setOrder (o : option (string * Order)) (st : State) : State :=
  {| order := o; trackingNumber := trackingNumber st; updating := updating st |}.

Section Actions.
Context (e : Env).

(** Lines 147-161: the update, then the local copy and the toast, with
    [catch] and [finally]. *)
Definition send (id : string) (o : Order) (newStatus : order_status)
    (updates : OrderPatch) (st : State) : M (State * list Toast) :=
  let* error := update_orders e id updates in
  match error with
  | Some thrown =>
      ret (setUpdating false st,
           [toast_error match thrown with
                        | JsError message => message
                        | JsObject _ => "Failed to update order"
                        end])
  | None =>
      ret (setUpdating false (setOrder (Some (id, apply_patch updates o)) st),
           [toast_success ("Order " +:+ status_name newStatus)])
  end.

Definition updateStatus (newStatus : order_status) (st : State) : M (State * list Toast) :=
  match order st with
  | None => ret (st, [])
  | Some (id, o) =>
      let st := setUpdating true st in
      match newStatus with
      | confirmed =>
          let* now := new_Date e in
          send id o newStatus
            {| set_status := Some newStatus;
               set_tracking_number := None;
               set_carrier := None;
               set_confirmed_at := Some now;
               set_shipped_at := None;
               set_delivered_at := None;
               set_cancelled_at := None;
               set_cancellation_reason := None |} st
      | shipped =>
          if falsy (trim (trackingNumber st)) then
            ret (setUpdating false st, [toast_error "Please enter a tracking number"])
          else
            let* now := new_Date e in
            send id o newStatus
              {| set_status := Some newStatus;
                 set_tracking_number := Some (trim (trackingNumber st));
                 set_carrier := None;
                 set_confirmed_at := None;
                 set_shipped_at := Some now;
                 set_delivered_at := None;
                 set_cancelled_at := None;
                 set_cancellation_reason := None |} st
      | delivered =>
          let* now := new_Date e in
          send id o newStatus
            {| set_status := Some newStatus;
               set_tracking_number := None;
               set_carrier := None;
               set_confirmed_at := None;
               set_shipped_at := None;
               set_delivered_at := Some now;
               set_cancelled_at := None;
               set_cancellation_reason := None |} st
      | _ => send id o newStatus (status_patch newStatus) st
      end
  end.
End Actions.

End OrderDetail.

(** *** src/pages/farm/FarmOrders.tsx *)

Module FarmOrders.

Record State := mkState {
  shippingId : option string;
  tracking : string;
  carrier : string
}.

Section Actions.
Context (e : Env).

Definition updateOrder (id : string) (status : order_status) (extra : OrderPatch)
    : M (list Toast) :=
  let* error := update_orders e id (with_status status extra) in
  match error with
  | Some thrown => ret [toast_error (thrown_message thrown)]
  | None => ret []
  end.

(** [disabled={!carrier.trim() || !tracking.trim()}] *)
Definition confirm_disabled (st : State) : bool :=
  falsy (trim (carrier st)) || falsy (trim (tracking st)).

(** A click on "Confirm Shipment"; the modal exists only while
    [shippingId] is set, and a disabled button fires no handler. *)
Definition click_confirm_shipment (st : State) : M (State * list Toast) :=
  match shippingId st with
  | None => ret (st, [])
  | Some id =>
      if confirm_disabled st then ret (st, [])
      else
        let* now := new_Date e in
        let* toasts :=
          updateOrder id shipped
            {| set_status := None;
               set_tracking_number := Some (trim (tracking st));
               set_carrier := Some (trim (carrier st));
               set_confirmed_at := None;
               set_shipped_at := Some now;
               set_delivered_at := None;
               set_cancelled_at := None;
               set_cancellation_reason := None |} in
        ret ({| shippingId := None; tracking := ""; carrier := "" |}, toasts)
  end.
End Actions.

End FarmOrders.

(** *** The farm page of part_002, whose orders are rows of [reservations] *)

Module ReservationOrders.

Record State := mkState {
  shippingId : option string;
  tracking : string
}.

Section Actions.
Context (e : Env).

Definition updateStatus (id : string) (status : order_status) (extra : OrderPatch)
    : M (list Toast) :=
  let* error := update_reservations e id (with_status status extra) in
  match error with
  | Some thrown => ret [toast_error (thrown_message thrown)]
  | None => ret [toast_success "Updated"]
  end.

(** The check button of a pending row, lines 219-228. *)
Definition click_confirm (id : string) : M (list Toast) :=
  let* now := new_Date e in
  updateStatus id confirmed
    {| set_status := None;
       set_tracking_number := None;
       set_carrier := None;
       set_confirmed_at := Some now;
       set_shipped_at := None;
       set_delivered_at := None;
       set_cancelled_at := None;
       set_cancellation_reason := None |}.

(** The cross button of a pending row, lines 229-239. *)
Definition click_cancel (id : string) : M (list Toast) :=
  let* now := new_Date e in
  updateStatus id cancelled
    {| set_status := None;
       set_tracking_number := None;
       set_carrier := None;
       set_confirmed_at := None;
       set_shipped_at := None;
       set_delivered_at := None;
       set_cancelled_at := Some now;
       set_cancellation_reason := None |}.

(** [disabled={!tracking}] *)
Definition confirm_disabled (st : State) : bool := falsy (tracking st).

(** A click on "Confirm" in the ship modal, lines 290-302. *)
Definition click_confirm_shipment (st : State) : M (State * list Toast) :=
  match shippingId st with
  | None => ret (st, [])
  | Some id =>
      if confirm_disabled st then ret (st, [])
      else
        let* now := new_Date e in
        let* toasts :=
          updateStatus id shipped
            {| set_status := None;
               set_tracking_number := Some (tracking st);
               set_carrier := None;
               set_confirmed_at := None;
               set_shipped_at := Some now;
               set_delivered_at := None;
               set_cancelled_at := None;
               set_cancellation_reason := None |} in
        ret ({| shippingId := None; tracking := "" |}, toasts)
  end.
End Actions.

End ReservationOrders.

(** *** The buyer's orders page (part_004) *)

Module UserOrders.

Record State := mkState {
  selectedOrder : option string;
  rating : Z;
  comment : string;
  openReview : bool
}.

Section Actions.
Context (e : Env).

(** [from("reviews").select("id").eq("order_id", id).maybeSingle()]: the
    row when exactly one matches, [null] when none does; several rows make
    the call fail, as the store may for reasons of its own, and the page
    reads [data] only, which is [null] whenever the call fails. *)
Definition select_review (id : string) : M (option Review) :=
  λ w,
    (match review_select_error e with
     | Some _ => None
     | None =>
         match filter (λ r, r_order_id r = id) (reviews w) with
         | [r] => Some r
         | _ => None
         end
     end, w, []).

(** [from("reviews").insert(row)].  The request is issued; the store
    refuses it when the environment says so (row-level security, the
    references into [auth.users], the network) and when the row breaks a
    constraint of part_001 that lies within the modelled tables:
    [order_id] references an order and is unique, [rating] is between 1
    and 5. *)
Definition insert_review (r : Review) : M (option JsThrown) :=
  λ w,
    match review_error e with
    | Some err => (Some err, w, [InsertReview r])
    | None =>
        if bool_decide (orders w !! r_order_id r = None) then
          (Some (JsObject "violates foreign key constraint"), w, [InsertReview r])
        else if bool_decide (r_order_id r ∈ r_order_id <$> reviews w) then
          (Some (JsObject "duplicate key value violates unique constraint"),
           w, [InsertReview r])
        else if bool_decide (1 ≤ r_rating r ≤ 5)%Z then
          (None, add_review r w, [InsertReview r])
        else
          (Some (JsObject "violates check constraint"), w, [InsertReview r])
    end.

Definition submitReview (st : State) : M (State * list Toast) :=
  match selectedOrder st with
  | None => ret (st, [])
  | Some id =>
      let* existing := select_review id in
      match existing with
      | Some _ => ret (st, [toast_error "ออเดอร์นี้รีวิวไปแล้ว"])
      | None =>
          let* error :=
            insert_review
              {| r_order_id := id;
                 r_farm_id := id;
                 r_user_id := id;
                 r_rating := rating st;
                 r_comment := comment st |} in
          match error with
          | Some thrown => ret (st, [toast_error (thrown_message thrown)])
          | None =>
              update_orders e id (status_patch reviewed) ;;;
              ret ({| selectedOrder := None; rating := 5; comment := "";
                      openReview := false |},
                   [toast_success "ขอบคุณสำหรับรีวิว 🌟"])
          end
      end
  end.
End Actions.

End UserOrders.

(** ** The cancellation loop shared by the two sweeps

    Both loops have the same shape: read the clock, send the cancelling
    update, stop on an error, otherwise insert the notifications of the row.
    [cancel_row] is that iteration in closed form. *)

Definition notify (e : Env) (ns : list Notification) (w : World) : World :=
  foldl (λ w n, deliver e n w) w ns.

Section CancelLoop.
Context (e : Env) (reason : string).

Definition cancel_row (k : string) (ns : list Notification) : M unit :=
  λ w,
    let p := cancel_patch (clock e (ticks w)) reason in
    match update_error e k with
    | Some _ => (tt, tick w, [UpdateRow orders_table k p])
    | None =>
        match orders w !! k with
        | Some o =>
            (tt,
             notify e ns
               (tick (set_orders
                        (insert k (touch (clock e (S (ticks w))) (apply_patch p o)))
                        (tick w))),
             UpdateRow orders_table k p :: (InsertNotification <$> ns))
        | None =>
            (tt, notify e ns (tick w),
             UpdateRow orders_table k p :: (InsertNotification <$> ns))
        end
    end.

Context {A : Type} (key : A → string) (notes : A → list Notification).

Definition cancel_rows (l : list A) : M unit :=
  for_each l (λ r, cancel_row (key r) (notes r)).
End CancelLoop.

(** ** The predicates of the specification *)

(** Status pending and created more than 48 hours before [now]. *)
Definition stale_pending (now : Z) (o : Order) : Prop :=
  o_status o = pending ∧
  ∃ t, o_created_at o = Some t ∧ (t + 48 * hour_ms < now)%Z.

(** Status pending or confirmed and the harvest date of the linked product
    more than 7 days before the day of [now], both taken as calendar dates. *)
Definition past_harvest_window (ps : gmap string Product) (now : Z) (o : Order) : Prop :=
  (o_status o = pending ∨ o_status o = confirmed) ∧
  ∃ p, ps !! o_product_id o = Some p ∧ (p_harvest_date p + 7 < iso_date now)%Z.

(** Cancelled, with the given reason and with [cancelled_at] an instant read
    from the clock after tick [since]. *)
Definition cancelled_with (e : Env) (since : nat) (reason : string) (o : Order) : Prop :=
  o_status o = cancelled ∧
  (∃ i, since < i ∧ o_cancelled_at o = Some (clock e i)) ∧
  o_cancellation_reason o = Some reason.

(** ** Statements about the sweeps *)

(** A buyer notice and a farm notice, in that order. *)
Definition two_notices (o : Order) (ns : list Notification) : Prop :=
  ∃ n1 n2, ns = [n1; n2] ∧ n_user_id n1 = o_user_id o ∧ n_user_id n2 = o_farm_id o.

(** A single notice, to the buyer. *)
Definition one_notice (o : Order) (ns : list Notification) : Prop :=
  ∃ n, ns = [n] ∧ n_user_id n = o_user_id o.

(** The stale-pending sweep [serve e m] run in [w] cancels order [k] and
    emits its two notifications whenever [k] is pending and older than 48
    hours. *)
Definition stale_sweep_cancels (e : Env) (m : string) (w : World) (k : string) : Prop :=
  m ≠ "OPTIONS" →
  ∀ o, orders w !! k = Some o → stale_pending (clock e (ticks w)) o →
    let r := CheckFarmConfirm.serve e m w in
    (∃ o', orders (world_of r) !! k = Some o' ∧
           cancelled_with e (ticks w) CheckFarmConfirm.reason o') ∧
    two_notices o (emitted_for k (writes_of r)).

(** The post-harvest sweep run in [w] cancels order [k] and emits its one
    notification whenever [k] is pending or confirmed and its product was
    harvested more than 7 days ago. *)
Definition harvest_sweep_cancels (e : Env) (m : string) (w : World) (k : string) : Prop :=
  m ≠ "OPTIONS" →
  ∀ o, orders w !! k = Some o → past_harvest_window (products w) (clock e (ticks w)) o →
    let r := AutoCancelOrders.serve e m w in
    (∃ o', orders (world_of r) !! k = Some o' ∧
           cancelled_with e (ticks w) AutoCancelOrders.reason o') ∧
    one_notice o (emitted_for k (writes_of r)).

(** Running [serve] under [e2] right after a run under [e1] cancels nothing
    more and emits nothing more. *)
Definition rerun_changes_nothing (serve : Env → string → M Response)
    (e1 e2 : Env) (m1 m2 : string) (w : World) : Prop :=
  let r1 := serve e1 m1 w in
  let r2 := serve e2 m2 (world_of r1) in
  orders (world_of r2) = orders (world_of r1) ∧ emitted (writes_of r2) = [].

(** The two scheduled jobs. *)
Inductive Sweep := StalePending | PostHarvest.

Definition serve_sweep (s : Sweep) : Env → string → M Response :=
  match s with
  | StalePending => CheckFarmConfirm.serve
  | PostHarvest => AutoCancelOrders.serve
  end.

Definition sweep_cancels (s : Sweep) : Env → string → World → string → Prop :=
  match s with
  | StalePending => stale_sweep_cancels
  | PostHarvest => harvest_sweep_cancels
  end.

(** A failed initial select is answered with status 500 and the message of
    the error in the body. *)
Definition fetch_failure_reported (s : Sweep) (e : Env) (m : string) (w : World) : Prop :=
  m ≠ "OPTIONS" →
  ∀ x, fetch_error e = Some x →
    result (serve_sweep s e m w) =
      {| status_code := 500; body := ErrorBody (thrown_message x) |}.

(** Sample data: one order of buyer [u1] at farm [f1] for product [p1],
    created at instant 0; the product was harvested on day 1. *)
Definition sample_order (st : order_status) : Order :=
  {| o_user_id := "u1"; o_farm_id := "f1"; o_product_id := "p1";
     o_quantity := 2; o_total_price := 100; o_status := st;
     o_tracking_number := None; o_carrier := None;
     o_delivery_address := "12 Orchard Road"; o_delivery_notes := None;
     o_confirmed_at := None; o_shipped_at := None; o_delivered_at := None;
     o_cancelled_at := None; o_cancellation_reason := None;
     o_created_at := Some 0%Z; o_updated_at := Some 0%Z |}.

Definition sample_world (st : order_status) : World :=
  {| orders := {[ "o1" := sample_order st ]};
     products := {[ "p1" := mkProduct "f1" "Cavendish" 1 ]};
     reviews := []; notifications := []; ticks := 0 |}.

(** Instant 10^9 ms is day 11 after the epoch, 277 hours after instant 0. *)
Definition fixed_clock : nat → Z := λ _, 1000000000%Z.

(** Every request is accepted. *)
Definition env_ok : Env :=
  {| clock := fixed_clock; fetch_error := None;
     update_error := λ _, None; notification_error := λ _, None; review_error := None;
     review_select_error := None |}.

(** The store refuses every update. *)
Definition env_update_refused : Env :=
  {| clock := fixed_clock; fetch_error := None;
     update_error := λ _, Some (JsObject "permission denied for table orders");
     notification_error := λ _, None; review_error := None;
     review_select_error := None |}.

(** The select fails with the error object of the store client. *)
Definition env_fetch_refused : Env :=
  {| clock := fixed_clock;
     fetch_error := Some (JsObject "connection refused");
     update_error := λ _, None; notification_error := λ _, None; review_error := None;
     review_select_error := None |}.

(** The sample world with a second order, already shipped. *)
Definition two_orders_world : World :=
  {| orders := <["o2" := sample_order shipped]> {[ "o1" := sample_order pending ]};
     products := {[ "p1" := mkProduct "f1" "Cavendish" 1 ]};
     reviews := []; notifications := []; ticks := 0 |}.

(** A run in which the update of [o1] is refused and that of [o2] accepted. *)
Definition env_o1_refused : Env :=
  {| clock := fixed_clock; fetch_error := None;
     update_error := λ k, if bool_decide (k = "o1")
                          then Some (JsObject "permission denied for table orders")
                          else None;
     notification_error := λ _, None; review_error := None;
     review_select_error := None |}.

(** The select fails with an instance of [Error]. *)
Definition env_fetch_throws : Env :=
  {| clock := fixed_clock;
     fetch_error := Some (JsError "fetch failed");
     update_error := λ _, None; notification_error := λ _, None; review_error := None;
     review_select_error := None |}.

(** ** Sample data for the pages *)

(** The row [submitReview] sends for order [k]. *)
Definition review_row (k : string) (st : UserOrders.State) : Review :=
  {| r_order_id := k; r_user_id := k; r_farm_id := k;
     r_rating := UserOrders.rating st; r_comment := UserOrders.comment st |}.

(** The buyer has the review dialog open for the delivered sample order. *)
Definition review_state : UserOrders.State :=
  {| UserOrders.selectedOrder := Some "o1"; UserOrders.rating := 4;
     UserOrders.comment := "sweet"; UserOrders.openReview := true |}.

(** The farmer typed a single space into the ship modal of order [o1]. *)
Definition space_typed : ReservationOrders.State :=
  {| ReservationOrders.shippingId := Some "o1"; ReservationOrders.tracking := " " |}.

(** ** Further pages and views *)

(** Two rows that agree on every column a sweep does not write. *)
Definition same_order_data (o o' : Order) : Prop :=
  o_user_id o' = o_user_id o ∧
  o_farm_id o' = o_farm_id o ∧
  o_product_id o' = o_product_id o ∧
  o_quantity o' = o_quantity o ∧
  o_total_price o' = o_total_price o ∧
  o_tracking_number o' = o_tracking_number o ∧
  o_carrier o' = o_carrier o ∧
  o_delivery_address o' = o_delivery_address o ∧
  o_delivery_notes o' = o_delivery_notes o ∧
  o_confirmed_at o' = o_confirmed_at o ∧
  o_shipped_at o' = o_shipped_at o ∧
  o_delivered_at o' = o_delivered_at o ∧
  o_created_at o' = o_created_at o.

(** A sweep either keeps a row or leaves it cancelled with the other columns
    as they were. *)
Definition kept_or_cancelled (o o' : Order) : Prop :=
  o' = o ∨ (o_status o' = cancelled ∧ same_order_data o o').

(** The update requests among a list of writes. *)
Definition updates_sent (ws : list Write) : list Write :=
  List.filter (λ x, match x with UpdateRow _ _ _ => true | _ => false end) ws.

(** The filter of a sweep's select, on one row of [orders]. *)
Definition sweep_matches (s : Sweep) (w : World) (now : Z) (o : Order) : Prop :=
  match s with
  | StalePending => stale_pending now o
  | PostHarvest => past_harvest_window (products w) now o
  end.

Definition sweep_suffix (s : Sweep) : string :=
  match s with
  | StalePending => " unconfirmed orders"
  | PostHarvest => " orders"
  end.

Definition sweep_reason (s : Sweep) : string :=
  match s with
  | StalePending => CheckFarmConfirm.reason
  | PostHarvest => AutoCancelOrders.reason
  end.

(** *** OrderDetail.tsx: the "Update Order" card, lines 273-325 *)

Module OrderDetailCard.

(** The status the one button of the card asks for; no card is rendered for
    a delivered, cancelled or reviewed order. *)
Definition button (s : order_status) : option order_status :=
  match s with
  | pending => Some confirmed
  | confirmed => Some shipped
  | shipped => Some delivered
  | delivered | cancelled | reviewed => None
  end.

(** A click on the button of the card; the page renders nothing without an
    order, and the button is [disabled={updating}]. *)
Definition click (e : Env) (st : OrderDetail.State) : M (OrderDetail.State * list Toast) :=
  match OrderDetail.order st with
  | None => ret (st, [])
  | Some (_, o) =>
      match button (o_status o) with
      | None => ret (st, [])
      | Some newStatus =>
          if OrderDetail.updating st then ret (st, [])
          else OrderDetail.updateStatus e newStatus st
      end
  end.

End OrderDetailCard.

(** *** FarmOrders.tsx: the buckets and the tabs, lines 180-260 *)

Module FarmOrdersTabs.

(** The columns the page keeps of an order, lines 54-62. *)
Record Listed := mkListed {
  id : string;
  status : order_status;
  quantity : Z;
  tracking_number : option string;
  created_at : option Z
}.

Definition confirmed_rows (orders : list Listed) : list Listed :=
  filter (λ o, status o = confirmed) orders.

Definition shipping_rows (orders : list Listed) : list Listed :=
  filter (λ o, status o = shipped) orders.

Definition done_rows (orders : list Listed) : list Listed :=
  filter (λ o, status o = delivered ∨ status o = cancelled) orders.

Inductive Tab := tab_pending | tab_confirmed | tab_shipping | tab_done.

(** The rows of the table under a tab, each with whether a "Ship" button is
    offered; the pending tab renders no table. *)
Definition shown (tab : Tab) (orders : list Listed) : list (Listed * bool) :=
  match tab with
  | tab_pending => []
  | tab_confirmed => (λ o, (o, true)) <$> confirmed_rows orders
  | tab_shipping => (λ o, (o, false)) <$> shipping_rows orders
  | tab_done => (λ o, (o, false)) <$> done_rows orders
  end.

End FarmOrdersTabs.

(** *** The farm page of part_002: the buckets and the tabs, lines 126-279 *)

Module ReservationTabs.

(** The columns the page keeps of a row, lines 37-51; dates are day
    numbers, so [===] and [>] on two ISO dates are [=] and [>] on days. *)
Record Listed := mkListed {
  id : string;
  status : order_status;
  quantity : Z;
  created_at : option Z;
  delivery_date : option Z;
  tracking_number : option string
}.

Definition pending_rows (orders : list Listed) : list Listed :=
  filter (λ o, status o = pending) orders.

Definition confirmedToday (today : Z) (orders : list Listed) : list Listed :=
  filter (λ o, status o = confirmed ∧ delivery_date o = Some today) orders.

(** [o.delivery_date && o.delivery_date > today] *)
Definition later (today : Z) (o : Listed) : bool :=
  match delivery_date o with
  | Some d => (today <? d)%Z
  | None => false
  end.

Definition confirmedLater (today : Z) (orders : list Listed) : list Listed :=
  filter (λ o, status o = confirmed ∧ Is_true (later today o)) orders.

Definition shipping_rows (orders : list Listed) : list Listed :=
  filter (λ o, status o = shipped) orders.

Definition done_rows (orders : list Listed) : list Listed :=
  filter (λ o, status o = delivered ∨ status o = cancelled) orders.

Inductive Tab := tab_pending | tab_confirmed | tab_shipping | tab_done.

Inductive Action := act_confirm | act_cancel | act_ship.

Definition with_actions (acts : list Action) (rows : list Listed) : list (Listed * list Action) :=
  (λ o, (o, acts)) <$> rows.

(** The rows of the tables under a tab, each with the buttons of its row. *)
Definition shown (today : Z) (tab : Tab) (orders : list Listed)
    : list (Listed * list Action) :=
  match tab with
  | tab_pending => with_actions [act_confirm; act_cancel] (pending_rows orders)
  | tab_confirmed =>
      with_actions [act_ship] (confirmedToday today orders) ++
      with_actions [] (confirmedLater today orders)
  | tab_shipping => with_actions [] (shipping_rows orders)
  | tab_done => with_actions [] (done_rows orders)
  end.

End ReservationTabs.

(** *** The buyer's orders page (part_004): "received", lines 134-159 *)

Module UserOrdersReceive.

Section Actions.
Context (e : Env).

(** [from("orders").update(p).eq("id", id).eq("status", st).select().single()]:
    the request is issued; [single()] answers the row when exactly one was
    updated and an error object otherwise. *)
Definition update_orders_where_status (id : string) (st : order_status) (p : OrderPatch)
    : M (option (string * Order) * option JsThrown) :=
  λ w,
    match update_error e id with
    | Some err => (None, Some err, w, [UpdateRow orders_table id p])
    | None =>
        match orders w !! id with
        | Some o =>
            if bool_decide (o_status o = st) then
              let o' := touch (clock e (ticks w)) (apply_patch p o) in
              (Some (id, o'), None, tick (set_orders (insert id o') w),
               [UpdateRow orders_table id p])
            else
              (None, Some (JsObject "JSON object requested, multiple (or no) rows returned"),
               w, [UpdateRow orders_table id p])
        | None =>
            (None, Some (JsObject "JSON object requested, multiple (or no) rows returned"),
             w, [UpdateRow orders_table id p])
        end
    end.

Definition confirmReceived (orderId : string) (st : UserOrders.State)
    : M (UserOrders.State * list Toast) :=
  let* now := new_Date e in
  let* answer :=
    update_orders_where_status orderId shipped
      {| set_status := Some delivered;
         set_tracking_number := None;
         set_carrier := None;
         set_confirmed_at := None;
         set_shipped_at := None;
         set_delivered_at := Some now;
         set_cancelled_at := None;
         set_cancellation_reason := None |} in
  match answer with
  | (Some (id, _), None) =>
      ret ({| UserOrders.selectedOrder := Some id;
              UserOrders.rating := UserOrders.rating st;
              UserOrders.comment := UserOrders.comment st;
              UserOrders.openReview := true |},
           [toast_success "ยืนยันรับสินค้าเรียบร้อย"])
  | _ => ret (st, [toast_error "ไม่สามารถยืนยันรับสินค้าได้"])
  end.
End Actions.

End UserOrdersReceive.

(** *** Row-level policy of [reviews] (part_001, line 189) *)

Module Policies.

(** [FOR INSERT WITH CHECK (auth.uid() = user_id)] *)
Definition reviews_insert_check (uid : string) (r : Review) : bool :=
  bool_decide (uid = r_user_id r).

End Policies.

(** *** FarmDashboard (part_002): the order figures, lines 461-472 *)

Module FarmDashboard.




End FarmDashboard.

(** *** Further sample data *)

(** Every request is accepted and the clock shows instant [t]. *)
Definition env_at (t : Z) : Env :=
  {| clock := λ _, t; fetch_error := None;
     update_error := λ _, None; notification_error := λ _, None; review_error := None;
     review_select_error := None |}.

(** The order page of the farm shows the sample order in status [st], with
    [tracking] typed into the field. *)
Definition detail_state (st : order_status) (tracking : string) : OrderDetail.State :=
  {| OrderDetail.order := Some ("o1", sample_order st);
     OrderDetail.trackingNumber := tracking;
     OrderDetail.updating := false |}.

(** The ship modal of [FarmOrders] is open for the sample order, with a
    carrier and a padded tracking number typed in. *)
Definition ship_modal : FarmOrders.State :=
  {| FarmOrders.shippingId := Some "o1";
     FarmOrders.tracking := " TH123 ";
     FarmOrders.carrier := "Kerry" |}.

(** Rows of the two farm pages, for the tabs. *)
Definition listed_row (k : string) (st : order_status) : FarmOrdersTabs.Listed :=
  {| FarmOrdersTabs.id := k; FarmOrdersTabs.status := st; FarmOrdersTabs.quantity := 2;
     FarmOrdersTabs.tracking_number := None; FarmOrdersTabs.created_at := Some 0%Z |}.

Definition reserved_row (k : string) (st : order_status) (due : option Z)
    : ReservationTabs.Listed :=
  {| ReservationTabs.id := k; ReservationTabs.status := st; ReservationTabs.quantity := 2;
     ReservationTabs.created_at := Some 0%Z; ReservationTabs.delivery_date := due;
     ReservationTabs.tracking_number := None |}.

(** The constraints of part_001 on [reviews] that lie within the modelled
    tables: [order_id] is unique and references an order, [rating] is
    between 1 and 5. *)
Definition reviews_wf (w : World) : Prop :=
  NoDup (r_order_id <$> reviews w) ∧
  ∀ r, r ∈ reviews w → (1 ≤ r_rating r ≤ 5)%Z ∧ is_Some (orders w !! r_order_id r).

(** The buyer's page with nothing selected and the dialog's defaults. *)
Definition orders_page : UserOrders.State :=
  {| UserOrders.selectedOrder := None; UserOrders.rating := 5;
     UserOrders.comment := ""; UserOrders.openReview := false |}.

(** The store refuses updates of [orders] and accepts everything else. *)
Definition env_status_refused : Env :=
  {| clock := fixed_clock; fetch_error := None;
     update_error := λ _, Some (JsObject "permission denied for table orders");
     notification_error := λ _, None; review_error := None;
     review_select_error := None |}.

(** *** The buyer's orders page as a whole (part_004, lines 60-64, 226-340)

    What the buyer can do on the page: press "received" on a row, and, in
    the review dialog, press one of the five rating buttons, type a
    comment, submit, or open and close the dialog.  The page offers
    "received" for the rows of its shipping list only and never opens the
    dialog through [onOpenChange]; the transitions below are defined for
    every order id and both values, which covers what the page offers. *)

Module UserOrdersPage.

(** [[1, 2, 3, 4, 5].map((n) => <Button onClick={() => setRating(n)}>)] *)
Definition stars : list Z := [1; 2; 3; 4; 5]%Z.

Inductive Action :=
| act_received (orderId : string)
| act_star (i : nat)
| act_comment (text : string)
| act_open_change (open : bool)
| act_submit.

Definition setRating (n : Z) (st : UserOrders.State) : UserOrders.State :=
  {| UserOrders.selectedOrder := UserOrders.selectedOrder st;
     UserOrders.rating := n;
     UserOrders.comment := UserOrders.comment st;
     UserOrders.openReview := UserOrders.openReview st |}.

Definition setComment (text : string) (st : UserOrders.State) : UserOrders.State :=
  {| UserOrders.selectedOrder := UserOrders.selectedOrder st;
     UserOrders.rating := UserOrders.rating st;
     UserOrders.comment := text;
     UserOrders.openReview := UserOrders.openReview st |}.

Definition setOpenReview (open : bool) (st : UserOrders.State) : UserOrders.State :=
  {| UserOrders.selectedOrder := UserOrders.selectedOrder st;
     UserOrders.rating := UserOrders.rating st;
     UserOrders.comment := UserOrders.comment st;
     UserOrders.openReview := open |}.

(** One action; the content of the dialog exists only while it is open. *)
Definition step (e : Env) (a : Action) (st : UserOrders.State)
    : M (UserOrders.State * list Toast) :=
  match a with
  | act_received orderId => UserOrdersReceive.confirmReceived e orderId st
  | act_star i =>
      match stars !! i with
      | Some n => if UserOrders.openReview st then ret (setRating n st, []) else ret (st, [])
      | None => ret (st, [])
      end
  | act_comment text =>
      if UserOrders.openReview st then ret (setComment text st, []) else ret (st, [])
  | act_open_change open => ret (setOpenReview open st, [])
  | act_submit =>
      if UserOrders.openReview st then UserOrders.submitReview e st else ret (st, [])
  end.

(** A session: actions one after the other, each under the surroundings of
    its moment. *)
Fixpoint run (steps : list (Env * Action)) (st : UserOrders.State)
    : M (UserOrders.State * list Toast) :=
  match steps with
  | [] => ret (st, [])
  | (e, a) :: rest =>
      let* r := step e a st in
      let* r' := run rest (fst r) in
      ret (fst r', snd r ++ snd r')
  end.

End UserOrdersPage.

(** The status of the order with key [k], if there is one. *)
Definition status_at (w : World) (k : string) : option order_status :=
  o_status <$> orders w !! k.

(** What holds of the buyer's page and the store during a session that
    started in world [w0], when nothing else writes to the store. *)
Definition session_inv (w0 : World) (st : UserOrders.State) (w : World) : Prop :=
  (1 ≤ UserOrders.rating st ≤ 5)%Z ∧
  (∀ k, UserOrders.selectedOrder st = Some k →
        status_at w0 k = Some shipped ∧ status_at w k = Some delivered) ∧
  (∀ k, status_at w k = status_at w0 k ∨
        (status_at w0 k = Some shipped ∧
         (status_at w k = Some delivered ∨ status_at w k = Some reviewed))) ∧
  (∀ rv, rv ∈ reviews w →
         rv ∈ reviews w0 ∨
         ((1 ≤ r_rating rv ≤ 5)%Z ∧
          status_at w0 (r_order_id rv) = Some shipped ∧
          (status_at w (r_order_id rv) = Some delivered ∨
           status_at w (r_order_id rv) = Some reviewed))).

(** *** OrderDetail.tsx: [loadOrder], lines 61-123 *)

Module OrderDetailLoad.

Inductive Route := route_login | route_dashboard | route_farm_orders.

(** What [loadOrder] reads besides [orders]: the session's user, the table
    [farm_profiles] as the profile id of each user ([user_id] is unique,
    part_001 line 29), and the errors of its two selects, if any. *)
Record Reads := mkReads {
  session : option string;
  farm_profiles : gmap string string;
  farm_error : option JsThrown;
  order_error : option JsThrown
}.

(** The [catch] block. *)
Definition failed (x : JsThrown) (st : OrderDetail.State)
    : OrderDetail.State * list Toast * option Route :=
  (st,
   [toast_error match x with
                | JsError message => message
                | JsObject _ => "Failed to load order"
                end],
   Some route_farm_orders).

(** The page's copy of the order is kept as the whole row, of which the page
    reads the selected columns; the result is the state, the toasts and the
    route navigated to, if any. *)
Definition loadOrder (rd : Reads) (id : string) (st : OrderDetail.State) (w : World)
    : OrderDetail.State * list Toast * option Route :=
  match session rd with
  | None => (st, [], Some route_login)
  | Some uid =>
      match farm_error rd with
      | Some x => failed x st
      | None =>
          match farm_profiles rd !! uid with
          | None => (st, [toast_error "No farm profile found"], Some route_dashboard)
          | Some farm =>
              match order_error rd with
              | Some x => failed x st
              | None =>
                  match filter (λ kv, kv.1 = id ∧ o_farm_id kv.2 = farm)
                          (map_to_list (orders w)) with
                  | [] => (st, [toast_error "Order not found"], Some route_farm_orders)
                  | [(k, o)] =>
                      ({| OrderDetail.order := Some (k, o);
                          OrderDetail.trackingNumber := default "" (o_tracking_number o);
                          OrderDetail.updating := OrderDetail.updating st |},
                       [], None)
                  | _ =>
                      failed (JsObject "JSON object requested, multiple (or no) rows returned")
                        st
                  end
              end
          end
      end
  end.

(** The page when it is mounted: no order yet, an empty tracking field. *)
Definition mounted : OrderDetail.State :=
  {| OrderDetail.order := None; OrderDetail.trackingNumber := "";
     OrderDetail.updating := false |}.

(** [onChange={(e) => setTrackingNumber(e.target.value)}] *)
Definition setTrackingNumber (text : string) (st : OrderDetail.State) : OrderDetail.State :=
  {| OrderDetail.order := OrderDetail.order st;
     OrderDetail.trackingNumber := text;
     OrderDetail.updating := OrderDetail.updating st |}.

End OrderDetailLoad.

(** The farmer [fu1], whose farm profile has id [f1], is signed in. *)
Definition farmer_reads : OrderDetailLoad.Reads :=
  {| OrderDetailLoad.session := Some "fu1";
     OrderDetailLoad.farm_profiles := {[ "fu1" := "f1" ]};
     OrderDetailLoad.farm_error := None;
     OrderDetailLoad.order_error := None |}.

(** Rows and buttons of that page can be compared. *)
#[global] Instance ReservationTabs_Listed_eq_dec : EqDecision ReservationTabs.Listed.
Proof. solve_decision. Defined.

#[global] Instance ReservationTabs_Action_eq_dec : EqDecision ReservationTabs.Action.
Proof. solve_decision. Defined.

(** *** The farm page of part_002 as a whole

    The page keeps the loaded rows, the tab and the ship modal.  [today] is
    read at every render, but the five buckets are memoised on [orders]
    (lines 128-166): they are those of the render that followed the last
    [setOrders], so the page also keeps the day of that render.  What
    happens on the page: a call of [loadOrders] comes back (on mount, after
    an accepted update), the farmer changes the tab, presses a button of a
    listed row, types into the tracking field of the ship modal, presses
    "Confirm" there. *)

Module ReservationPage.

(** What a call of [loadOrders] came to, lines 72-103: no session, an error
    of the select, or its [data]. *)
Inductive Loaded :=
| load_no_session
| load_error (x : JsThrown)
| load_rows (data : option (list ReservationTabs.Listed)).

Record Page := mkPage {
  modal : ReservationOrders.State;
  tab : ReservationTabs.Tab;
  rows : list ReservationTabs.Listed;
  bucket_day : Z
}.

Inductive Event :=
| ev_load (answer : Loaded)
| ev_tab (t : ReservationTabs.Tab)
| ev_press (row : ReservationTabs.Listed) (a : ReservationTabs.Action)
| ev_type (text : string)
| ev_confirm.

Definition setModal (m : ReservationOrders.State) (pg : Page) : Page :=
  {| modal := m; tab := tab pg; rows := rows pg; bucket_day := bucket_day pg |}.

(** The tables on the screen. *)
Definition on_screen (pg : Page)
    : list (ReservationTabs.Listed * list ReservationTabs.Action) :=
  ReservationTabs.shown (bucket_day pg) (tab pg) (rows pg).

(** Button [a] is on the screen, on [row]. *)
Definition offered (pg : Page) (row : ReservationTabs.Listed) (a : ReservationTabs.Action)
    : bool :=
  bool_decide (Exists (λ x, x.1 = row ∧ a ∈ x.2) (on_screen pg)).

(** One event.  A press on a button that is not on the screen does not
    happen.  [setOrders(data || [])] is followed by a render, whose
    [new Date()] is the clock reading taken here; the readings of the other
    renders are not used by the memoised buckets and are left out. *)
Definition step (e : Env) (ev : Event) (pg : Page) : M (Page * list Toast) :=
  match ev with
  | ev_load load_no_session => ret (pg, [])
  | ev_load (load_error x) => ret (pg, [toast_error (thrown_message x)])
  | ev_load (load_rows data) =>
      let* now := new_Date e in
      ret ({| modal := modal pg; tab := tab pg;
              rows := default [] data; bucket_day := iso_date now |}, [])
  | ev_tab t =>
      ret ({| modal := modal pg; tab := t; rows := rows pg;
              bucket_day := bucket_day pg |}, [])
  | ev_press row a =>
      if offered pg row a then
        match a with
        | ReservationTabs.act_confirm =>
            let* toasts := ReservationOrders.click_confirm e (ReservationTabs.id row) in
            ret (pg, toasts)
        | ReservationTabs.act_cancel =>
            let* toasts := ReservationOrders.click_cancel e (ReservationTabs.id row) in
            ret (pg, toasts)
        | ReservationTabs.act_ship =>
            ret (setModal
                   {| ReservationOrders.shippingId := Some (ReservationTabs.id row);
                      ReservationOrders.tracking := ReservationOrders.tracking (modal pg) |}
                   pg, [])
        end
      else ret (pg, [])
  | ev_type text =>
      match ReservationOrders.shippingId (modal pg) with
      | Some _ =>
          ret (setModal
                 {| ReservationOrders.shippingId := ReservationOrders.shippingId (modal pg);
                    ReservationOrders.tracking := text |} pg, [])
      | None => ret (pg, [])
      end
  | ev_confirm =>
      let* r := ReservationOrders.click_confirm_shipment e (modal pg) in
      ret (setModal (fst r) pg, snd r)
  end.

Fixpoint run (steps : list (Env * Event)) (pg : Page) : M (Page * list Toast) :=
  match steps with
  | [] => ret (pg, [])
  | (e, ev) :: rest =>
      let* r := step e ev pg in
      let* r' := run rest (fst r) in
      ret (fst r', snd r ++ snd r')
  end.

(** The page when it is mounted on day [day], lines 58-64. *)
Definition mounted (day : Z) : Page :=
  {| modal := {| ReservationOrders.shippingId := None; ReservationOrders.tracking := "" |};
     tab := ReservationTabs.tab_pending;
     rows := [];
     bucket_day := day |}.

(** The event is a load that sets the rows. *)
Definition sets_rows (ev : Event) : bool :=
  match ev with
  | ev_load (load_rows _) => true
  | _ => false
  end.

(** What an update sent after a press of button [a] on [row], on page [pg],
    asks for. *)
Definition answers (pg : Page) (row : ReservationTabs.Listed) (a : ReservationTabs.Action)
    (p : OrderPatch) : Prop :=
  match a with
  | ReservationTabs.act_confirm =>
      ReservationTabs.status row = pending ∧ set_status p = Some confirmed
  | ReservationTabs.act_cancel =>
      ReservationTabs.status row = pending ∧ set_status p = Some cancelled ∧
      set_cancellation_reason p = None
  | ReservationTabs.act_ship =>
      ReservationTabs.status row = confirmed ∧
      ReservationTabs.delivery_date row = Some (bucket_day pg) ∧
      set_status p = Some shipped ∧
      ∃ text, set_tracking_number p = Some text ∧ text ≠ ""
  end.

End ReservationPage.

(** *** The page FarmOrders.tsx as a whole

    The pending tab shows no rows and nothing calls [confirmReservation] or
    [cancelReservation], so what the farmer can do is: press "Ship" on a
    listed row, type into the two fields of the ship modal, press "Confirm
    Shipment". *)

Module FarmOrdersPage.

Record Press := mkPress {
  tab : FarmOrdersTabs.Tab;
  listed : list FarmOrdersTabs.Listed;
  row : FarmOrdersTabs.Listed
}.

(** The row pressed is one the page shows with a "Ship" button. *)
Definition offered (pr : Press) : Prop :=
  (row pr, true) ∈ FarmOrdersTabs.shown (tab pr) (listed pr).

Inductive Event :=
| ev_ship (pr : Press)
| ev_carrier (text : string)
| ev_tracking (text : string)
| ev_confirm.

Definition step (e : Env) (ev : Event) (st : FarmOrders.State)
    : M (FarmOrders.State * list Toast) :=
  match ev with
  | ev_ship pr =>
      ret ({| FarmOrders.shippingId := Some (FarmOrdersTabs.id (row pr));
              FarmOrders.tracking := FarmOrders.tracking st;
              FarmOrders.carrier := FarmOrders.carrier st |}, [])
  | ev_carrier text =>
      match FarmOrders.shippingId st with
      | Some _ =>
          ret ({| FarmOrders.shippingId := FarmOrders.shippingId st;
                  FarmOrders.tracking := FarmOrders.tracking st;
                  FarmOrders.carrier := text |}, [])
      | None => ret (st, [])
      end
  | ev_tracking text =>
      match FarmOrders.shippingId st with
      | Some _ =>
          ret ({| FarmOrders.shippingId := FarmOrders.shippingId st;
                  FarmOrders.tracking := text;
                  FarmOrders.carrier := FarmOrders.carrier st |}, [])
      | None => ret (st, [])
      end
  | ev_confirm => FarmOrders.click_confirm_shipment e st
  end.

Fixpoint run (steps : list (Env * Event)) (st : FarmOrders.State)
    : M (FarmOrders.State * list Toast) :=
  match steps with
  | [] => ret (st, [])
  | (e, ev) :: rest =>
      let* r := step e ev st in
      let* r' := run rest (fst r) in
      ret (fst r', snd r ++ snd r')
  end.

(** The page when it is mounted, lines 76-78. *)
Definition mounted : FarmOrders.State :=
  {| FarmOrders.shippingId := None; FarmOrders.tracking := ""; FarmOrders.carrier := "" |}.

Definition presses_offered (steps : list (Env * Event)) : Prop :=
  Forall (λ s, match s.2 with ev_ship pr => offered pr | _ => True end) steps.

End FarmOrdersPage.

(** A session on each farm page: the farmer ships one row. *)
Definition reservation_session : list (Env * ReservationPage.Event) :=
  [(env_ok,
    ReservationPage.ev_load
      (ReservationPage.load_rows (Some [reserved_row "o1" confirmed (Some 11%Z)])));
   (env_ok, ReservationPage.ev_tab ReservationTabs.tab_confirmed);
   (env_ok,
    ReservationPage.ev_press (reserved_row "o1" confirmed (Some 11%Z))
      ReservationTabs.act_ship);
   (env_ok, ReservationPage.ev_type "TH123");
   (env_ok, ReservationPage.ev_confirm)].

Definition farm_orders_session : list (Env * FarmOrdersPage.Event) :=
  [(env_ok,
    FarmOrdersPage.ev_ship
      {| FarmOrdersPage.tab := FarmOrdersTabs.tab_confirmed;
         FarmOrdersPage.listed := [listed_row "o1" confirmed];
         FarmOrdersPage.row := listed_row "o1" confirmed |});
   (env_ok, FarmOrdersPage.ev_carrier "Kerry");
   (env_ok, FarmOrdersPage.ev_tracking " TH123 ");
   (env_ok, FarmOrdersPage.ev_confirm)].


(** * Proofs *)

(** ** Facts about the monad and the loop *)

Lemma world_of_triple {A} (a : A) (w : World) (t : list Write) : world_of (a, w, t) = w.
Proof. reflexivity. Qed.

Lemma writes_of_triple {A} (a : A) (w : World) (t : list Write) : writes_of (a, w, t) = t.
Proof. reflexivity. Qed.

Lemma result_triple {A} (a : A) (w : World) (t : list Write) : result (a, w, t) = a.
Proof. reflexivity. Qed.

Lemma writes_of_bind {A B} (m : M A) (k : A → M B) (w : World) :
  writes_of (bind m k w) = writes_of (m w) ++ writes_of (k (result (m w)) (world_of (m w))).
Proof.
  unfold bind, writes_of, result, world_of.
  destruct (m w) as [[a w1] t1]. cbn. by destruct (k a w1) as [[b w2] t2].
Qed.

Lemma writes_of_update_orders (e : Env) (id : string) (p : OrderPatch) (w : World) :
  writes_of (update_orders e id p w) = [UpdateRow orders_table id p].
Proof.
  unfold update_orders. destruct (update_error e id); [done|].
  by destruct (orders w !! id).
Qed.

Lemma for_each_ext {A} (f g : A → M unit) (l : list A) (w : World) :
  (∀ x w', f x w' = g x w') → for_each l f w = for_each l g w.
Proof.
  intros Hfg. revert w.
  induction l as [|x l IH]; intros w; [reflexivity|].
  cbn. unfold bind. rewrite Hfg.
  destruct (g x w) as [[[] w1] t1]. by rewrite IH.
Qed.

Lemma emitted_app (ws1 ws2 : list Write) :
  emitted (ws1 ++ ws2) = emitted ws1 ++ emitted ws2.
Proof. apply omap_app. Qed.

Lemma emitted_for_app (k : string) (ws1 ws2 : list Write) :
  emitted_for k (ws1 ++ ws2) = emitted_for k ws1 ++ emitted_for k ws2.
Proof. unfold emitted_for. by rewrite emitted_app, List.filter_app. Qed.

Lemma emitted_inserts (ns : list Notification) :
  emitted (InsertNotification <$> ns) = ns.
Proof. unfold emitted. induction ns as [|n ns IH]; [done|]. cbn. by rewrite IH. Qed.

Lemma notify_cons (e : Env) (n : Notification) (ns : list Notification) (w : World) :
  notify e (n :: ns) w = notify e ns (deliver e n w).
Proof. reflexivity. Qed.

Lemma deliver_notifications (e : Env) (n : Notification) (w : World) :
  notifications (deliver e n w) = notifications w ++ List.filter (stored e) [n].
Proof.
  unfold deliver. cbn. destruct (stored e n); [done|]. by rewrite app_nil_r.
Qed.

Lemma deliver_tables (e : Env) (n : Notification) (w : World) :
  orders (deliver e n w) = orders w ∧
  products (deliver e n w) = products w ∧
  reviews (deliver e n w) = reviews w.
Proof. unfold deliver. by destruct (stored e n). Qed.

Lemma notify_notifications (e : Env) (ns : list Notification) (w : World) :
  notifications (notify e ns w) = notifications w ++ List.filter (stored e) ns.
Proof.
  revert w. induction ns as [|n ns IH]; intros w.
  - cbn. by rewrite app_nil_r.
  - rewrite notify_cons, IH, deliver_notifications, <- app_assoc.
    by rewrite <- List.filter_app.
Qed.

Lemma notify_orders (e : Env) (ns : list Notification) (w : World) :
  orders (notify e ns w) = orders w.
Proof.
  revert w. induction ns as [|n ns IH]; intros w; [done|].
  rewrite notify_cons, IH. apply deliver_tables.
Qed.

Lemma notify_products (e : Env) (ns : list Notification) (w : World) :
  products (notify e ns w) = products w.
Proof.
  revert w. induction ns as [|n ns IH]; intros w; [done|].
  rewrite notify_cons, IH. apply deliver_tables.
Qed.

Lemma notify_ticks (e : Env) (ns : list Notification) (w : World) :
  ticks (notify e ns w) = ticks w.
Proof.
  revert w. induction ns as [|n ns IH]; intros w; [done|].
  rewrite notify_cons, IH. unfold deliver. by destruct (stored e n).
Qed.

Lemma notify_reviews (e : Env) (ns : list Notification) (w : World) :
  reviews (notify e ns w) = reviews w.
Proof.
  revert w. induction ns as [|n ns IH]; intros w; [done|].
  rewrite notify_cons, IH. apply deliver_tables.
Qed.

Lemma filter_all_true {B} (f : B → bool) (l : list B) :
  (∀ x, x ∈ l → f x = true) → List.filter f l = l.
Proof.
  induction l as [|x l IH]; intros H; [done|]. cbn.
  rewrite (H x) by left. f_equal. apply IH. intros y Hy. apply H. by right.
Qed.

Lemma filter_all_false {B} (f : B → bool) (l : list B) :
  (∀ x, x ∈ l → f x = false) → List.filter f l = [].
Proof.
  induction l as [|x l IH]; intros H; [done|]. cbn.
  rewrite (H x) by left. apply IH. intros y Hy. apply H. by right.
Qed.

(** The status a cancelling update leaves behind. *)
Lemma cancelled_row_status (t t' : Z) (reason : string) (o : Order) :
  o_status (touch t' (apply_patch (cancel_patch t reason) o)) = cancelled.
Proof. reflexivity. Qed.

Section CancelLoopFacts.
Context (e : Env) (reason : string).
Context {A : Type} (key : A → string) (notes : A → list Notification).
Hypothesis notes_about : ∀ r n, n ∈ notes r → n_related_order_id n = Some (key r).

Abbreviation loop := (cancel_rows e reason key notes).

Lemma cancel_rows_cons (r : A) (l : list A) (w : World) :
  loop (r :: l) w =
    let '(_, w1, t1) := cancel_row e reason (key r) (notes r) w in
    let '(_, w2, t2) := loop l w1 in
    (tt, w2, t1 ++ t2).
Proof.
  unfold cancel_rows. cbn. unfold bind.
  destruct (cancel_row _ _ _ _ w) as [[[] w1] t1].
  by destruct (for_each l _ w1) as [[[] w2] t2].
Qed.

(** One iteration: what it leaves alone. *)
Lemma cancel_row_frame (k : string) (ns : list Notification) (w : World) :
  let r := cancel_row e reason k ns w in
  products (world_of r) = products w ∧
  reviews (world_of r) = reviews w ∧
  notifications (world_of r) =
    notifications w ++ List.filter (stored e) (emitted (writes_of r)) ∧
  (∀ k', k' ≠ k → orders (world_of r) !! k' = orders w !! k').
Proof.
  unfold cancel_row, world_of, writes_of.
  destruct (update_error e k) as [err|]; cbn.
  { rewrite app_nil_r. done. }
  destruct (orders w !! k) as [o|] eqn:Hk; cbn;
    rewrite ?notify_products, ?notify_reviews, ?notify_notifications,
      ?notify_orders, ?emitted_inserts; cbn.
  - split_and!; try done. intros k' Hne. by rewrite lookup_insert_ne.
  - done.
Qed.

Lemma cancel_rows_frame (l : list A) (w : World) :
  let r := loop l w in
  products (world_of r) = products w ∧
  reviews (world_of r) = reviews w ∧
  notifications (world_of r) =
    notifications w ++ List.filter (stored e) (emitted (writes_of r)).
Proof.
  revert w. induction l as [|r l IH]; intros w.
  { cbn. by rewrite app_nil_r. }
  cbn zeta. rewrite cancel_rows_cons.
  pose proof (cancel_row_frame (key r) (notes r) w) as Hstep.
  destruct (cancel_row _ _ _ _ w) as [[[] w1] t1].
  specialize (IH w1). destruct (loop l w1) as [[[] w2] t2].
  unfold world_of, writes_of in *. cbn in *.
  destruct Hstep as (Hp & Hr & Hn & _). destruct IH as (Hp' & Hr' & Hn').
  rewrite Hp', Hr', Hn', Hp, Hr, Hn, emitted_app, List.filter_app, app_assoc. done.
Qed.
Lemma cancel_row_emitted (k : string) (ns : list Notification) (w : World) :
  emitted (writes_of (cancel_row e reason k ns w)) =
    match update_error e k with Some _ => [] | None => ns end.
Proof.
  unfold cancel_row, writes_of.
  destruct (update_error e k); [done|].
  destruct (orders w !! k); cbn; apply emitted_inserts.
Qed.

Lemma cancel_row_lookup (k : string) (ns : list Notification) (w : World) :
  orders (world_of (cancel_row e reason k ns w)) !! k =
    match update_error e k with
    | Some _ => orders w !! k
    | None =>
        touch (clock e (S (ticks w)))
          ∘ apply_patch (cancel_patch (clock e (ticks w)) reason) <$> orders w !! k
    end.
Proof.
  unfold cancel_row, world_of.
  destruct (update_error e k); [done|].
  destruct (orders w !! k) as [o|] eqn:Hk; cbn; rewrite notify_orders; cbn.
  - by rewrite lookup_insert_eq.
  - done.
Qed.

Lemma emitted_for_about (r : A) (k : string) :
  emitted_for k (InsertNotification <$> notes r) =
    if bool_decide (k = key r) then notes r else [].
Proof.
  unfold emitted_for. rewrite emitted_inserts.
  case_bool_decide as Hk.
  - subst. apply filter_all_true. intros n Hn. unfold about.
    apply bool_decide_eq_true. by apply notes_about.
  - apply filter_all_false. intros n Hn. unfold about.
    apply bool_decide_eq_false. rewrite (notes_about r n Hn). congruence.
Qed.

Lemma cancel_row_emitted_for (r : A) (k : string) (w : World) :
  emitted_for k (writes_of (cancel_row e reason (key r) (notes r) w)) =
    match update_error e (key r) with
    | Some _ => []
    | None => if bool_decide (k = key r) then notes r else []
    end.
Proof.
  unfold cancel_row, writes_of.
  destruct (update_error e (key r)); [done|].
  destruct (orders w !! key r); cbn [snd];
    change (UpdateRow ?t ?i ?p :: ?l) with ([UpdateRow t i p] ++ l);
    rewrite emitted_for_app, emitted_for_about; done.
Qed.

(** Rows whose key is not in the list are not written, and nothing is
    emitted for them. *)
Lemma cancel_rows_untouched (l : list A) (k : string) (w : World) :
  k ∉ key <$> l →
  orders (world_of (loop l w)) !! k = orders w !! k ∧
  emitted_for k (writes_of (loop l w)) = [].
Proof.
  revert w. induction l as [|r l IH]; intros w Hk; [done|].
  rewrite fmap_cons, not_elem_of_cons in Hk. destruct Hk as [Hne Hk].
  rewrite cancel_rows_cons.
  pose proof (cancel_row_frame (key r) (notes r) w) as (_ & _ & _ & Ho).
  pose proof (cancel_row_emitted_for r k w) as Hem.
  destruct (cancel_row _ _ _ _ w) as [[[] w1] t1].
  specialize (IH w1 Hk). destruct (loop l w1) as [[[] w2] t2].
  unfold world_of, writes_of in *. cbn [fst snd] in *.
  destruct IH as [IH1 IH2].
  rewrite IH1, (Ho k Hne), emitted_for_app, IH2, Hem.
  rewrite bool_decide_eq_false_2 by done. by destruct (update_error e (key r)).
Qed.

(** A row whose update the store refuses keeps its value, and nothing is
    emitted for it. *)
Lemma cancel_rows_refused (l : list A) (k : string) (w : World) :
  is_Some (update_error e k) →
  orders (world_of (loop l w)) !! k = orders w !! k ∧
  emitted_for k (writes_of (loop l w)) = [].
Proof.
  intros Herr. revert w. induction l as [|r l IH]; intros w; [done|].
  rewrite cancel_rows_cons.
  pose proof (cancel_row_frame (key r) (notes r) w) as (_ & _ & _ & Ho).
  pose proof (cancel_row_lookup (key r) (notes r) w) as Hl.
  pose proof (cancel_row_emitted_for r k w) as Hem.
  destruct (cancel_row _ _ _ _ w) as [[[] w1] t1].
  specialize (IH w1). destruct (loop l w1) as [[[] w2] t2].
  unfold world_of, writes_of in *. cbn [fst snd] in *.
  destruct IH as [IH1 IH2]. rewrite IH1, emitted_for_app, IH2, Hem.
  destruct (decide (k = key r)) as [->|Hne].
  - destruct Herr as [x Hx]. rewrite Hx in Hl |- *. done.
  - rewrite (Ho k Hne), bool_decide_eq_false_2 by done.
    by destruct (update_error e (key r)).
Qed.

(** A listed row whose update the store accepts ends cancelled, with the
    notifications of that row and no others. *)
Lemma cancel_row_ticks (k : string) (ns : list Notification) (w : World) :
  ticks w ≤ ticks (world_of (cancel_row e reason k ns w)).
Proof.
  unfold cancel_row, world_of.
  destruct (update_error e k); [cbn; lia|].
  destruct (orders w !! k); cbn [fst snd]; rewrite notify_ticks; cbn; lia.
Qed.

Lemma cancel_rows_done (l : list A) (r : A) (o : Order) (w : World) :
  NoDup (key <$> l) → r ∈ l →
  update_error e (key r) = None →
  orders w !! key r = Some o →
  (∃ i, ticks w ≤ i ∧
        orders (world_of (loop l w)) !! key r = Some (cancelled_row e reason i o)) ∧
  emitted_for (key r) (writes_of (loop l w)) = notes r.
Proof.
  revert w. induction l as [|r0 l IH]; intros w Hnd Hin Hok Hlook.
  { by apply elem_of_nil in Hin. }
  rewrite fmap_cons, NoDup_cons in Hnd. destruct Hnd as [Hfresh Hnd].
  rewrite cancel_rows_cons.
  pose proof (cancel_row_frame (key r0) (notes r0) w) as (_ & _ & _ & Ho).
  pose proof (cancel_row_lookup (key r0) (notes r0) w) as Hl.
  pose proof (cancel_row_emitted_for r0 (key r) w) as Hem.
  pose proof (cancel_row_ticks (key r0) (notes r0) w) as Hticks.
  destruct (cancel_row _ _ _ _ w) as [[[] w1] t1] eqn:Hstep.
  destruct (decide (key r = key r0)) as [Heq|Hne].
  - (* this iteration cancels the row; later ones have other keys *)
    pose proof (cancel_rows_untouched l (key r) w1) as Hrest.
    rewrite Heq in Hrest. specialize (Hrest Hfresh).
    destruct (loop l w1) as [[[] w2] t2].
    unfold world_of, writes_of in *. cbn [fst snd] in *.
    destruct Hrest as [R1 R2].
    rewrite Heq in Hok, Hlook, Hem |- *.
    rewrite Hok, Hlook in Hl. rewrite Hok in Hem.
    rewrite bool_decide_eq_true_2 in Hem by done.
    rewrite R1, Hl, emitted_for_app, R2, Hem, app_nil_r.
    assert (notes r = notes r0) as ->; [|by eauto].
    (* two rows with one key: excluded by the list having no duplicates *)
    apply elem_of_cons in Hin as [->|Hin]; [done|].
    exfalso. apply Hfresh. rewrite <- Heq. by apply list_elem_of_fmap_2.
  - apply elem_of_cons in Hin as [->|Hin]; [done|].
    specialize (IH w1 Hnd Hin Hok).
    destruct (loop l w1) as [[[] w2] t2].
    unfold world_of, writes_of in *. cbn [fst snd] in *.
    rewrite (Ho _ Hne) in IH. specialize (IH Hlook) as [(i & Hi & IH1) IH2].
    split; [exists i; split; [lia|done]|].
    rewrite emitted_for_app, IH2, Hem, bool_decide_eq_false_2 by done.
    by destruct (update_error e (key r0)).
Qed.

(** Whatever the loop does to a row, it either keeps it or leaves it
    cancelled. *)
Lemma cancel_rows_cases (l : list A) (k : string) (o' : Order) (w : World) :
  orders (world_of (loop l w)) !! k = Some o' →
  orders w !! k = Some o' ∨ o_status o' = cancelled.
Proof.
  revert w. induction l as [|r l IH]; intros w; [by left|].
  rewrite cancel_rows_cons.
  pose proof (cancel_row_frame (key r) (notes r) w) as (_ & _ & _ & Ho).
  pose proof (cancel_row_lookup (key r) (notes r) w) as Hl.
  destruct (cancel_row _ _ _ _ w) as [[[] w1] t1].
  specialize (IH w1). destruct (loop l w1) as [[[] w2] t2].
  unfold world_of in *. cbn [fst snd] in *.
  intros H. apply IH in H as [H|H]; [|by right].
  destruct (decide (k = key r)) as [->|Hne].
  - rewrite Hl in H. destruct (update_error e (key r)); [by left|].
    destruct (orders w !! key r); [|done]. right. cbn in H. by simplify_eq.
  - left. by rewrite <- (Ho k Hne).
Qed.

(** Every listed row gets its update request. *)
Lemma cancel_rows_requests (l : list A) (r : A) (w : World) :
  r ∈ l → ∃ p, UpdateRow orders_table (key r) p ∈ writes_of (loop l w).
Proof.
  revert w. induction l as [|r0 l IH]; intros w Hin.
  { by apply elem_of_nil in Hin. }
  rewrite cancel_rows_cons.
  assert (∃ p, UpdateRow orders_table (key r0) p
                 ∈ writes_of (cancel_row e reason (key r0) (notes r0) w)) as Hhd.
  { unfold cancel_row, writes_of.
    destruct (update_error e (key r0)); [eexists; left|].
    destruct (orders w !! key r0); eexists; left. }
  destruct (cancel_row _ _ _ _ w) as [[[] w1] t1].
  specialize (IH w1). destruct (loop l w1) as [[[] w2] t2].
  unfold writes_of in *. cbn [fst snd] in *.
  apply elem_of_cons in Hin as [->|Hin].
  - destruct Hhd as [p Hp]. exists p. apply elem_of_app. by left.
  - destruct (IH Hin) as [p Hp]. exists p. apply elem_of_app. by right.
Qed.
End CancelLoopFacts.

(** ** Facts about the selects *)

Section SelectFacts.
Context {A : Type} (key : A → string) (f : string * Order → option A).
Hypothesis f_key : ∀ kv r, f kv = Some r → key r = kv.1.

Lemma selected_keys_sub (l : list (string * Order)) (k : string) :
  k ∈ key <$> omap f l → k ∈ l.*1.
Proof.
  intros (r & -> & Hr)%list_elem_of_fmap.
  apply list_elem_of_omap in Hr as (kv & Hkv & Hf).
  rewrite (f_key _ _ Hf). by apply list_elem_of_fmap_2.
Qed.

Lemma selected_NoDup_list (l : list (string * Order)) :
  NoDup l.*1 → NoDup (key <$> omap f l).
Proof.
  induction l as [|kv l IH]; intros Hnd; [constructor|].
  rewrite fmap_cons, NoDup_cons in Hnd. destruct Hnd as [Hfresh Hnd].
  cbn. destruct (f kv) as [r|] eqn:Hf; [|by apply IH].
  rewrite fmap_cons, NoDup_cons. split; [|by apply IH].
  rewrite (f_key _ _ Hf). intros Hin. by apply Hfresh, selected_keys_sub.
Qed.

(** The primary key makes the keys of a select distinct. *)
Lemma selected_NoDup (m : gmap string Order) :
  NoDup (key <$> omap f (map_to_list m)).
Proof. apply selected_NoDup_list, NoDup_fst_map_to_list. Qed.

Lemma selected_elem (m : gmap string Order) (r : A) :
  r ∈ omap f (map_to_list m) ↔ ∃ k o, m !! k = Some o ∧ f (k, o) = Some r.
Proof.
  rewrite list_elem_of_omap. split.
  - intros ([k o] & Hin & Hf). exists k, o. by rewrite <- elem_of_map_to_list.
  - intros (k & o & Hm & Hf). exists (k, o). by rewrite elem_of_map_to_list.
Qed.

Lemma selected_key_elem (m : gmap string Order) (k : string) :
  k ∈ key <$> omap f (map_to_list m) ↔ ∃ o, m !! k = Some o ∧ is_Some (f (k, o)).
Proof.
  rewrite list_elem_of_fmap. split.
  - intros (r & -> & (k' & o & Hm & Hf)%selected_elem).
    rewrite (f_key _ _ Hf). cbn. eauto.
  - intros (o & Hm & [r Hf]). exists r. split.
    + by rewrite (f_key _ _ Hf).
    + apply selected_elem. eauto.
Qed.

Lemma selected_nil (m : gmap string Order) :
  (∀ k o, m !! k = Some o → f (k, o) = None) → omap f (map_to_list m) = [].
Proof.
  intros Hnone. destruct (omap f (map_to_list m)) as [|r l] eqn:Hl; [done|].
  assert (r ∈ omap f (map_to_list m)) as Hin by (rewrite Hl; left).
  apply selected_elem in Hin as (k & o & Hm & Hf).
  rewrite (Hnone _ _ Hm) in Hf. done.
Qed.
End SelectFacts.

Lemma cancelled_row_cancelled_with (e : Env) (since i : nat) (reason : string) (o : Order) :
  since < i → cancelled_with e since reason (cancelled_row e reason i o).
Proof. intros Hi. unfold cancelled_with. cbn. eauto. Qed.

Lemma iso_date_week (now : Z) : iso_date (now - 7 * day_ms) = (iso_date now - 7)%Z.
Proof.
  unfold iso_date, day_ms.
  replace (now - 7 * 86400000)%Z with (now + (-7) * 86400000)%Z by lia.
  rewrite Z.div_add by lia. lia.
Qed.

Lemma CheckFarmConfirm_matches_iff (now : Z) (o : Order) :
  CheckFarmConfirm.matches (now - 48 * hour_ms) o = true ↔ stale_pending now o.
Proof.
  unfold CheckFarmConfirm.matches, stale_pending.
  rewrite andb_true_iff, bool_decide_eq_true.
  destruct (o_created_at o) as [t|]; split.
  - intros [Hs Ht]. split; [done|]. exists t. split; [done|].
    apply Z.ltb_lt in Ht. lia.
  - intros [Hs (t' & Ht' & Hlt)]. simplify_eq. split; [done|].
    apply Z.ltb_lt. lia.
  - intros [_ ?]; done.
  - intros [_ (t' & ? & _)]; done.
Qed.

Lemma CheckFarmConfirm_select_row_iff (now : Z) (k : string) (o : Order) :
  is_Some (CheckFarmConfirm.select_row (now - 48 * hour_ms) (k, o)) ↔ stale_pending now o.
Proof.
  rewrite <- CheckFarmConfirm_matches_iff. unfold CheckFarmConfirm.select_row. cbn.
  destruct (CheckFarmConfirm.matches _ o); split; intros H;
    try done; try (by eexists); by destruct H.
Qed.

Lemma AutoCancelOrders_select_row_iff (ps : gmap string Product) (now : Z)
    (k : string) (o : Order) :
  is_Some (AutoCancelOrders.select_row ps (iso_date (now - 7 * day_ms)) (k, o))
  ↔ past_harvest_window ps now o.
Proof.
  rewrite iso_date_week.
  unfold AutoCancelOrders.select_row, AutoCancelOrders.status_in, past_harvest_window.
  cbn. destruct (ps !! o_product_id o) as [p|]; split.
  - destruct (_ && _) eqn:Hb; [intros _|by intros []].
    apply andb_true_iff in Hb as [Hs Hd].
    apply orb_true_iff in Hs. rewrite !bool_decide_eq_true in Hs.
    apply Z.ltb_lt in Hd. split; [done|]. exists p. split; [done|lia].
  - intros [Hs (p' & Hp' & Hlt)]. simplify_eq.
    assert ((bool_decide (o_status o = pending) || bool_decide (o_status o = confirmed))
            && (p_harvest_date p' <? iso_date now - 7)%Z = true) as ->; [|by eexists].
    apply andb_true_iff. split.
    + apply orb_true_iff. by rewrite !bool_decide_eq_true.
    + apply Z.ltb_lt. lia.
  - by intros [].
  - intros [_ (p' & ? & _)]; done.
Qed.

Lemma CheckFarmConfirm_select_row_key (thr : Z) (kv : string * Order)
    (r : CheckFarmConfirm.Row) :
  CheckFarmConfirm.select_row thr kv = Some r → CheckFarmConfirm.id r = kv.1.
Proof.
  unfold CheckFarmConfirm.select_row.
  destruct (CheckFarmConfirm.matches thr kv.2); intros; by simplify_eq.
Qed.

Lemma AutoCancelOrders_select_row_key (ps : gmap string Product) (cutoff : Z)
    (kv : string * Order) (r : AutoCancelOrders.Row) :
  AutoCancelOrders.select_row ps cutoff kv = Some r → AutoCancelOrders.id r = kv.1.
Proof.
  unfold AutoCancelOrders.select_row.
  destruct (ps !! _); [|done].
  destruct (_ && _); intros; by simplify_eq.
Qed.

(** ** The handlers in closed form *)

Lemma CheckFarmConfirm_cancel_one_closed (e : Env) (r : CheckFarmConfirm.Row) (w : World) :
  CheckFarmConfirm.cancel_one e r w =
    cancel_row e CheckFarmConfirm.reason (CheckFarmConfirm.id r) (CheckFarmConfirm.notes r) w.
Proof.
  unfold CheckFarmConfirm.cancel_one, cancel_row, bind, new_Date, update_orders.
  cbn. destruct (update_error e _); [done|].
  by destruct (orders w !! _).
Qed.

Lemma AutoCancelOrders_cancel_one_closed (e : Env) (r : AutoCancelOrders.Row) (w : World) :
  AutoCancelOrders.cancel_one e r w =
    cancel_row e AutoCancelOrders.reason (AutoCancelOrders.id r) (AutoCancelOrders.notes r) w.
Proof.
  unfold AutoCancelOrders.cancel_one, cancel_row, bind, new_Date, update_orders.
  cbn. destruct (update_error e _); [done|].
  by destruct (orders w !! _).
Qed.

Lemma CheckFarmConfirm_serve_preflight (e : Env) (w : World) :
  CheckFarmConfirm.serve e "OPTIONS" w = (preflight, w, []).
Proof. reflexivity. Qed.

Lemma CheckFarmConfirm_serve_fetch_error (e : Env) (m : string) (x : JsThrown) (w : World) :
  m ≠ "OPTIONS" → fetch_error e = Some x →
  CheckFarmConfirm.serve e m w = (error_response x, tick w, []).
Proof.
  intros Hm Hx. unfold CheckFarmConfirm.serve.
  rewrite bool_decide_eq_false_2 by done.
  unfold CheckFarmConfirm.try_block, CheckFarmConfirm.select_expired, bind, new_Date.
  by rewrite Hx.
Qed.

Lemma CheckFarmConfirm_serve_fetched (e : Env) (m : string) (w : World) :
  m ≠ "OPTIONS" → fetch_error e = None →
  let rows := CheckFarmConfirm.selected (clock e (ticks w)) w in
  let run := cancel_rows e CheckFarmConfirm.reason CheckFarmConfirm.id
               CheckFarmConfirm.notes rows (tick w) in
  CheckFarmConfirm.serve e m w =
    (success_response ("Cancelled " +:+ pretty (length rows) +:+ " unconfirmed orders"),
     world_of run, writes_of run).
Proof.
  intros Hm Hf rows run. unfold CheckFarmConfirm.serve.
  rewrite bool_decide_eq_false_2 by done.
  unfold CheckFarmConfirm.try_block, CheckFarmConfirm.select_expired, bind, new_Date.
  rewrite Hf. cbn [error data rows_or_empty length_or_0].
  change (orders (tick w)) with (orders w).
  fold (CheckFarmConfirm.selected (clock e (ticks w)) w). fold rows.
  rewrite (for_each_ext _ (λ r, cancel_row e CheckFarmConfirm.reason (CheckFarmConfirm.id r)
                                  (CheckFarmConfirm.notes r)))
    by apply CheckFarmConfirm_cancel_one_closed.
  fold (cancel_rows e CheckFarmConfirm.reason CheckFarmConfirm.id CheckFarmConfirm.notes rows).
  fold run. destruct run as [[[] w2] t2]. cbn. by rewrite !app_nil_r.
Qed.

Lemma AutoCancelOrders_serve_preflight (e : Env) (w : World) :
  AutoCancelOrders.serve e "OPTIONS" w = (preflight, w, []).
Proof. reflexivity. Qed.

Lemma AutoCancelOrders_serve_fetch_error (e : Env) (m : string) (x : JsThrown) (w : World) :
  m ≠ "OPTIONS" → fetch_error e = Some x →
  AutoCancelOrders.serve e m w = (error_response x, tick w, []).
Proof.
  intros Hm Hx. unfold AutoCancelOrders.serve.
  rewrite bool_decide_eq_false_2 by done.
  unfold AutoCancelOrders.try_block, AutoCancelOrders.select_to_cancel, bind, new_Date.
  by rewrite Hx.
Qed.

Lemma AutoCancelOrders_serve_fetched (e : Env) (m : string) (w : World) :
  m ≠ "OPTIONS" → fetch_error e = None →
  let rows := AutoCancelOrders.selected (clock e (ticks w)) w in
  let run := cancel_rows e AutoCancelOrders.reason AutoCancelOrders.id
               AutoCancelOrders.notes rows (tick w) in
  AutoCancelOrders.serve e m w =
    (success_response ("Cancelled " +:+ pretty (length rows) +:+ " orders"),
     world_of run, writes_of run).
Proof.
  intros Hm Hf rows run. unfold AutoCancelOrders.serve.
  rewrite bool_decide_eq_false_2 by done.
  unfold AutoCancelOrders.try_block, AutoCancelOrders.select_to_cancel, bind, new_Date.
  rewrite Hf. cbn [error data rows_or_empty length_or_0].
  change (orders (tick w)) with (orders w).
  change (products (tick w)) with (products w).
  fold (AutoCancelOrders.selected (clock e (ticks w)) w). fold rows.
  rewrite (for_each_ext _ (λ r, cancel_row e AutoCancelOrders.reason (AutoCancelOrders.id r)
                                  (AutoCancelOrders.notes r)))
    by apply AutoCancelOrders_cancel_one_closed.
  fold (cancel_rows e AutoCancelOrders.reason AutoCancelOrders.id AutoCancelOrders.notes rows).
  fold run. destruct run as [[[] w2] t2]. cbn. by rewrite !app_nil_r.
Qed.

(** ** A sweep over the rows of a select *)

Lemma update_requests_app (k : string) (ws1 ws2 : list Write) :
  update_requests k (ws1 ++ ws2) = update_requests k ws1 ++ update_requests k ws2.
Proof. apply List.filter_app. Qed.

Lemma update_requests_inserts (k : string) (ns : list Notification) :
  update_requests k (InsertNotification <$> ns) = [].
Proof. induction ns as [|n ns IH]; [done|]. cbn. apply IH. Qed.

Section SweepFacts.
Context (e : Env) (reason : string).
Context {A : Type} (key : A → string) (notes : A → list Notification).
Context (f : string * Order → option A).
Hypothesis notes_about : ∀ r n, n ∈ notes r → n_related_order_id n = Some (key r).
Hypothesis f_key : ∀ kv r, f kv = Some r → key r = kv.1.

Abbreviation sweep w := (cancel_rows e reason key notes (omap f (map_to_list (orders w))) (tick w)).

Lemma sweep_rejected (w : World) (k : string) (o : Order) :
  orders w !! k = Some o → f (k, o) = None →
  orders (world_of (sweep w)) !! k = Some o ∧
  emitted_for k (writes_of (sweep w)) = [].
Proof.
  intros Hk Hf.
  destruct (cancel_rows_untouched e reason key notes notes_about
              (omap f (map_to_list (orders w))) k (tick w)) as [H1 H2]; [|by rewrite H1].
  rewrite (selected_key_elem key f f_key). intros (o' & Ho' & Hsome).
  simplify_eq. rewrite Hf in Hsome. by destruct Hsome.
Qed.

Lemma sweep_refused (w : World) (k : string) :
  is_Some (update_error e k) →
  orders (world_of (sweep w)) !! k = orders w !! k ∧
  emitted_for k (writes_of (sweep w)) = [].
Proof.
  intros Herr.
  exact (cancel_rows_refused e reason key notes notes_about _ k (tick w) Herr).
Qed.

Lemma sweep_accepted (w : World) (k : string) (o : Order) (r : A) :
  orders w !! k = Some o → f (k, o) = Some r → update_error e k = None →
  (∃ i, ticks w < i ∧
        orders (world_of (sweep w)) !! k = Some (cancelled_row e reason i o)) ∧
  emitted_for k (writes_of (sweep w)) = notes r.
Proof.
  intros Hk Hf Hok. pose proof (f_key _ _ Hf) as Hkey. cbn in Hkey. subst k.
  destruct (cancel_rows_done e reason key notes notes_about
              (omap f (map_to_list (orders w))) r o (tick w)) as [(i & Hi & Hrow) Hnotes];
    try done.
  - apply (selected_NoDup key f f_key).
  - apply selected_elem. eauto.
  - split; [|done]. exists i. cbn in Hi. split; [lia|done].
Qed.

(** When every update of a sweep was accepted, no row of the resulting
    table passes a filter that rejects cancelled rows. *)
Lemma sweep_leaves_nothing (w : World) (g : string * Order → option A) :
  (∀ k o, o_status o = cancelled → g (k, o) = None) →
  (∀ k o, orders w !! k = Some o → f (k, o) = None → g (k, o) = None) →
  (∀ k p, UpdateRow orders_table k p ∈ writes_of (sweep w) → update_error e k = None) →
  omap g (map_to_list (orders (world_of (sweep w)))) = [].
Proof.
  intros Hcancelled Hsame Hok. apply selected_nil. intros k o' Hk'.
  destruct (cancel_rows_cases e reason key notes _ _ _ _ Hk') as [Hk|Hst];
    [|by apply Hcancelled].
  change (orders (tick w)) with (orders w) in Hk.
  destruct (f (k, o')) as [r|] eqn:Hf; [|by apply Hsame].
  assert (r ∈ omap f (map_to_list (orders w))) as Hin by (apply selected_elem; eauto).
  destruct (cancel_rows_requests e reason key notes _ r (tick w) Hin) as [p Hp].
  pose proof (f_key _ _ Hf) as Hkey. cbn in Hkey. rewrite Hkey in Hp.
  destruct (sweep_accepted w k o' r Hk Hf (Hok _ _ Hp)) as [(i & _ & Hl) _].
  rewrite Hl in Hk'. apply Hcancelled.
  assert (o' = cancelled_row e reason i o') as -> by congruence.
  reflexivity.
Qed.

Lemma cancel_rows_one_request (l : list A) (k : string) (w : World) :
  NoDup (key <$> l) →
  length (update_requests k (writes_of (cancel_rows e reason key notes l w))) =
    if bool_decide (k ∈ key <$> l) then 1 else 0.
Proof.
  revert w. induction l as [|r l IH]; intros w Hnd; [done|].
  rewrite fmap_cons, NoDup_cons in Hnd. destruct Hnd as [Hfresh Hnd].
  rewrite cancel_rows_cons.
  assert (update_requests k (writes_of (cancel_row e reason (key r) (notes r) w)) =
            if bool_decide (key r = k) then
              [UpdateRow orders_table (key r) (cancel_patch (clock e (ticks w)) reason)]
            else []) as Hhd.
  { unfold cancel_row, writes_of.
    destruct (update_error e (key r)); [done|].
    destruct (orders w !! key r); cbn [snd];
      change (UpdateRow ?t ?i ?p :: ?l) with ([UpdateRow t i p] ++ l);
      rewrite update_requests_app, update_requests_inserts, app_nil_r; done. }
  destruct (cancel_row _ _ _ _ w) as [[[] w1] t1].
  specialize (IH w1 Hnd).
  destruct (cancel_rows e reason key notes l w1) as [[[] w2] t2].
  unfold writes_of in *. cbn [fst snd] in *.
  rewrite update_requests_app, length_app, IH, Hhd.
  rewrite fmap_cons.
  destruct (decide (key r = k)) as [<-|Hne].
  - rewrite (bool_decide_eq_true_2 (key r = key r)) by done.
    rewrite (bool_decide_eq_false_2 (key r ∈ key <$> l)) by done.
    rewrite (bool_decide_eq_true_2 (key r ∈ key r :: (key <$> l))) by left.
    done.
  - rewrite (bool_decide_eq_false_2 (key r = k)) by done. cbn [length Nat.add].
    rewrite (bool_decide_ext (k ∈ key r :: (key <$> l)) (k ∈ key <$> l)); [done|].
    rewrite elem_of_cons. split; [by intros [->|?]|by right].
Qed.
End SweepFacts.

Lemma CheckFarmConfirm_notes_about (r : CheckFarmConfirm.Row) (n : Notification) :
  n ∈ CheckFarmConfirm.notes r → n_related_order_id n = Some (CheckFarmConfirm.id r).
Proof. unfold CheckFarmConfirm.notes. rewrite !elem_of_cons, elem_of_nil. by intros [->|[->|[]]]. Qed.

Lemma AutoCancelOrders_notes_about (r : AutoCancelOrders.Row) (n : Notification) :
  n ∈ AutoCancelOrders.notes r → n_related_order_id n = Some (AutoCancelOrders.id r).
Proof. unfold AutoCancelOrders.notes. rewrite !elem_of_cons, elem_of_nil. by intros [->|[]]. Qed.

(** ** The sweeps *)

Lemma CheckFarmConfirm_select_row_Some (thr : Z) (k : string) (o : Order)
    (r : CheckFarmConfirm.Row) :
  CheckFarmConfirm.select_row thr (k, o) = Some r →
  r = CheckFarmConfirm.mkRow k (o_user_id o) (o_farm_id o).
Proof.
  unfold CheckFarmConfirm.select_row.
  destruct (CheckFarmConfirm.matches thr _); intros; by simplify_eq.
Qed.

Lemma AutoCancelOrders_select_row_Some (ps : gmap string Product) (cutoff : Z)
    (k : string) (o : Order) (r : AutoCancelOrders.Row) :
  AutoCancelOrders.select_row ps cutoff (k, o) = Some r →
  AutoCancelOrders.id r = k ∧ AutoCancelOrders.user_id r = o_user_id o.
Proof.
  unfold AutoCancelOrders.select_row.
  destruct (ps !! _); [|done].
  destruct (_ && _); intros; by simplify_eq.
Qed.

(** A matching row whose update is accepted: the row it becomes and the
    notices of the run about it. *)
Lemma CheckFarmConfirm_accepted (e : Env) (m : string) (w : World) (k : string) (o : Order) :
  m ≠ "OPTIONS" → fetch_error e = None → update_error e k = None →
  orders w !! k = Some o → stale_pending (clock e (ticks w)) o →
  let r := CheckFarmConfirm.serve e m w in
  (∃ i, ticks w < i ∧
        orders (world_of r) !! k = Some (cancelled_row e CheckFarmConfirm.reason i o)) ∧
  emitted_for k (writes_of r) =
    CheckFarmConfirm.notes (CheckFarmConfirm.mkRow k (o_user_id o) (o_farm_id o)).
Proof.
  intros Hm Hfetch Hupd Hk Hstale.
  rewrite CheckFarmConfirm_serve_fetched by done. cbn zeta.
  rewrite world_of_triple, writes_of_triple.
  apply (CheckFarmConfirm_select_row_iff _ k) in Hstale as [r Hr].
  pose proof (CheckFarmConfirm_select_row_Some _ _ _ _ Hr) as Hrow.
  rewrite <- Hrow.
  exact (sweep_accepted e CheckFarmConfirm.reason CheckFarmConfirm.id
           CheckFarmConfirm.notes _ CheckFarmConfirm_notes_about
           (CheckFarmConfirm_select_row_key _) w k o r Hk Hr Hupd).
Qed.

(** C1, as amended: when the initial select succeeds and the store accepts
    the update of an order that is pending and was created more than 48 hours
    before the run, a run of the stale-pending sweep leaves that order
    cancelled, with [cancelled_at] set and the fixed reason, and emits exactly
    two notifications for it, the first to the buyer and the second to the
    farm. *)
Theorem stale_pending_cancelled_when_accepted (e : Env) (m : string) (w : World) (k : string) :
  fetch_error e = None → update_error e k = None →
  stale_sweep_cancels e m w k.
Proof.
  intros Hfetch Hupd Hm o Hk Hstale.
  destruct (CheckFarmConfirm_accepted e m w k o Hm Hfetch Hupd Hk Hstale)
    as [(i & Hi & Hrow) Hnotes].
  split.
  - exists (cancelled_row e CheckFarmConfirm.reason i o).
    split; [exact Hrow|]. by apply cancelled_row_cancelled_with.
  - rewrite Hnotes. unfold two_notices, CheckFarmConfirm.notes.
    eexists _, _. split; [reflexivity|]. split; reflexivity.
Qed.

(** C1, witness: the sample order, pending and 277 hours old, in a run where
    every request is accepted. *)
Lemma stale_pending_cancelled_when_accepted_witness :
  let r := CheckFarmConfirm.serve env_ok "POST" (sample_world pending) in
  (∃ o', orders (world_of r) !! "o1" = Some o' ∧
         cancelled_with env_ok 0 CheckFarmConfirm.reason o') ∧
  two_notices (sample_order pending) (emitted_for "o1" (writes_of r)).
Proof.
  apply (stale_pending_cancelled_when_accepted env_ok "POST" (sample_world pending) "o1").
  - reflexivity.
  - reflexivity.
  - discriminate.
  - vm_compute. reflexivity.
  - split; [reflexivity|]. exists 0%Z. split; [reflexivity|]. vm_compute. reflexivity.
Defined.

(** C1, as stated, fails: when the store refuses the update of the sample
    order the handler skips the row, and when the select fails the handler
    stops before the loop; either way the order stays pending and nothing is
    emitted. *)
Lemma stale_pending_kept_when_update_refused :
  ¬ stale_sweep_cancels env_update_refused "POST" (sample_world pending) "o1" ∧
  ¬ stale_sweep_cancels env_fetch_refused "POST" (sample_world pending) "o1".
Proof.
  assert (orders (sample_world pending) !! "o1" = Some (sample_order pending)) as Hk
    by (vm_compute; reflexivity).
  assert (stale_pending 1000000000 (sample_order pending)) as Hstale.
  { split; [reflexivity|]. exists 0%Z. split; [reflexivity|]. vm_compute. reflexivity. }
  split; intros H;
    destruct (H ltac:(discriminate) (sample_order pending) Hk Hstale)
      as [(o' & Hl & Hst & _) _];
    vm_compute in Hl; injection Hl as <-; discriminate Hst.
Qed.

Lemma AutoCancelOrders_accepted (e : Env) (m : string) (w : World) (k : string) (o : Order) :
  m ≠ "OPTIONS" → fetch_error e = None → update_error e k = None →
  orders w !! k = Some o → past_harvest_window (products w) (clock e (ticks w)) o →
  let r := AutoCancelOrders.serve e m w in
  (∃ i, ticks w < i ∧
        orders (world_of r) !! k = Some (cancelled_row e AutoCancelOrders.reason i o)) ∧
  ∃ d, emitted_for k (writes_of r) =
         AutoCancelOrders.notes (AutoCancelOrders.mkRow k (o_user_id o) d).
Proof.
  intros Hm Hfetch Hupd Hk Hpast.
  rewrite AutoCancelOrders_serve_fetched by done. cbn zeta.
  rewrite world_of_triple, writes_of_triple.
  apply (AutoCancelOrders_select_row_iff _ _ k) in Hpast as [r Hr].
  destruct (sweep_accepted e AutoCancelOrders.reason AutoCancelOrders.id
              AutoCancelOrders.notes _ AutoCancelOrders_notes_about
              (AutoCancelOrders_select_row_key _ _) w k o r Hk Hr Hupd)
    as [Hrow Hnotes].
  split; [exact Hrow|].
  exists (AutoCancelOrders.harvest_date r).
  apply AutoCancelOrders_select_row_Some in Hr as [Hid Huser].
  unfold AutoCancelOrders.selected. rewrite Hnotes. destruct r as [i u d].
  cbn in Hid, Huser. by subst.
Qed.

(** C2, as amended: when the initial select succeeds and the store accepts
    the update of an order that is pending or confirmed and whose product was
    harvested more than 7 days before the day of the run, a run of the
    post-harvest sweep leaves that order cancelled, with [cancelled_at] set
    and the fixed reason, and emits exactly one notification for it, to the
    buyer. *)
Theorem past_harvest_cancelled_when_accepted (e : Env) (m : string) (w : World) (k : string) :
  fetch_error e = None → update_error e k = None →
  harvest_sweep_cancels e m w k.
Proof.
  intros Hfetch Hupd Hm o Hk Hpast.
  destruct (AutoCancelOrders_accepted e m w k o Hm Hfetch Hupd Hk Hpast)
    as [(i & Hi & Hrow) [d Hnotes]].
  split.
  - exists (cancelled_row e AutoCancelOrders.reason i o).
    split; [exact Hrow|]. by apply cancelled_row_cancelled_with.
  - rewrite Hnotes. unfold one_notice, AutoCancelOrders.notes.
    eexists. split; reflexivity.
Qed.

(** C2, witness: the sample order, confirmed, with a product harvested on
    day 1, in a run on day 11 where every request is accepted. *)
Lemma past_harvest_cancelled_when_accepted_witness :
  let r := AutoCancelOrders.serve env_ok "POST" (sample_world confirmed) in
  (∃ o', orders (world_of r) !! "o1" = Some o' ∧
         cancelled_with env_ok 0 AutoCancelOrders.reason o') ∧
  one_notice (sample_order confirmed) (emitted_for "o1" (writes_of r)).
Proof.
  apply (past_harvest_cancelled_when_accepted env_ok "POST" (sample_world confirmed) "o1").
  - reflexivity.
  - reflexivity.
  - discriminate.
  - vm_compute. reflexivity.
  - split; [by right|]. exists (mkProduct "f1" "Cavendish" 1).
    split; vm_compute; reflexivity.
Defined.

(** C2, as stated, fails: when the store refuses the update of the sample
    order the handler skips the row, and when the select fails the handler
    stops before the loop; either way the order stays confirmed and nothing
    is emitted. *)
Lemma past_harvest_kept_when_update_refused :
  ¬ harvest_sweep_cancels env_update_refused "POST" (sample_world confirmed) "o1" ∧
  ¬ harvest_sweep_cancels env_fetch_refused "POST" (sample_world confirmed) "o1".
Proof.
  assert (orders (sample_world confirmed) !! "o1" = Some (sample_order confirmed)) as Hk
    by (vm_compute; reflexivity).
  assert (past_harvest_window (products (sample_world confirmed)) 1000000000
            (sample_order confirmed)) as Hpast.
  { split; [by right|]. exists (mkProduct "f1" "Cavendish" 1).
    split; vm_compute; reflexivity. }
  split; intros H;
    destruct (H ltac:(discriminate) (sample_order confirmed) Hk Hpast)
      as [(o' & Hl & Hst & _) _];
    vm_compute in Hl; injection Hl as <-; discriminate Hst.
Qed.

(** *** Orders outside both predicates *)

Lemma CheckFarmConfirm_unmatched (e : Env) (m : string) (w : World) (k : string) (o : Order) :
  orders w !! k = Some o → ¬ stale_pending (clock e (ticks w)) o →
  let r := CheckFarmConfirm.serve e m w in
  orders (world_of r) !! k = Some o ∧ emitted_for k (writes_of r) = [].
Proof.
  intros Hk Hns. cbn zeta.
  destruct (decide (m = "OPTIONS")) as [->|Hm].
  { by rewrite CheckFarmConfirm_serve_preflight. }
  destruct (fetch_error e) as [x|] eqn:Hf.
  { by rewrite (CheckFarmConfirm_serve_fetch_error e m x). }
  rewrite CheckFarmConfirm_serve_fetched by done. cbn zeta.
  rewrite world_of_triple, writes_of_triple.
  apply (sweep_rejected e CheckFarmConfirm.reason CheckFarmConfirm.id
           CheckFarmConfirm.notes _ CheckFarmConfirm_notes_about
           (CheckFarmConfirm_select_row_key _)); [done|].
  destruct (CheckFarmConfirm.select_row _ (k, o)) eqn:Hsel; [|done].
  exfalso. apply Hns, (CheckFarmConfirm_select_row_iff _ k). by rewrite Hsel.
Qed.

Lemma AutoCancelOrders_unmatched (e : Env) (m : string) (w : World) (k : string) (o : Order) :
  orders w !! k = Some o → ¬ past_harvest_window (products w) (clock e (ticks w)) o →
  let r := AutoCancelOrders.serve e m w in
  orders (world_of r) !! k = Some o ∧ emitted_for k (writes_of r) = [].
Proof.
  intros Hk Hns. cbn zeta.
  destruct (decide (m = "OPTIONS")) as [->|Hm].
  { by rewrite AutoCancelOrders_serve_preflight. }
  destruct (fetch_error e) as [x|] eqn:Hf.
  { by rewrite (AutoCancelOrders_serve_fetch_error e m x). }
  rewrite AutoCancelOrders_serve_fetched by done. cbn zeta.
  rewrite world_of_triple, writes_of_triple.
  apply (sweep_rejected e AutoCancelOrders.reason AutoCancelOrders.id
           AutoCancelOrders.notes _ AutoCancelOrders_notes_about
           (AutoCancelOrders_select_row_key _ _)); [done|].
  destruct (AutoCancelOrders.select_row _ _ (k, o)) eqn:Hsel; [|done].
  exfalso. apply Hns, (AutoCancelOrders_select_row_iff _ _ k). by rewrite Hsel.
Qed.

(** C3: an order that is neither pending-and-older-than-48-hours nor
    pending-or-confirmed with a harvest date more than 7 days past keeps its
    whole row through a run of either sweep, and the run emits no
    notification about it. *)
Theorem unmatched_order_untouched (s : Sweep) (e : Env) (m : string) (w : World)
    (k : string) (o : Order) :
  orders w !! k = Some o →
  ¬ stale_pending (clock e (ticks w)) o →
  ¬ past_harvest_window (products w) (clock e (ticks w)) o →
  let r := serve_sweep s e m w in
  orders (world_of r) !! k = Some o ∧ emitted_for k (writes_of r) = [].
Proof.
  intros Hk Hstale Hpast. destruct s.
  - by apply CheckFarmConfirm_unmatched.
  - by apply AutoCancelOrders_unmatched.
Qed.

(** C3, witness: the shipped order next to a stale pending one that both
    sweeps cancel. *)
Lemma unmatched_order_untouched_witness :
  (let r := CheckFarmConfirm.serve env_ok "POST" two_orders_world in
   orders (world_of r) !! "o2" = Some (sample_order shipped) ∧
   emitted_for "o2" (writes_of r) = []) ∧
  (let r := AutoCancelOrders.serve env_ok "POST" two_orders_world in
   orders (world_of r) !! "o2" = Some (sample_order shipped) ∧
   emitted_for "o2" (writes_of r) = []).
Proof.
  split.
  - apply (unmatched_order_untouched StalePending env_ok "POST" two_orders_world "o2").
    + vm_compute. reflexivity.
    + intros [Hst _]. discriminate Hst.
    + intros [[Hst|Hst] _]; discriminate Hst.
  - apply (unmatched_order_untouched PostHarvest env_ok "POST" two_orders_world "o2").
    + vm_compute. reflexivity.
    + intros [Hst _]. discriminate Hst.
    + intros [[Hst|Hst] _]; discriminate Hst.
Defined.

(** *** The count in the response *)

(** C4, the code at the failing input: the store refuses the only update of
    the run, no order is cancelled, and both handlers still answer
    "Cancelled 1 ...": the message counts the selected rows. *)
Theorem cancelled_count_counts_selected_rows :
  (let r := CheckFarmConfirm.serve env_update_refused "POST" (sample_world pending) in
   result r = success_response "Cancelled 1 unconfirmed orders" ∧
   orders (world_of r) = orders (sample_world pending)) ∧
  (let r := AutoCancelOrders.serve env_update_refused "POST" (sample_world pending) in
   result r = success_response "Cancelled 1 orders" ∧
   orders (world_of r) = orders (sample_world pending)).
Proof. split; split; vm_compute; reflexivity. Qed.

(** *** Running a sweep twice *)

Lemma CheckFarmConfirm_select_row_cancelled (thr : Z) (k : string) (o : Order) :
  o_status o = cancelled → CheckFarmConfirm.select_row thr (k, o) = None.
Proof.
  intros Hst. unfold CheckFarmConfirm.select_row, CheckFarmConfirm.matches. cbn.
  by rewrite Hst.
Qed.

Lemma AutoCancelOrders_select_row_cancelled (ps : gmap string Product) (cutoff : Z)
    (k : string) (o : Order) :
  o_status o = cancelled → AutoCancelOrders.select_row ps cutoff (k, o) = None.
Proof.
  intros Hst. unfold AutoCancelOrders.select_row, AutoCancelOrders.status_in. cbn.
  rewrite Hst. by destruct (ps !! _).
Qed.

Lemma cancel_rows_nil (e : Env) (reason : string) {A} (key : A → string)
    (notes : A → list Notification) (w : World) :
  cancel_rows e reason key notes [] w = (tt, w, []).
Proof. reflexivity. Qed.

Lemma CheckFarmConfirm_rerun (e1 e2 : Env) (m1 m2 : string) (w : World) :
  let r1 := CheckFarmConfirm.serve e1 m1 w in
  m1 ≠ "OPTIONS" → fetch_error e1 = None →
  (∀ k p, UpdateRow orders_table k p ∈ writes_of r1 → update_error e1 k = None) →
  clock e2 (ticks (world_of r1)) = clock e1 (ticks w) →
  let r2 := CheckFarmConfirm.serve e2 m2 (world_of r1) in
  orders (world_of r2) = orders (world_of r1) ∧
  notifications (world_of r2) = notifications (world_of r1) ∧
  writes_of r2 = [].
Proof.
  cbn zeta. intros Hm1 Hf1.
  rewrite CheckFarmConfirm_serve_fetched by done. cbn zeta.
  rewrite world_of_triple, writes_of_triple.
  set (w' := world_of (cancel_rows _ _ _ _ _ _)). intros Hok Hclock.
  destruct (decide (m2 = "OPTIONS")) as [->|Hm2].
  { by rewrite CheckFarmConfirm_serve_preflight. }
  destruct (fetch_error e2) as [x|] eqn:Hf2.
  { by rewrite (CheckFarmConfirm_serve_fetch_error e2 m2 x). }
  rewrite CheckFarmConfirm_serve_fetched by done. cbn zeta.
  rewrite world_of_triple, writes_of_triple.
  assert (CheckFarmConfirm.selected (clock e2 (ticks w')) w' = []) as ->;
    [|by rewrite cancel_rows_nil].
  unfold CheckFarmConfirm.selected. rewrite Hclock. subst w'.
  apply (sweep_leaves_nothing e1 CheckFarmConfirm.reason CheckFarmConfirm.id
           CheckFarmConfirm.notes _ CheckFarmConfirm_notes_about
           (CheckFarmConfirm_select_row_key _)); [|done|exact Hok].
  intros k o. apply CheckFarmConfirm_select_row_cancelled.
Qed.

Lemma AutoCancelOrders_rerun (e1 e2 : Env) (m1 m2 : string) (w : World) :
  let r1 := AutoCancelOrders.serve e1 m1 w in
  m1 ≠ "OPTIONS" → fetch_error e1 = None →
  (∀ k p, UpdateRow orders_table k p ∈ writes_of r1 → update_error e1 k = None) →
  clock e2 (ticks (world_of r1)) = clock e1 (ticks w) →
  let r2 := AutoCancelOrders.serve e2 m2 (world_of r1) in
  orders (world_of r2) = orders (world_of r1) ∧
  notifications (world_of r2) = notifications (world_of r1) ∧
  writes_of r2 = [].
Proof.
  cbn zeta. intros Hm1 Hf1.
  rewrite AutoCancelOrders_serve_fetched by done. cbn zeta.
  rewrite world_of_triple, writes_of_triple.
  destruct (cancel_rows_frame e1 AutoCancelOrders.reason AutoCancelOrders.id
              AutoCancelOrders.notes
              (AutoCancelOrders.selected (clock e1 (ticks w)) w) (tick w))
    as (Hprod & _ & _).
  set (w' := world_of (cancel_rows _ _ _ _ _ _)) in *. intros Hok Hclock.
  destruct (decide (m2 = "OPTIONS")) as [->|Hm2].
  { by rewrite AutoCancelOrders_serve_preflight. }
  destruct (fetch_error e2) as [x|] eqn:Hf2.
  { by rewrite (AutoCancelOrders_serve_fetch_error e2 m2 x). }
  rewrite AutoCancelOrders_serve_fetched by done. cbn zeta.
  rewrite world_of_triple, writes_of_triple.
  assert (AutoCancelOrders.selected (clock e2 (ticks w')) w' = []) as ->;
    [|by rewrite cancel_rows_nil].
  unfold AutoCancelOrders.selected. rewrite Hclock, Hprod.
  change (products (tick w)) with (products w). subst w'.
  apply (sweep_leaves_nothing e1 AutoCancelOrders.reason AutoCancelOrders.id
           AutoCancelOrders.notes _ AutoCancelOrders_notes_about
           (AutoCancelOrders_select_row_key _ _)); [|done|exact Hok].
  intros k o. apply AutoCancelOrders_select_row_cancelled.
Qed.

(** C5, as amended: after a run of either sweep in which the initial select
    succeeded and the store accepted every update the run sent, a second run
    of the same sweep that reads the same instant changes no order, adds no
    notification and sends no write at all: the rows cancelled by the first
    run no longer pass the status filter. *)
Theorem rerun_after_accepted_run_changes_nothing (s : Sweep) (e1 e2 : Env)
    (m1 m2 : string) (w : World) :
  let r1 := serve_sweep s e1 m1 w in
  m1 ≠ "OPTIONS" → fetch_error e1 = None →
  (∀ k p, UpdateRow orders_table k p ∈ writes_of r1 → update_error e1 k = None) →
  clock e2 (ticks (world_of r1)) = clock e1 (ticks w) →
  rerun_changes_nothing (serve_sweep s) e1 e2 m1 m2 w ∧
  notifications (world_of (serve_sweep s e2 m2 (world_of r1))) = notifications (world_of r1) ∧
  writes_of (serve_sweep s e2 m2 (world_of r1)) = [].
Proof.
  cbn zeta. unfold rerun_changes_nothing. intros Hm1 Hf1 Hok Hclock. destruct s; cbn.
  - destruct (CheckFarmConfirm_rerun e1 e2 m1 m2 w Hm1 Hf1 Hok Hclock) as (H1 & H2 & H3).
    rewrite H3. done.
  - destruct (AutoCancelOrders_rerun e1 e2 m1 m2 w Hm1 Hf1 Hok Hclock) as (H1 & H2 & H3).
    rewrite H3. done.
Qed.

(** C5, witness: the stale sample order is cancelled by a first run in which
    every request is accepted; a second run with the same clock finds
    nothing to do. *)
Lemma rerun_after_accepted_run_changes_nothing_witness :
  rerun_changes_nothing CheckFarmConfirm.serve env_ok env_ok "POST" "POST" (sample_world pending) ∧
  notifications
    (world_of (CheckFarmConfirm.serve env_ok "POST"
                 (world_of (CheckFarmConfirm.serve env_ok "POST" (sample_world pending))))) =
    notifications (world_of (CheckFarmConfirm.serve env_ok "POST" (sample_world pending))) ∧
  writes_of (CheckFarmConfirm.serve env_ok "POST"
               (world_of (CheckFarmConfirm.serve env_ok "POST" (sample_world pending)))) = [].
Proof.
  apply (rerun_after_accepted_run_changes_nothing StalePending env_ok env_ok "POST" "POST"
           (sample_world pending)).
  - discriminate.
  - reflexivity.
  - intros k p _. reflexivity.
  - reflexivity.
Defined.

(** C5, as stated, fails: after a first run whose update of the sample
    order was refused, or whose select failed, the order is still pending
    and stale; a second run at the same instant, with every request
    accepted, cancels it and emits its two notifications. *)
Lemma rerun_cancels_row_refused_before :
  (clock env_ok (ticks (world_of (CheckFarmConfirm.serve env_update_refused "POST"
                                    (sample_world pending))))
     = clock env_update_refused (ticks (sample_world pending)) ∧
   ¬ rerun_changes_nothing CheckFarmConfirm.serve env_update_refused env_ok
       "POST" "POST" (sample_world pending)) ∧
  (clock env_ok (ticks (world_of (CheckFarmConfirm.serve env_fetch_refused "POST"
                                    (sample_world pending))))
     = clock env_fetch_refused (ticks (sample_world pending)) ∧
   ¬ rerun_changes_nothing CheckFarmConfirm.serve env_fetch_refused env_ok
       "POST" "POST" (sample_world pending)).
Proof.
  split; (split; [reflexivity|]); intros [_ Hem]; vm_compute in Hem; discriminate Hem.
Qed.

(** *** Failures *)

Lemma CheckFarmConfirm_refused (e : Env) (m : string) (w : World) (k : string) :
  m ≠ "OPTIONS" → fetch_error e = None → is_Some (update_error e k) →
  let r := CheckFarmConfirm.serve e m w in
  orders (world_of r) !! k = orders w !! k ∧
  emitted_for k (writes_of r) = [] ∧
  length (update_requests k (writes_of r)) ≤ 1 ∧
  status_code (result r) = 200%Z.
Proof.
  intros Hm Hf Herr. cbn zeta.
  rewrite CheckFarmConfirm_serve_fetched by done. cbn zeta.
  rewrite world_of_triple, writes_of_triple, result_triple.
  destruct (sweep_refused e CheckFarmConfirm.reason CheckFarmConfirm.id
              CheckFarmConfirm.notes
              (CheckFarmConfirm.select_row (clock e (ticks w) - 48 * hour_ms))
              CheckFarmConfirm_notes_about w k Herr) as [H1 H2].
  split_and!; [exact H1|exact H2| |reflexivity].
  unfold CheckFarmConfirm.selected.
  rewrite cancel_rows_one_request
    by apply (selected_NoDup _ _ (CheckFarmConfirm_select_row_key _)).
  case_bool_decide; lia.
Qed.

Lemma AutoCancelOrders_refused (e : Env) (m : string) (w : World) (k : string) :
  m ≠ "OPTIONS" → fetch_error e = None → is_Some (update_error e k) →
  let r := AutoCancelOrders.serve e m w in
  orders (world_of r) !! k = orders w !! k ∧
  emitted_for k (writes_of r) = [] ∧
  length (update_requests k (writes_of r)) ≤ 1 ∧
  status_code (result r) = 200%Z.
Proof.
  intros Hm Hf Herr. cbn zeta.
  rewrite AutoCancelOrders_serve_fetched by done. cbn zeta.
  rewrite world_of_triple, writes_of_triple, result_triple.
  destruct (sweep_refused e AutoCancelOrders.reason AutoCancelOrders.id
              AutoCancelOrders.notes
              (AutoCancelOrders.select_row (products w)
                 (iso_date (clock e (ticks w) - 7 * day_ms)))
              AutoCancelOrders_notes_about w k Herr) as [H1 H2].
  split_and!; [exact H1|exact H2| |reflexivity].
  unfold AutoCancelOrders.selected.
  rewrite cancel_rows_one_request
    by apply (selected_NoDup _ _ (AutoCancelOrders_select_row_key _ _)).
  case_bool_decide; lia.
Qed.

(** C6, as amended: in either sweep, when the store refuses the update of a
    row, that row keeps its value, no notification is emitted for it, at
    most one update is sent for it, the run still answers 200 and every
    other matching row whose update is accepted is cancelled as usual; when
    the initial select fails the run ends at once, without any write, with
    status 500 and a body whose [error] is the message of the thrown value
    if that value is an [Error] and the text "Unknown error" otherwise. *)
Theorem sweep_failures_isolated (s : Sweep) (e : Env) (m : string) (w : World) :
  m ≠ "OPTIONS" →
  (fetch_error e = None →
   ∀ k, is_Some (update_error e k) →
     let r := serve_sweep s e m w in
     orders (world_of r) !! k = orders w !! k ∧
     emitted_for k (writes_of r) = [] ∧
     length (update_requests k (writes_of r)) ≤ 1 ∧
     status_code (result r) = 200%Z ∧
     ∀ k', update_error e k' = None → sweep_cancels s e m w k') ∧
  (∀ x, fetch_error e = Some x →
     let r := serve_sweep s e m w in
     result r =
       {| status_code := 500;
          body := ErrorBody match x with
                            | JsError message => message
                            | JsObject _ => "Unknown error"
                            end |} ∧
     orders (world_of r) = orders w ∧
     notifications (world_of r) = notifications w ∧
     writes_of r = []).
Proof.
  intros Hm. split.
  - intros Hf k Herr. cbn zeta. destruct s; cbn [serve_sweep sweep_cancels].
    + destruct (CheckFarmConfirm_refused e m w k Hm Hf Herr) as (H1 & H2 & H3 & H4).
      split_and!; try done. intros k' Hk' _ o Ho Hstale.
      destruct (CheckFarmConfirm_accepted e m w k' o Hm Hf Hk' Ho Hstale)
        as [(i & Hi & Hrow) Hnotes].
      split; [eexists; split; [exact Hrow|by apply cancelled_row_cancelled_with]|].
      rewrite Hnotes. by eexists _, _.
    + destruct (AutoCancelOrders_refused e m w k Hm Hf Herr) as (H1 & H2 & H3 & H4).
      split_and!; try done. intros k' Hk' _ o Ho Hpast.
      destruct (AutoCancelOrders_accepted e m w k' o Hm Hf Hk' Ho Hpast)
        as [(i & Hi & Hrow) [d Hnotes]].
      split; [eexists; split; [exact Hrow|by apply cancelled_row_cancelled_with]|].
      rewrite Hnotes. by eexists.
  - intros x Hx. cbn zeta. destruct s; cbn [serve_sweep].
    + by rewrite (CheckFarmConfirm_serve_fetch_error e m x).
    + by rewrite (AutoCancelOrders_serve_fetch_error e m x).
Qed.

(** C6, witness: the update of the sample order is refused in one run of the
    stale-pending sweep; the select throws in another. *)
Lemma sweep_failures_isolated_witness :
  (let r := CheckFarmConfirm.serve env_o1_refused "POST" (sample_world pending) in
   orders (world_of r) !! "o1" = orders (sample_world pending) !! "o1" ∧
   emitted_for "o1" (writes_of r) = [] ∧
   length (update_requests "o1" (writes_of r)) ≤ 1 ∧
   status_code (result r) = 200%Z ∧
   ∀ k', update_error env_o1_refused k' = None →
         stale_sweep_cancels env_o1_refused "POST" (sample_world pending) k') ∧
  (let r := CheckFarmConfirm.serve env_fetch_throws "POST" (sample_world pending) in
   result r = {| status_code := 500; body := ErrorBody "fetch failed" |} ∧
   orders (world_of r) = orders (sample_world pending) ∧
   notifications (world_of r) = notifications (sample_world pending) ∧
   writes_of r = []).
Proof.
  split.
  - apply (proj1 (sweep_failures_isolated StalePending env_o1_refused "POST"
                    (sample_world pending) ltac:(discriminate))).
    + reflexivity.
    + vm_compute. eauto.
  - apply (proj2 (sweep_failures_isolated StalePending env_fetch_throws "POST"
                    (sample_world pending) ltac:(discriminate))
             (JsError "fetch failed")).
    reflexivity.
Defined.

(** C6, as stated, fails in its last clause: the select fails with the error
    object of the store client, which is no [Error]; the body of the 500
    says "Unknown error", not the message. *)
Lemma fetch_failure_message_lost :
  ¬ fetch_failure_reported StalePending env_fetch_refused "POST" (sample_world pending).
Proof.
  intros H.
  specialize (H ltac:(discriminate) (JsObject "connection refused") eq_refl).
  vm_compute in H. discriminate H.
Qed.

(** ** Reviews *)

Lemma filter_order_none (k : string) (l : list Review) :
  (∀ r, r ∈ l → r_order_id r ≠ k) → filter (λ r, r_order_id r = k) l = [].
Proof.
  induction l as [|r l IH]; intros H; [done|].
  rewrite filter_cons_False by (apply H; left).
  apply IH. intros r' Hr'. apply H. by right.
Qed.

Lemma UserOrders_select_review_answer (e : Env) (k : string) (w : World) :
  ∃ a, UserOrders.select_review e k w = (a, w, []).
Proof. unfold UserOrders.select_review. by eexists. Qed.

Lemma UserOrders_select_review_none (e : Env) (k : string) (w : World) :
  (∀ r, r ∈ reviews w → r_order_id r ≠ k) →
  UserOrders.select_review e k w = (None, w, []).
Proof.
  intros Hnone. unfold UserOrders.select_review.
  destruct (review_select_error e); [done|]. by rewrite (filter_order_none k).
Qed.


Lemma UserOrders_submitReview_closed (e : Env) (st : UserOrders.State) (w : World) :
  (UserOrders.submitReview e st w = (st, [], w, []))
  ∨ (∃ k, UserOrders.selectedOrder st = Some k ∧
          UserOrders.submitReview e st w =
            (st, [toast_error "ออเดอร์นี้รีวิวไปแล้ว"], w, []))
  ∨ (∃ k msg, UserOrders.selectedOrder st = Some k ∧
          UserOrders.submitReview e st w =
            (st, [toast_error msg], w, [InsertReview (review_row k st)]))
  ∨ (∃ k st' w', UserOrders.selectedOrder st = Some k ∧
          (k ∉ r_order_id <$> reviews w) ∧
          reviews w' = reviews w ++ [review_row k st] ∧
          UserOrders.submitReview e st w =
            (st', [toast_success "ขอบคุณสำหรับรีวิว 🌟"], w',
             [InsertReview (review_row k st);
              UpdateRow orders_table k (status_patch reviewed)])).
Proof.
  unfold UserOrders.submitReview.
  destruct (UserOrders.selectedOrder st) as [k|]; [|by left].
  right. unfold bind.
  destruct (UserOrders_select_review_answer e k w) as [[r|] ->].
  { left. exists k. done. }
  right. unfold UserOrders.insert_review. cbn [r_order_id r_rating].
  fold (review_row k st).
  destruct (review_error e) as [x|].
  { left. exists k, (thrown_message x). done. }
  case_bool_decide as Hfk.
  { left. exists k, "violates foreign key constraint". done. }
  case_bool_decide as Huniq.
  { left. exists k, "duplicate key value violates unique constraint". done. }
  case_bool_decide as Hcheck.
  2: { left. exists k, "violates check constraint". done. }
  right. unfold update_orders.
  change (orders (add_review (review_row k st) w)) with (orders w).
  destruct (update_error e k), (orders w !! k);
    (eexists k, _, _; split_and!; [done|done| |reflexivity]; done).
Qed.

(** The unique constraint on [order_id] survives a submission, whatever the
    store answers. *)
Lemma UserOrders_submitReview_keeps_unique (e : Env) (st : UserOrders.State) (w : World) :
  NoDup (r_order_id <$> reviews w) →
  NoDup (r_order_id <$> reviews (world_of (UserOrders.submitReview e st w))).
Proof.
  intros Hnd.
  destruct (UserOrders_submitReview_closed e st w)
    as [->|[(k & _ & ->)|[(k & msg & _ & ->)|(k & st' & w' & _ & Hfresh & Hrev & ->)]]];
    rewrite world_of_triple; try done.
  rewrite Hrev, fmap_app. apply NoDup_app. split_and!; [done| |apply NoDup_singleton].
  intros x Hx Hx'. cbn in Hx'. apply list_elem_of_singleton in Hx'. by subst.
Qed.







(** C10: every review row that [submitReview] sends to the store, and every
    row it adds to the table, has [farm_id] and [user_id] equal to its
    [order_id], the id of the selected order. *)
Theorem review_row_ids_are_order_id (e : Env) (st : UserOrders.State) (w : World) :
  let res := UserOrders.submitReview e st w in
  (∀ r, InsertReview r ∈ writes_of res →
        UserOrders.selectedOrder st = Some (r_order_id r) ∧
        r_farm_id r = r_order_id r ∧ r_user_id r = r_order_id r) ∧
  (∀ r, r ∈ reviews (world_of res) →
        r ∈ reviews w ∨
        (UserOrders.selectedOrder st = Some (r_order_id r) ∧
         r_farm_id r = r_order_id r ∧ r_user_id r = r_order_id r)).
Proof.
  cbn zeta.
  destruct (UserOrders_submitReview_closed e st w)
    as [->|[(k & _ & ->)|[(k & msg & Hsel & ->)|(k & st' & w' & Hsel & _ & Hrev & ->)]]];
    rewrite world_of_triple, writes_of_triple.
  - split; [by intros r Hr%elem_of_nil|by left].
  - split; [by intros r Hr%elem_of_nil|by left].
  - split; [|by left]. intros r Hr%list_elem_of_singleton. by simplify_eq.
  - split.
    + intros r Hr. rewrite !elem_of_cons, elem_of_nil in Hr.
      destruct Hr as [Hr|[Hr|[]]]; by simplify_eq.
    + intros r. rewrite Hrev, elem_of_app, list_elem_of_singleton.
      intros [Hr| ->]; [by left|by right].
Qed.

(** C10, witness: the review of the sample order of buyer [u1] at farm [f1]
    is stored with [o1] in all three columns. *)
Lemma review_row_ids_are_order_id_witness :
  let res := UserOrders.submitReview env_ok review_state (sample_world delivered) in
  (UserOrders.selectedOrder review_state = Some "o1" ∧
   r_farm_id (review_row "o1" review_state) = "o1" ∧
   r_user_id (review_row "o1" review_state) = "o1") ∧
  (review_row "o1" review_state ∈ reviews (sample_world delivered) ∨
   (UserOrders.selectedOrder review_state = Some "o1" ∧
    r_farm_id (review_row "o1" review_state) = "o1" ∧
    r_user_id (review_row "o1" review_state) = "o1")).
Proof.
  split.
  - apply (proj1 (review_row_ids_are_order_id env_ok review_state (sample_world delivered))
             (review_row "o1" review_state)).
    vm_compute. left.
  - apply (proj2 (review_row_ids_are_order_id env_ok review_state (sample_world delivered))
             (review_row "o1" review_state)).
    vm_compute. left.
Defined.

(** ** Shipping and cancelling from the farm pages *)

Lemma trim_start_blank (s : string) : all_space s = true → trim_start s = "".
Proof.
  induction s as [|c s IH]; [done|]. cbn [all_space trim_start].
  intros [Hc Hs]%andb_true_iff. rewrite Hc. by apply IH.
Qed.

(** An empty or whitespace-only text trims to the empty string. *)
Lemma trim_blank (s : string) : all_space s = true → falsy (trim s) = true.
Proof. intros H. unfold trim. by rewrite (trim_start_blank s H). Qed.

(** [OrderDetail.updateStatus("shipped")] with a blank tracking number sends
    nothing and leaves the store alone. *)
Lemma OrderDetail_ship_blank (e : Env) (st : OrderDetail.State) (w : World) :
  falsy (trim (OrderDetail.trackingNumber st)) = true →
  writes_of (OrderDetail.updateStatus e shipped st w) = [] ∧
  world_of (OrderDetail.updateStatus e shipped st w) = w.
Proof.
  intros Hblank. unfold OrderDetail.updateStatus.
  destruct (OrderDetail.order st) as [[id o]|]; [|done].
  change (OrderDetail.trackingNumber (OrderDetail.setUpdating true st))
    with (OrderDetail.trackingNumber st).
  by rewrite Hblank.
Qed.

(** Every update [OrderDetail.updateStatus("shipped")] sends carries the
    trimmed, non-empty tracking number. *)
Lemma OrderDetail_ship_sent (e : Env) (st : OrderDetail.State) (w : World)
    (t : Table) (k : string) (p : OrderPatch) :
  UpdateRow t k p ∈ writes_of (OrderDetail.updateStatus e shipped st w) →
  set_status p = Some shipped ∧
  set_tracking_number p = Some (trim (OrderDetail.trackingNumber st)) ∧
  trim (OrderDetail.trackingNumber st) ≠ "".
Proof.
  unfold OrderDetail.updateStatus.
  destruct (OrderDetail.order st) as [[id o]|]; [|by intros ?%elem_of_nil].
  change (OrderDetail.trackingNumber (OrderDetail.setUpdating true st))
    with (OrderDetail.trackingNumber st).
  destruct (falsy _) eqn:Hblank; [by intros ?%elem_of_nil|].
  apply bool_decide_eq_false in Hblank.
  rewrite writes_of_bind. unfold OrderDetail.send at 1.
  rewrite writes_of_bind, writes_of_update_orders.
  destruct (result (update_orders _ _ _ _));
    cbn; intros Hin%list_elem_of_singleton; by simplify_eq.
Qed.

(** The "Confirm Shipment" button of [FarmOrders] does nothing while the
    tracking number is blank. *)
Lemma FarmOrders_ship_blank (e : Env) (st : FarmOrders.State) (w : World) :
  falsy (trim (FarmOrders.tracking st)) = true →
  FarmOrders.click_confirm_shipment e st w = (st, [], w, []).
Proof.
  intros Hblank. unfold FarmOrders.click_confirm_shipment, FarmOrders.confirm_disabled.
  destruct (FarmOrders.shippingId st); [|done].
  by rewrite Hblank, orb_true_r.
Qed.

(** Every update that button sends carries the trimmed, non-empty tracking
    number. *)
Lemma FarmOrders_ship_sent (e : Env) (st : FarmOrders.State) (w : World)
    (t : Table) (k : string) (p : OrderPatch) :
  UpdateRow t k p ∈ writes_of (FarmOrders.click_confirm_shipment e st w) →
  set_status p = Some shipped ∧
  set_tracking_number p = Some (trim (FarmOrders.tracking st)) ∧
  trim (FarmOrders.tracking st) ≠ "".
Proof.
  unfold FarmOrders.click_confirm_shipment, FarmOrders.confirm_disabled.
  destruct (FarmOrders.shippingId st) as [id|]; [|by intros ?%elem_of_nil].
  destruct (falsy (trim (FarmOrders.carrier st))); [by intros ?%elem_of_nil|].
  destruct (falsy (trim (FarmOrders.tracking st))) eqn:Hblank; [by intros ?%elem_of_nil|].
  apply bool_decide_eq_false in Hblank. cbn [orb].
  rewrite writes_of_bind, writes_of_bind. unfold FarmOrders.updateOrder at 1.
  rewrite writes_of_bind, writes_of_update_orders.
  destruct (result (update_orders _ _ _ _));
    cbn; intros Hin%list_elem_of_singleton; by simplify_eq.
Qed.

(** C8, the code at the failing input: on the farm page that keeps its
    orders in [reservations], a tracking number of one space enables the
    "Confirm" button, and the click sends the transition to [shipped] with
    that whitespace-only tracking number. *)
Theorem whitespace_tracking_is_shipped :
  all_space (ReservationOrders.tracking space_typed) = true ∧
  ReservationOrders.confirm_disabled space_typed = false ∧
  writes_of (ReservationOrders.click_confirm_shipment env_ok space_typed
               (sample_world confirmed)) =
    [UpdateRow reservations_table "o1"
       {| set_status := Some shipped;
          set_tracking_number := Some " ";
          set_carrier := None;
          set_confirmed_at := None;
          set_shipped_at := Some 1000000000%Z;
          set_delivered_at := None;
          set_cancelled_at := None;
          set_cancellation_reason := None |}].
Proof. split_and!; reflexivity. Qed.

(** Every update a sweep sends sets the status, [cancelled_at] and the
    reason. *)
Lemma cancel_rows_patches (e : Env) (reason : string) {A} (key : A → string)
    (notes : A → list Notification) (l : list A) (w : World)
    (t : Table) (k : string) (p : OrderPatch) :
  UpdateRow t k p ∈ writes_of (cancel_rows e reason key notes l w) →
  ∃ now, p = cancel_patch now reason.
Proof.
  revert w. induction l as [|r l IH]; intros w; [by intros ?%elem_of_nil|].
  rewrite cancel_rows_cons.
  assert (UpdateRow t k p ∈ writes_of (cancel_row e reason (key r) (notes r) w) →
          ∃ now, p = cancel_patch now reason) as Hhd.
  { unfold cancel_row, writes_of.
    destruct (update_error e (key r)); [|destruct (orders w !! key r)]; cbn [snd];
      rewrite ?elem_of_cons, ?list_elem_of_fmap, ?elem_of_nil;
      intros [Heq|H]; simplify_eq; eauto; try done;
      destruct H as (n & Hn & _); done. }
  destruct (cancel_row _ _ _ _ w) as [[[] w1] t1].
  specialize (IH w1). destruct (cancel_rows e reason key notes l w1) as [[[] w2] t2].
  unfold writes_of in *. cbn [fst snd] in *.
  rewrite elem_of_app. intros [H|H]; eauto.
Qed.

Lemma sweep_updates_carry_reason (s : Sweep) (e : Env) (m : string) (w : World)
    (t : Table) (k : string) (p : OrderPatch) :
  UpdateRow t k p ∈ writes_of (serve_sweep s e m w) →
  set_status p = Some cancelled ∧
  is_Some (set_cancelled_at p) ∧
  is_Some (set_cancellation_reason p).
Proof.
  destruct (decide (m = "OPTIONS")) as [->|Hm].
  { destruct s; by intros ?%elem_of_nil. }
  destruct (fetch_error e) as [x|] eqn:Hf.
  { destruct s; cbn [serve_sweep].
    - rewrite (CheckFarmConfirm_serve_fetch_error e m x) by done. by intros ?%elem_of_nil.
    - rewrite (AutoCancelOrders_serve_fetch_error e m x) by done. by intros ?%elem_of_nil. }
  destruct s; cbn [serve_sweep].
  - rewrite CheckFarmConfirm_serve_fetched by done. cbn zeta. rewrite writes_of_triple.
    intros [now ->]%cancel_rows_patches. cbn. eauto.
  - rewrite AutoCancelOrders_serve_fetched by done. cbn zeta. rewrite writes_of_triple.
    intros [now ->]%cancel_rows_patches. cbn. eauto.
Qed.

(** C9, the code at the failing input: the cross button of the farm page
    that keeps its orders in [reservations] sends status [cancelled] with
    [cancelled_at] and without any cancellation reason. *)
Theorem farm_cancel_sends_no_reason (e : Env) (id : string) (w : World) :
  writes_of (ReservationOrders.click_cancel e id w) =
    [UpdateRow reservations_table id
       {| set_status := Some cancelled;
          set_tracking_number := None;
          set_carrier := None;
          set_confirmed_at := None;
          set_shipped_at := None;
          set_delivered_at := None;
          set_cancelled_at := Some (clock e (ticks w));
          set_cancellation_reason := None |}].
Proof.
  unfold ReservationOrders.click_cancel, ReservationOrders.updateStatus,
    bind, new_Date, update_reservations, writes_of.
  by destruct (update_error e id).
Qed.

(** * Further properties *)

(** ** The sweeps: what a run writes, and what it leaves *)

Lemma same_order_data_refl (o : Order) : same_order_data o o.
Proof. by repeat split. Qed.

Lemma same_order_data_trans (o1 o2 o3 : Order) :
  same_order_data o1 o2 → same_order_data o2 o3 → same_order_data o1 o3.
Proof. unfold same_order_data. intros H12 H23. destruct_and!. split_and!; congruence. Qed.

Lemma kept_or_cancelled_refl (o : Order) : kept_or_cancelled o o.
Proof. by left. Qed.

Lemma kept_or_cancelled_trans (o1 o2 o3 : Order) :
  kept_or_cancelled o1 o2 → kept_or_cancelled o2 o3 → kept_or_cancelled o1 o3.
Proof.
  intros [->|[H12 D12]] [->|[H23 D23]]; [by left|by right|by right|].
  right. split; [done|]. by apply (same_order_data_trans o1 o2 o3).
Qed.

Lemma kept_or_cancelled_row (e : Env) (reason : string) (i : nat) (o : Order) :
  kept_or_cancelled o (cancelled_row e reason i o).
Proof. right. split; [reflexivity|]. by repeat split. Qed.

Section CancelLoopMore.
Context (e : Env) (reason : string).
Context {A : Type} (key : A → string) (notes : A → list Notification).

Abbreviation loop' := (cancel_rows e reason key notes).

(** The loop keeps the set of keys and relates each row to what it was. *)
Lemma cancel_rows_related (l : list A) (w : World) (k : string) :
  option_Forall2 kept_or_cancelled (orders w !! k) (orders (world_of (loop' l w)) !! k).
Proof.
  revert w. induction l as [|r l IH]; intros w.
  { cbn. destruct (orders w !! k); constructor. apply kept_or_cancelled_refl. }
  rewrite cancel_rows_cons.
  pose proof (cancel_row_frame e reason (key r) (notes r) w) as (_ & _ & _ & Ho).
  pose proof (cancel_row_lookup e reason (key r) (notes r) w) as Hl.
  destruct (cancel_row _ _ _ _ w) as [[[] w1] t1].
  specialize (IH w1). destruct (loop' l w1) as [[[] w2] t2].
  unfold world_of in *. cbn [fst snd] in *.
  assert (option_Forall2 kept_or_cancelled (orders w !! k) (orders w1 !! k)) as Hstep.
  { destruct (decide (k = key r)) as [->|Hne].
    - rewrite Hl. destruct (update_error e (key r)).
      + destruct (orders w !! key r); constructor. apply kept_or_cancelled_refl.
      + destruct (orders w !! key r); constructor.
        apply (kept_or_cancelled_row e reason (ticks w)).
    - rewrite (Ho k Hne). destruct (orders w !! k); constructor.
      apply kept_or_cancelled_refl. }
  destruct Hstep as [o o1 H1|]; inversion IH as [o1' o2 H2|]; simplify_eq; constructor.
  by apply (kept_or_cancelled_trans o o1 o2).
Qed.

(** A notification is emitted only for a listed row whose update was
    accepted. *)
Lemma cancel_rows_emitted_from (l : list A) (w : World) (n : Notification) :
  n ∈ emitted (writes_of (loop' l w)) →
  ∃ r, r ∈ l ∧ update_error e (key r) = None ∧ n ∈ notes r.
Proof.
  revert w. induction l as [|r l IH]; intros w; [by intros ?%elem_of_nil|].
  rewrite cancel_rows_cons.
  pose proof (cancel_row_emitted e reason (key r) (notes r) w) as Hem.
  destruct (cancel_row _ _ _ _ w) as [[[] w1] t1].
  specialize (IH w1). destruct (loop' l w1) as [[[] w2] t2].
  unfold writes_of in *. cbn [fst snd] in *.
  rewrite emitted_app, elem_of_app, Hem. intros [Hn|Hn].
  - destruct (update_error e (key r)) eqn:Hu; [by apply elem_of_nil in Hn|].
    exists r. split_and!; [left|done|done].
  - destruct (IH Hn) as (r' & Hin & Hu & Hn'). exists r'. split_and!; [by right|done|done].
Qed.

(** One update request per listed row, and no other. *)
Lemma cancel_rows_updates_sent (l : list A) (w : World) :
  length (updates_sent (writes_of (loop' l w))) = length l.
Proof.
  revert w. induction l as [|r l IH]; intros w; [done|].
  rewrite cancel_rows_cons.
  assert (length (updates_sent (writes_of (cancel_row e reason (key r) (notes r) w))) = 1)
    as Hhd.
  { unfold cancel_row, writes_of.
    destruct (update_error e (key r)); [done|].
    assert (∀ ns : list Notification, updates_sent (InsertNotification <$> ns) = []) as Hins.
    { induction ns as [|n ns IHns]; [done|]. exact IHns. }
    destruct (orders w !! key r); cbn [snd];
      change (UpdateRow ?t ?i ?p :: ?l) with ([UpdateRow t i p] ++ l);
      unfold updates_sent in *; rewrite List.filter_app, Hins; done. }
  destruct (cancel_row _ _ _ _ w) as [[[] w1] t1].
  specialize (IH w1). destruct (loop' l w1) as [[[] w2] t2].
  unfold writes_of in *. cbn [fst snd] in *.
  unfold updates_sent in *. rewrite List.filter_app, length_app, IH, Hhd. done.
Qed.

Lemma cancel_rows_request_key (l : list A) (w : World) (t : Table) (k : string) (p : OrderPatch) :
  UpdateRow t k p ∈ writes_of (loop' l w) → t = orders_table ∧ k ∈ key <$> l.
Proof.
  revert w. induction l as [|r l IH]; intros w; [by intros ?%elem_of_nil|].
  rewrite cancel_rows_cons.
  assert (UpdateRow t k p ∈ writes_of (cancel_row e reason (key r) (notes r) w) →
          t = orders_table ∧ k = key r) as Hhd.
  { unfold cancel_row, writes_of.
    destruct (update_error e (key r)); [|destruct (orders w !! key r)]; cbn [snd];
      rewrite ?elem_of_cons, ?list_elem_of_fmap, ?elem_of_nil;
      intros [Heq|H]; simplify_eq; try done;
      destruct H as (n & Hn & _); done. }
  destruct (cancel_row _ _ _ _ w) as [[[] w1] t1].
  specialize (IH w1). destruct (loop' l w1) as [[[] w2] t2].
  unfold writes_of in *. cbn [fst snd] in *.
  rewrite elem_of_app, fmap_cons, elem_of_cons. intros [H|H].
  - destruct (Hhd H) as [-> ->]. split; [done|by left].
  - destruct (IH H) as [-> Hk]. split; [done|by right].
Qed.
End CancelLoopMore.

Lemma option_Forall2_refl_lookup (m : gmap string Order) (k : string) :
  option_Forall2 kept_or_cancelled (m !! k) (m !! k).
Proof. destruct (m !! k); constructor. apply kept_or_cancelled_refl. Qed.

(** X1: a run of either sweep creates no order and deletes none; every row
    is afterwards either exactly what it was or cancelled with all columns
    other than status, cancelled_at, cancellation_reason and updated_at as
    they were; products and reviews are not written. *)
Theorem sweep_keeps_order_data (s : Sweep) (e : Env) (m : string) (w : World) (k : string) :
  let r := serve_sweep s e m w in
  option_Forall2 kept_or_cancelled (orders w !! k) (orders (world_of r) !! k) ∧
  products (world_of r) = products w ∧
  reviews (world_of r) = reviews w.
Proof.
  cbn zeta. destruct (decide (m = "OPTIONS")) as [->|Hm].
  { destruct s; cbn [serve_sweep];
      rewrite ?CheckFarmConfirm_serve_preflight, ?AutoCancelOrders_serve_preflight,
        world_of_triple; split_and!; try done; apply option_Forall2_refl_lookup. }
  destruct (fetch_error e) as [x|] eqn:Hf.
  { destruct s; cbn [serve_sweep];
      rewrite ?(CheckFarmConfirm_serve_fetch_error e m x),
        ?(AutoCancelOrders_serve_fetch_error e m x) by done;
      rewrite world_of_triple; split_and!; try done; apply option_Forall2_refl_lookup. }
  destruct s; cbn [serve_sweep].
  - rewrite CheckFarmConfirm_serve_fetched by done. cbn zeta. rewrite world_of_triple.
    split; [apply (cancel_rows_related e _ _ _ _ (tick w))|].
    destruct (cancel_rows_frame e CheckFarmConfirm.reason CheckFarmConfirm.id
                CheckFarmConfirm.notes
                (CheckFarmConfirm.selected (clock e (ticks w)) w) (tick w)) as (Hp & Hr & _).
    by rewrite Hp, Hr.
  - rewrite AutoCancelOrders_serve_fetched by done. cbn zeta. rewrite world_of_triple.
    split; [apply (cancel_rows_related e _ _ _ _ (tick w))|].
    destruct (cancel_rows_frame e AutoCancelOrders.reason AutoCancelOrders.id
                AutoCancelOrders.notes
                (AutoCancelOrders.selected (clock e (ticks w)) w) (tick w)) as (Hp & Hr & _).
    by rewrite Hp, Hr.
Qed.

(** X2: the notifications table only grows: after a run of either sweep it
    is the old table followed, in order, by the notifications of the run
    whose insert the store accepted. *)
Theorem sweep_appends_notifications (s : Sweep) (e : Env) (m : string) (w : World) :
  let r := serve_sweep s e m w in
  notifications (world_of r) =
    notifications w ++ List.filter (stored e) (emitted (writes_of r)).
Proof.
  cbn zeta. destruct (decide (m = "OPTIONS")) as [->|Hm].
  { destruct s; cbn [serve_sweep];
      rewrite ?CheckFarmConfirm_serve_preflight, ?AutoCancelOrders_serve_preflight,
        world_of_triple, writes_of_triple; cbn; by rewrite app_nil_r. }
  destruct (fetch_error e) as [x|] eqn:Hf.
  { destruct s; cbn [serve_sweep];
      rewrite ?(CheckFarmConfirm_serve_fetch_error e m x),
        ?(AutoCancelOrders_serve_fetch_error e m x) by done;
      rewrite world_of_triple, writes_of_triple; cbn; by rewrite app_nil_r. }
  destruct s; cbn [serve_sweep].
  - rewrite CheckFarmConfirm_serve_fetched by done. cbn zeta.
    rewrite world_of_triple, writes_of_triple.
    apply (cancel_rows_frame e CheckFarmConfirm.reason CheckFarmConfirm.id
             CheckFarmConfirm.notes _ (tick w)).
  - rewrite AutoCancelOrders_serve_fetched by done. cbn zeta.
    rewrite world_of_triple, writes_of_triple.
    apply (cancel_rows_frame e AutoCancelOrders.reason AutoCancelOrders.id
             AutoCancelOrders.notes _ (tick w)).
Qed.

Lemma sweep_accepted_row (s : Sweep) (e : Env) (m : string) (w : World) (k : string) (o : Order) :
  m ≠ "OPTIONS" → fetch_error e = None → update_error e k = None →
  orders w !! k = Some o → sweep_matches s w (clock e (ticks w)) o →
  ∃ i, ticks w < i ∧
       orders (world_of (serve_sweep s e m w)) !! k =
         Some (cancelled_row e (sweep_reason s) i o).
Proof.
  intros Hm Hf Hu Hk Hmatch. destruct s; cbn [serve_sweep sweep_reason sweep_matches] in *.
  - by destruct (CheckFarmConfirm_accepted e m w k o Hm Hf Hu Hk Hmatch) as [Hrow _].
  - by destruct (AutoCancelOrders_accepted e m w k o Hm Hf Hu Hk Hmatch) as [Hrow _].
Qed.

(** X3: a sweep notifies nobody about an order it did not cancel: every
    notification a run emits names an order of the table that matched the
    filter of the run and whose update the store accepted, and that order is
    cancelled, with the reason of the sweep, when the run ends. *)
Theorem sweep_notifies_only_cancelled (s : Sweep) (e : Env) (m : string) (w : World)
    (n : Notification) :
  let r := serve_sweep s e m w in
  n ∈ emitted (writes_of r) →
  ∃ k o o',
    n_related_order_id n = Some k ∧
    orders w !! k = Some o ∧
    sweep_matches s w (clock e (ticks w)) o ∧
    update_error e k = None ∧
    orders (world_of r) !! k = Some o' ∧
    cancelled_with e (ticks w) (sweep_reason s) o'.
Proof.
  cbn zeta. destruct (decide (m = "OPTIONS")) as [->|Hm].
  { destruct s; cbn [serve_sweep];
      rewrite ?CheckFarmConfirm_serve_preflight, ?AutoCancelOrders_serve_preflight,
        writes_of_triple; by intros ?%elem_of_nil. }
  destruct (fetch_error e) as [x|] eqn:Hf.
  { destruct s; cbn [serve_sweep];
      rewrite ?(CheckFarmConfirm_serve_fetch_error e m x),
        ?(AutoCancelOrders_serve_fetch_error e m x) by done;
      rewrite writes_of_triple; by intros ?%elem_of_nil. }
  intros Hn.
  assert (∃ k o, n_related_order_id n = Some k ∧ orders w !! k = Some o ∧
                 sweep_matches s w (clock e (ticks w)) o ∧ update_error e k = None)
    as (k & o & Hrel & Hk & Hmatch & Hu).
  { destruct s; cbn [serve_sweep sweep_matches] in *.
    - rewrite CheckFarmConfirm_serve_fetched in Hn by done. cbn zeta in Hn.
      rewrite writes_of_triple in Hn.
      apply cancel_rows_emitted_from in Hn as (r & Hin & Hu & Hnote).
      unfold CheckFarmConfirm.selected in Hin.
      apply selected_elem in Hin as (k & o & Hk & Hsel).
      pose proof (CheckFarmConfirm_select_row_key _ _ _ Hsel) as Hid. cbn in Hid.
      exists k, o. rewrite <- Hid at 1 3. split_and!; try done.
      + by apply CheckFarmConfirm_notes_about.
      + apply (CheckFarmConfirm_select_row_iff _ k). by rewrite Hsel.
    - rewrite AutoCancelOrders_serve_fetched in Hn by done. cbn zeta in Hn.
      rewrite writes_of_triple in Hn.
      apply cancel_rows_emitted_from in Hn as (r & Hin & Hu & Hnote).
      unfold AutoCancelOrders.selected in Hin.
      apply selected_elem in Hin as (k & o & Hk & Hsel).
      pose proof (AutoCancelOrders_select_row_key _ _ _ _ Hsel) as Hid. cbn in Hid.
      exists k, o. rewrite <- Hid at 1 3. split_and!; try done.
      + by apply AutoCancelOrders_notes_about.
      + apply (AutoCancelOrders_select_row_iff _ _ k). by rewrite Hsel. }
  destruct (sweep_accepted_row s e m w k o Hm Hf Hu Hk Hmatch) as (i & Hi & Hrow).
  exists k, o, (cancelled_row e (sweep_reason s) i o).
  split_and!; try done. by apply cancelled_row_cancelled_with.
Qed.

(** X3, witness: the buyer's notice of the stale sample order. *)
Lemma sweep_notifies_only_cancelled_witness :
  ∃ k o o',
    n_related_order_id
      (CheckFarmConfirm.user_notice (CheckFarmConfirm.mkRow "o1" "u1" "f1")) = Some k ∧
    orders (sample_world pending) !! k = Some o ∧
    sweep_matches StalePending (sample_world pending)
      (clock env_ok (ticks (sample_world pending))) o ∧
    update_error env_ok k = None ∧
    orders (world_of (serve_sweep StalePending env_ok "POST" (sample_world pending))) !! k
      = Some o' ∧
    cancelled_with env_ok (ticks (sample_world pending)) (sweep_reason StalePending) o'.
Proof.
  apply (sweep_notifies_only_cancelled StalePending env_ok "POST" (sample_world pending)).
  vm_compute. left.
Defined.

(** X4: when the select of a sweep succeeds, the number in the message of
    the response is the number of update requests the run sent, one for each
    selected row whether or not the store accepted it. *)
Theorem sweep_message_counts_requests (s : Sweep) (e : Env) (m : string) (w : World) :
  m ≠ "OPTIONS" → fetch_error e = None →
  let r := serve_sweep s e m w in
  result r =
    success_response
      ("Cancelled " +:+ pretty (length (updates_sent (writes_of r))) +:+ sweep_suffix s).
Proof.
  intros Hm Hf. destruct s; cbn [serve_sweep sweep_suffix].
  - rewrite CheckFarmConfirm_serve_fetched by done. cbn zeta.
    rewrite result_triple, writes_of_triple. by rewrite cancel_rows_updates_sent.
  - rewrite AutoCancelOrders_serve_fetched by done. cbn zeta.
    rewrite result_triple, writes_of_triple. by rewrite cancel_rows_updates_sent.
Qed.

(** X4, witness: two orders are selected, one update is refused, the message
    says 2. *)
Lemma sweep_message_counts_requests_witness :
  result (serve_sweep StalePending env_o1_refused "POST"
            (mkWorld (<["o2" := sample_order pending]> {[ "o1" := sample_order pending ]})
               ∅ [] [] 0)) =
    success_response
      ("Cancelled " +:+
       pretty (length (updates_sent
                 (writes_of (serve_sweep StalePending env_o1_refused "POST"
                    (mkWorld (<["o2" := sample_order pending]>
                                {[ "o1" := sample_order pending ]}) ∅ [] [] 0))))) +:+
       sweep_suffix StalePending).
Proof.
  apply (sweep_message_counts_requests StalePending env_o1_refused "POST").
  - discriminate.
  - reflexivity.
Defined.

(** X5: a run of a sweep sends an update for an order exactly when the
    request is no preflight, the select succeeds and the order is in the
    table and matches the filter of the sweep at the instant the run read;
    the requests go to [orders] only. *)
Theorem sweep_updates_exactly_matching (s : Sweep) (e : Env) (m : string) (w : World)
    (k : string) :
  (∃ t p, UpdateRow t k p ∈ writes_of (serve_sweep s e m w)) ↔
  (m ≠ "OPTIONS" ∧ fetch_error e = None ∧
   ∃ o, orders w !! k = Some o ∧ sweep_matches s w (clock e (ticks w)) o).
Proof.
  destruct (decide (m = "OPTIONS")) as [->|Hm].
  { split; [|by intros [? _]].
    destruct s; cbn [serve_sweep];
      rewrite ?CheckFarmConfirm_serve_preflight, ?AutoCancelOrders_serve_preflight,
        writes_of_triple; by intros (t & p & ?%elem_of_nil). }
  destruct (fetch_error e) as [x|] eqn:Hf.
  { split; [|by intros (_ & ? & _)].
    destruct s; cbn [serve_sweep];
      rewrite ?(CheckFarmConfirm_serve_fetch_error e m x),
        ?(AutoCancelOrders_serve_fetch_error e m x) by done;
      rewrite writes_of_triple; by intros (t & p & ?%elem_of_nil). }
  destruct s; cbn [serve_sweep sweep_matches].
  - rewrite CheckFarmConfirm_serve_fetched by done. cbn zeta. rewrite writes_of_triple.
    unfold CheckFarmConfirm.selected. split.
    + intros (t & p & [_ Hin]%cancel_rows_request_key).
      apply (selected_key_elem _ _ (CheckFarmConfirm_select_row_key _)) in Hin
        as (o & Hk & Hsel).
      split_and!; try done. exists o. split; [done|].
      by apply (CheckFarmConfirm_select_row_iff _ k).
    + intros (_ & _ & o & Hk & [r Hsel]%(CheckFarmConfirm_select_row_iff _ k)).
      pose proof (CheckFarmConfirm_select_row_key _ _ _ Hsel) as Hid. cbn in Hid.
      rewrite <- Hid. exists orders_table.
      apply cancel_rows_requests, selected_elem. eauto.
  - rewrite AutoCancelOrders_serve_fetched by done. cbn zeta. rewrite writes_of_triple.
    unfold AutoCancelOrders.selected. split.
    + intros (t & p & [_ Hin]%cancel_rows_request_key).
      apply (selected_key_elem _ _ (AutoCancelOrders_select_row_key _ _)) in Hin
        as (o & Hk & Hsel).
      split_and!; try done. exists o. split; [done|].
      by apply (AutoCancelOrders_select_row_iff _ _ k).
    + intros (_ & _ & o & Hk & [r Hsel]%(AutoCancelOrders_select_row_iff _ _ k)).
      pose proof (AutoCancelOrders_select_row_key _ _ _ _ Hsel) as Hid. cbn in Hid.
      rewrite <- Hid. exists orders_table.
      apply cancel_rows_requests, selected_elem. eauto.
Qed.

(** X6: the 48 hours are exclusive, and a row without a creation time is
    never stale: a pending order created at most 48 hours before the instant
    the run reads, or whose [created_at] is null, keeps its row through the
    stale-pending sweep and gets no notification. *)
Theorem stale_sweep_boundary (e : Env) (m : string) (w : World) (k : string) (o : Order) :
  orders w !! k = Some o →
  (o_created_at o = None ∨
   ∃ t, o_created_at o = Some t ∧ (clock e (ticks w) - 48 * hour_ms ≤ t)%Z) →
  let r := CheckFarmConfirm.serve e m w in
  orders (world_of r) !! k = Some o ∧ emitted_for k (writes_of r) = [].
Proof.
  intros Hk Hage. apply CheckFarmConfirm_unmatched; [done|].
  intros [_ (t & Ht & Hlt)]. destruct Hage as [Hnone|(t' & Ht' & Hle)]; simplify_eq. lia.
Qed.

(** X6, witness: the pending sample order, created at instant 0, in a run
    that reads the instant 48 hours later to the millisecond. *)
Lemma stale_sweep_boundary_witness :
  let r := CheckFarmConfirm.serve (env_at 172800000) "POST" (sample_world pending) in
  orders (world_of r) !! "o1" = Some (sample_order pending) ∧
  emitted_for "o1" (writes_of r) = [].
Proof.
  apply (stale_sweep_boundary (env_at 172800000) "POST" (sample_world pending) "o1").
  - vm_compute. reflexivity.
  - right. exists 0%Z. split; [reflexivity|]. vm_compute. discriminate.
Defined.

(** X7: the 7 days are exclusive, and the join is an inner one: an order
    whose product was harvested at most 7 days before the day of the run, or
    whose product row is missing, keeps its row through the post-harvest
    sweep and gets no notification. *)
Theorem harvest_sweep_boundary (e : Env) (m : string) (w : World) (k : string) (o : Order) :
  orders w !! k = Some o →
  (products w !! o_product_id o = None ∨
   ∃ p, products w !! o_product_id o = Some p ∧
        (iso_date (clock e (ticks w)) - 7 ≤ p_harvest_date p)%Z) →
  let r := AutoCancelOrders.serve e m w in
  orders (world_of r) !! k = Some o ∧ emitted_for k (writes_of r) = [].
Proof.
  intros Hk Hdate. apply AutoCancelOrders_unmatched; [done|].
  intros [_ (p & Hp & Hlt)]. destruct Hdate as [Hnone|(p' & Hp' & Hle)]; simplify_eq. lia.
Qed.

(** X7, witness: the confirmed sample order, harvested on day 1, in a run at
    the last millisecond of day 8. *)
Lemma harvest_sweep_boundary_witness :
  let r := AutoCancelOrders.serve (env_at 777599999) "POST" (sample_world confirmed) in
  orders (world_of r) !! "o1" = Some (sample_order confirmed) ∧
  emitted_for "o1" (writes_of r) = [].
Proof.
  apply (harvest_sweep_boundary (env_at 777599999) "POST" (sample_world confirmed) "o1").
  - vm_compute. reflexivity.
  - right. exists (mkProduct "f1" "Cavendish" 1). split; [vm_compute; reflexivity|].
    vm_compute. discriminate.
Defined.

Lemma sweep_unmatched_cancelled (s : Sweep) (e : Env) (m : string) (w : World)
    (k : string) (o : Order) :
  orders w !! k = Some o → o_status o = cancelled →
  let r := serve_sweep s e m w in
  orders (world_of r) !! k = Some o ∧ emitted_for k (writes_of r) = [].
Proof.
  intros Hk Hst. destruct s; cbn [serve_sweep].
  - apply CheckFarmConfirm_unmatched; [done|]. intros [Hp _]. congruence.
  - apply AutoCancelOrders_unmatched; [done|]. intros [[Hp|Hp] _]; congruence.
Qed.

(** X8: the first sweep that cancels an order settles its reason: once a run
    of one sweep has cancelled an order, a following run of either sweep,
    whatever the store answers, leaves that row as it is, with the reason of
    the first sweep, and emits nothing for it. *)
Theorem first_cancellation_stands (s1 s2 : Sweep) (e1 e2 : Env) (m1 m2 : string)
    (w : World) (k : string) (o : Order) :
  m1 ≠ "OPTIONS" → fetch_error e1 = None → update_error e1 k = None →
  orders w !! k = Some o → sweep_matches s1 w (clock e1 (ticks w)) o →
  let r1 := serve_sweep s1 e1 m1 w in
  let r2 := serve_sweep s2 e2 m2 (world_of r1) in
  (∃ o', orders (world_of r2) !! k = Some o' ∧
         orders (world_of r1) !! k = Some o' ∧
         o_status o' = cancelled ∧
         o_cancellation_reason o' = Some (sweep_reason s1)) ∧
  emitted_for k (writes_of r2) = [].
Proof.
  intros Hm Hf Hu Hk Hmatch. cbn zeta.
  destruct (sweep_accepted_row s1 e1 m1 w k o Hm Hf Hu Hk Hmatch) as (i & _ & Hrow).
  destruct (sweep_unmatched_cancelled s2 e2 m2 _ k _ Hrow eq_refl) as [Hkeep Hnone].
  split; [|exact Hnone].
  exists (cancelled_row e1 (sweep_reason s1) i o). by split_and!.
Qed.

(** X8, witness: the sample order matches both filters; the post-harvest
    sweep runs first, the stale-pending sweep second. *)
Lemma first_cancellation_stands_witness :
  let r1 := serve_sweep PostHarvest env_ok "POST" (sample_world pending) in
  let r2 := serve_sweep StalePending env_ok "POST" (world_of r1) in
  (∃ o', orders (world_of r2) !! "o1" = Some o' ∧
         orders (world_of r1) !! "o1" = Some o' ∧
         o_status o' = cancelled ∧
         o_cancellation_reason o' = Some (sweep_reason PostHarvest)) ∧
  emitted_for "o1" (writes_of r2) = [].
Proof.
  apply (first_cancellation_stands PostHarvest StalePending env_ok env_ok "POST" "POST"
           (sample_world pending) "o1" (sample_order pending)).
  - discriminate.
  - reflexivity.
  - reflexivity.
  - vm_compute. reflexivity.
  - split; [by left|]. exists (mkProduct "f1" "Cavendish" 1).
    split; vm_compute; reflexivity.
Defined.

(** ** OrderDetail: what [updateStatus] does to the store and to the page *)

Lemma OrderDetail_send_accepted (e : Env) (id : string) (o os : Order)
    (newStatus : order_status) (p : OrderPatch) (st : OrderDetail.State) (w : World) :
  update_error e id = None → orders w !! id = Some os →
  OrderDetail.send e id o newStatus p st w =
    (OrderDetail.setUpdating false (OrderDetail.setOrder (Some (id, apply_patch p o)) st),
     [toast_success ("Order " +:+ status_name newStatus)],
     tick (set_orders (insert id (touch (clock e (ticks w)) (apply_patch p os))) w),
     [UpdateRow orders_table id p]).
Proof.
  intros Hu Hos. unfold OrderDetail.send, bind, update_orders. by rewrite Hu, Hos.
Qed.

Lemma OrderDetail_send_refused (e : Env) (id : string) (o : Order)
    (newStatus : order_status) (p : OrderPatch) (st : OrderDetail.State) (w : World)
    (x : JsThrown) :
  update_error e id = Some x →
  OrderDetail.send e id o newStatus p st w =
    (OrderDetail.setUpdating false st,
     [toast_error match x with
                  | JsError message => message
                  | JsObject _ => "Failed to update order"
                  end],
     w, [UpdateRow orders_table id p]).
Proof.
  intros Hu. unfold OrderDetail.send, bind, update_orders. by rewrite Hu.
Qed.

(** X9: [updateStatus] has no guard on the status the row has in the store:
    when an order is loaded, the tracking number is not blank if the target
    is shipped, and the store accepts the update of an existing row, that
    row gets the requested status whatever it was, the page's copy gets the
    same update, exactly one update is sent and a success toast says
    "Order <status>"; the other rows are not touched. *)
Theorem OrderDetail_update_accepted (e : Env) (newStatus : order_status)
    (st : OrderDetail.State) (w : World) (id : string) (o os : Order) :
  OrderDetail.order st = Some (id, o) →
  (newStatus = shipped → falsy (trim (OrderDetail.trackingNumber st)) = false) →
  update_error e id = None → orders w !! id = Some os →
  let r := OrderDetail.updateStatus e newStatus st w in
  ∃ p t,
    writes_of r = [UpdateRow orders_table id p] ∧
    set_status p = Some newStatus ∧
    orders (world_of r) = <[id := touch t (apply_patch p os)]> (orders w) ∧
    o_status <$> orders (world_of r) !! id = Some newStatus ∧
    result r =
      ({| OrderDetail.order := Some (id, apply_patch p o);
          OrderDetail.trackingNumber := OrderDetail.trackingNumber st;
          OrderDetail.updating := false |},
       [toast_success ("Order " +:+ status_name newStatus)]).
Proof.
  intros Horder Htrack Hu Hos. cbn zeta. unfold OrderDetail.updateStatus. rewrite Horder.
  change (OrderDetail.trackingNumber (OrderDetail.setUpdating true st))
    with (OrderDetail.trackingNumber st).
  destruct newStatus; try rewrite (Htrack eq_refl); unfold bind, new_Date;
    rewrite ?(OrderDetail_send_accepted e id o os _ _ _ w Hu Hos),
      ?(OrderDetail_send_accepted e id o os _ _ _ (tick w) Hu Hos);
    rewrite ?world_of_triple, ?writes_of_triple, ?result_triple; cbn [app];
    eexists _, _; (split_and!; [reflexivity|reflexivity|reflexivity| |reflexivity]);
    cbn [orders tick set_orders]; by rewrite lookup_insert_eq.
Qed.

(** X9, witness: the page still shows the sample order as pending while the
    store has it cancelled; "Confirm Order" turns the stored row to
    confirmed. *)
Lemma OrderDetail_update_accepted_witness :
  let r := OrderDetail.updateStatus env_ok confirmed (detail_state pending "")
             (sample_world cancelled) in
  ∃ p t,
    writes_of r = [UpdateRow orders_table "o1" p] ∧
    set_status p = Some confirmed ∧
    orders (world_of r) =
      <["o1" := touch t (apply_patch p (sample_order cancelled))]>
        (orders (sample_world cancelled)) ∧
    o_status <$> orders (world_of r) !! "o1" = Some confirmed ∧
    result r =
      ({| OrderDetail.order := Some ("o1", apply_patch p (sample_order pending));
          OrderDetail.trackingNumber := "";
          OrderDetail.updating := false |},
       [toast_success ("Order " +:+ status_name confirmed)]).
Proof.
  apply (OrderDetail_update_accepted env_ok confirmed (detail_state pending "")
           (sample_world cancelled) "o1" (sample_order pending) (sample_order cancelled)).
  - reflexivity.
  - discriminate.
  - reflexivity.
  - vm_compute. reflexivity.
Defined.

(** X10: when the store refuses the update, [updateStatus] leaves the orders
    table and the page's copy of the order as they were, ends with
    [updating] false, and shows one error toast: the message of the thrown
    value if it is an [Error], "Failed to update order" otherwise. *)
Theorem OrderDetail_update_refused (e : Env) (newStatus : order_status)
    (st : OrderDetail.State) (w : World) (id : string) (o : Order) (x : JsThrown) :
  OrderDetail.order st = Some (id, o) →
  (newStatus = shipped → falsy (trim (OrderDetail.trackingNumber st)) = false) →
  update_error e id = Some x →
  let r := OrderDetail.updateStatus e newStatus st w in
  orders (world_of r) = orders w ∧
  (∃ p, writes_of r = [UpdateRow orders_table id p] ∧ set_status p = Some newStatus) ∧
  result r =
    ({| OrderDetail.order := OrderDetail.order st;
        OrderDetail.trackingNumber := OrderDetail.trackingNumber st;
        OrderDetail.updating := false |},
     [toast_error match x with
                  | JsError message => message
                  | JsObject _ => "Failed to update order"
                  end]).
Proof.
  intros Horder Htrack Hu. cbn zeta. unfold OrderDetail.updateStatus. rewrite Horder.
  change (OrderDetail.trackingNumber (OrderDetail.setUpdating true st))
    with (OrderDetail.trackingNumber st).
  destruct newStatus; try rewrite (Htrack eq_refl); unfold bind, new_Date;
    rewrite ?(OrderDetail_send_refused e id o _ _ _ w x Hu),
      ?(OrderDetail_send_refused e id o _ _ _ (tick w) x Hu);
    rewrite ?world_of_triple, ?writes_of_triple, ?result_triple; cbn [app];
    (split_and!; [reflexivity|eexists; split; reflexivity|]);
    unfold OrderDetail.setUpdating; cbn; by rewrite Horder.
Qed.

(** X10, witness: the store refuses to mark the confirmed sample order as
    shipped. *)
Lemma OrderDetail_update_refused_witness :
  let r := OrderDetail.updateStatus env_update_refused shipped
             (detail_state confirmed "TH123") (sample_world confirmed) in
  orders (world_of r) = orders (sample_world confirmed) ∧
  (∃ p, writes_of r = [UpdateRow orders_table "o1" p] ∧ set_status p = Some shipped) ∧
  result r =
    ({| OrderDetail.order := OrderDetail.order (detail_state confirmed "TH123");
        OrderDetail.trackingNumber := "TH123";
        OrderDetail.updating := false |},
     [toast_error "Failed to update order"]).
Proof.
  apply (OrderDetail_update_refused env_update_refused shipped
           (detail_state confirmed "TH123") (sample_world confirmed) "o1"
           (sample_order confirmed) (JsObject "permission denied for table orders")).
  - reflexivity.
  - intros _. vm_compute. reflexivity.
  - reflexivity.
Defined.

(** X11: the "Update Order" card moves an order one step forward only: every
    update a click on its button sends is for the order the page shows, asks
    for confirmed, shipped or delivered according to whether the page shows
    it pending, confirmed or shipped, and sets neither [cancelled_at] nor a
    cancellation reason; a click sends nothing while [updating] is set. *)
Theorem OrderDetail_card_steps_forward (e : Env) (st : OrderDetail.State) (w : World)
    (t : Table) (k : string) (p : OrderPatch) :
  UpdateRow t k p ∈ writes_of (OrderDetailCard.click e st w) →
  ∃ o, OrderDetail.order st = Some (k, o) ∧
       t = orders_table ∧
       OrderDetail.updating st = false ∧
       set_status p = OrderDetailCard.button (o_status o) ∧
       ((o_status o = pending ∧ set_status p = Some confirmed) ∨
        (o_status o = confirmed ∧ set_status p = Some shipped) ∨
        (o_status o = shipped ∧ set_status p = Some delivered)) ∧
       set_cancelled_at p = None ∧ set_cancellation_reason p = None.
Proof.
  unfold OrderDetailCard.click.
  destruct (OrderDetail.order st) as [[id o]|] eqn:Horder; [|by intros ?%elem_of_nil].
  destruct (OrderDetailCard.button (o_status o)) as [s|] eqn:Hbutton;
    [|by intros ?%elem_of_nil].
  destruct (OrderDetail.updating st) eqn:Hupd; [by intros ?%elem_of_nil|].
  unfold OrderDetail.updateStatus. rewrite Horder.
  change (OrderDetail.trackingNumber (OrderDetail.setUpdating true st))
    with (OrderDetail.trackingNumber st).
  destruct (o_status o) eqn:Hst; cbn in Hbutton; simplify_eq;
    try (destruct (falsy _); [by intros ?%elem_of_nil|]);
    rewrite writes_of_bind; unfold OrderDetail.send at 1;
    rewrite writes_of_bind, writes_of_update_orders;
    (destruct (result (update_orders _ _ _ _));
      cbn; intros Hin%list_elem_of_singleton; simplify_eq;
      exists o; rewrite Hst; split_and!; try done; eauto).
Qed.

(** X11, witness: the button of the card for the confirmed sample order,
    with a tracking number typed in. *)
Lemma OrderDetail_card_steps_forward_witness :
  ∃ o, OrderDetail.order (detail_state confirmed "TH123") = Some ("o1", o) ∧
       orders_table = orders_table ∧
       OrderDetail.updating (detail_state confirmed "TH123") = false ∧
       set_status
         {| set_status := Some shipped; set_tracking_number := Some "TH123";
            set_carrier := None; set_confirmed_at := None;
            set_shipped_at := Some 1000000000%Z; set_delivered_at := None;
            set_cancelled_at := None; set_cancellation_reason := None |}
         = OrderDetailCard.button (o_status o) ∧
       ((o_status o = pending ∧ Some shipped = Some confirmed) ∨
        (o_status o = confirmed ∧ Some shipped = Some shipped) ∨
        (o_status o = shipped ∧ Some shipped = Some delivered)) ∧
       @None Z = None ∧ @None string = None.
Proof.
  apply (OrderDetail_card_steps_forward env_ok (detail_state confirmed "TH123")
           (sample_world confirmed) orders_table "o1"
           {| set_status := Some shipped; set_tracking_number := Some "TH123";
              set_carrier := None; set_confirmed_at := None;
              set_shipped_at := Some 1000000000%Z; set_delivered_at := None;
              set_cancelled_at := None; set_cancellation_reason := None |}).
  vm_compute. left.
Defined.

(** ** The ship modal of FarmOrders *)

(** X12: a click on an enabled "Confirm Shipment" sends one update, for the
    modal's order, asking for shipped with the trimmed carrier and tracking
    number, both non-empty; then the modal is closed and both fields are
    cleared whether or not the store accepted the update, and the only
    feedback is an error toast with the store's message when it refused, in
    which case the orders table is as before. *)
Theorem FarmOrders_ship_click_closes_modal (e : Env) (st : FarmOrders.State) (w : World)
    (id : string) :
  FarmOrders.shippingId st = Some id →
  FarmOrders.confirm_disabled st = false →
  let r := FarmOrders.click_confirm_shipment e st w in
  (∃ p, writes_of r = [UpdateRow orders_table id p] ∧
        set_status p = Some shipped ∧
        set_tracking_number p = Some (trim (FarmOrders.tracking st)) ∧
        set_carrier p = Some (trim (FarmOrders.carrier st)) ∧
        trim (FarmOrders.tracking st) ≠ "" ∧
        trim (FarmOrders.carrier st) ≠ "") ∧
  fst (result r) =
    {| FarmOrders.shippingId := None; FarmOrders.tracking := ""; FarmOrders.carrier := "" |} ∧
  snd (result r) =
    match update_error e id with
    | Some x => [toast_error (thrown_message x)]
    | None => []
    end ∧
  (update_error e id ≠ None → orders (world_of r) = orders w).
Proof.
  intros Hid Hdis. cbn zeta. unfold FarmOrders.click_confirm_shipment.
  rewrite Hid, Hdis.
  unfold FarmOrders.confirm_disabled, falsy in Hdis.
  apply orb_false_iff in Hdis as [Hc%bool_decide_eq_false Ht%bool_decide_eq_false].
  unfold bind, new_Date, FarmOrders.updateOrder, bind, update_orders.
  cbn [fst snd result world_of writes_of ticks tick orders].
  destruct (update_error e id) as [x|] eqn:Hu.
  - cbn. split_and!; [eexists; split_and!; try reflexivity; done|done|done|done].
  - destruct (orders w !! id) as [o|]; cbn;
      (split_and!; [eexists; split_and!; try reflexivity; done|done|done|done]).
Qed.

(** X12, witness: the store refuses the shipment of the sample order. *)
Lemma FarmOrders_ship_click_closes_modal_witness :
  let r := FarmOrders.click_confirm_shipment env_update_refused ship_modal
             (sample_world confirmed) in
  (∃ p, writes_of r = [UpdateRow orders_table "o1" p] ∧
        set_status p = Some shipped ∧
        set_tracking_number p = Some (trim (FarmOrders.tracking ship_modal)) ∧
        set_carrier p = Some (trim (FarmOrders.carrier ship_modal)) ∧
        trim (FarmOrders.tracking ship_modal) ≠ "" ∧
        trim (FarmOrders.carrier ship_modal) ≠ "") ∧
  fst (result r) =
    {| FarmOrders.shippingId := None; FarmOrders.tracking := ""; FarmOrders.carrier := "" |} ∧
  snd (result r) =
    match update_error env_update_refused "o1" with
    | Some x => [toast_error (thrown_message x)]
    | None => []
    end ∧
  (update_error env_update_refused "o1" ≠ None →
   orders (world_of r) = orders (sample_world confirmed)).
Proof.
  apply (FarmOrders_ship_click_closes_modal env_update_refused ship_modal
           (sample_world confirmed) "o1").
  - reflexivity.
  - vm_compute. reflexivity.
Defined.

(** X13: when the store accepts the update sent by "Confirm Shipment", the
    stored row of the modal's order has status shipped, the trimmed
    tracking number and carrier, [shipped_at] at the click's clock reading
    and [updated_at] at the trigger's; its other columns are as before, and
    no other row changes. The status the row had before is not looked at. *)
Theorem FarmOrders_ship_accepted (e : Env) (st : FarmOrders.State) (w : World)
    (id : string) (o : Order) :
  FarmOrders.shippingId st = Some id →
  FarmOrders.confirm_disabled st = false →
  update_error e id = None →
  orders w !! id = Some o →
  let r := FarmOrders.click_confirm_shipment e st w in
  ∃ o',
    orders (world_of r) = <[id := o']> (orders w) ∧
    o_status o' = shipped ∧
    o_tracking_number o' = Some (trim (FarmOrders.tracking st)) ∧
    o_carrier o' = Some (trim (FarmOrders.carrier st)) ∧
    o_shipped_at o' = Some (clock e (ticks w)) ∧
    o_updated_at o' = Some (clock e (S (ticks w))) ∧
    o_user_id o' = o_user_id o ∧ o_farm_id o' = o_farm_id o ∧
    o_product_id o' = o_product_id o ∧ o_quantity o' = o_quantity o ∧
    o_total_price o' = o_total_price o ∧
    o_confirmed_at o' = o_confirmed_at o ∧ o_delivered_at o' = o_delivered_at o ∧
    o_cancelled_at o' = o_cancelled_at o ∧
    o_cancellation_reason o' = o_cancellation_reason o ∧
    snd (result r) = [].
Proof.
  intros Hid Hdis Hu Ho. cbn zeta. unfold FarmOrders.click_confirm_shipment.
  rewrite Hid, Hdis.
  unfold bind, new_Date, FarmOrders.updateOrder, bind, update_orders.
  cbn [fst snd result world_of writes_of ticks tick orders].
  rewrite Hu, Ho. cbn. eexists. split; [reflexivity|]. by cbn.
Qed.

(** X13, witness: the shipment of the sample order, here recorded in the
    store as cancelled, is accepted. *)
Lemma FarmOrders_ship_accepted_witness :
  let r := FarmOrders.click_confirm_shipment env_ok ship_modal (sample_world cancelled) in
  ∃ o',
    orders (world_of r) = <["o1" := o']> (orders (sample_world cancelled)) ∧
    o_status o' = shipped ∧
    o_tracking_number o' = Some (trim (FarmOrders.tracking ship_modal)) ∧
    o_carrier o' = Some (trim (FarmOrders.carrier ship_modal)) ∧
    o_shipped_at o' = Some (clock env_ok (ticks (sample_world cancelled))) ∧
    o_updated_at o' = Some (clock env_ok (S (ticks (sample_world cancelled)))) ∧
    o_user_id o' = o_user_id (sample_order cancelled) ∧
    o_farm_id o' = o_farm_id (sample_order cancelled) ∧
    o_product_id o' = o_product_id (sample_order cancelled) ∧
    o_quantity o' = o_quantity (sample_order cancelled) ∧
    o_total_price o' = o_total_price (sample_order cancelled) ∧
    o_confirmed_at o' = o_confirmed_at (sample_order cancelled) ∧
    o_delivered_at o' = o_delivered_at (sample_order cancelled) ∧
    o_cancelled_at o' = o_cancelled_at (sample_order cancelled) ∧
    o_cancellation_reason o' = o_cancellation_reason (sample_order cancelled) ∧
    snd (result r) = [].
Proof.
  apply (FarmOrders_ship_accepted env_ok ship_modal (sample_world cancelled) "o1"
           (sample_order cancelled)).
  - reflexivity.
  - vm_compute. reflexivity.
  - reflexivity.
  - vm_compute. reflexivity.
Defined.

(** ** The tabs of the two farm pages *)

(** X14: on the FarmOrders page an order is listed under some tab exactly
    when it was loaded and its status is neither pending nor reviewed: the
    "Pending" tab has no table, and no bucket takes reviewed orders. *)
Theorem FarmOrdersTabs_listed_iff (orders : list FarmOrdersTabs.Listed)
    (o : FarmOrdersTabs.Listed) :
  (∃ tab b, (o, b) ∈ FarmOrdersTabs.shown tab orders) ↔
  o ∈ orders ∧ FarmOrdersTabs.status o ≠ pending ∧ FarmOrdersTabs.status o ≠ reviewed.
Proof.
  split.
  - intros (tab & b & Hin). destruct tab; cbn in Hin.
    + by apply elem_of_nil in Hin.
    + apply list_elem_of_fmap in Hin as (o' & [= -> ->] & Hin).
      apply list_elem_of_filter in Hin as [Hst Hin]. rewrite Hst. done.
    + apply list_elem_of_fmap in Hin as (o' & [= -> ->] & Hin).
      apply list_elem_of_filter in Hin as [Hst Hin]. rewrite Hst. done.
    + apply list_elem_of_fmap in Hin as (o' & [= -> ->] & Hin).
      apply list_elem_of_filter in Hin as [[Hst|Hst] Hin]; rewrite Hst; done.
  - intros (Hin & Hp & Hr). destruct (FarmOrdersTabs.status o) eqn:Hst; try done.
    + exists FarmOrdersTabs.tab_confirmed, true. cbn.
      apply list_elem_of_fmap. exists o. split; [done|].
      by apply list_elem_of_filter.
    + exists FarmOrdersTabs.tab_shipping, false. cbn.
      apply list_elem_of_fmap. exists o. split; [done|].
      by apply list_elem_of_filter.
    + exists FarmOrdersTabs.tab_done, false. cbn.
      apply list_elem_of_fmap. exists o. split; [done|].
      apply list_elem_of_filter. split; [by left|done].
    + exists FarmOrdersTabs.tab_done, false. cbn.
      apply list_elem_of_fmap. exists o. split; [done|].
      apply list_elem_of_filter. split; [by right|done].
Qed.

Lemma FarmOrdersTabs_shown_status (orders : list FarmOrdersTabs.Listed)
    (tab : FarmOrdersTabs.Tab) (o : FarmOrdersTabs.Listed) (b : bool) :
  (o, b) ∈ FarmOrdersTabs.shown tab orders →
  match tab with
  | FarmOrdersTabs.tab_pending => False
  | FarmOrdersTabs.tab_confirmed => FarmOrdersTabs.status o = confirmed ∧ b = true
  | FarmOrdersTabs.tab_shipping => FarmOrdersTabs.status o = shipped ∧ b = false
  | FarmOrdersTabs.tab_done =>
      (FarmOrdersTabs.status o = delivered ∨ FarmOrdersTabs.status o = cancelled) ∧ b = false
  end.
Proof.
  destruct tab; cbn; intros Hin.
  - by apply elem_of_nil in Hin.
  - apply list_elem_of_fmap in Hin as (o' & [= -> ->] & Hin).
    by apply list_elem_of_filter in Hin as [Hst Hin].
  - apply list_elem_of_fmap in Hin as (o' & [= -> ->] & Hin).
    by apply list_elem_of_filter in Hin as [Hst Hin].
  - apply list_elem_of_fmap in Hin as (o' & [= -> ->] & Hin).
    by apply list_elem_of_filter in Hin as [Hst Hin].
Qed.

(** X15: the tabs of FarmOrders do not overlap, and "Ship" is offered for
    confirmed orders only: an order listed under two tabs is listed under
    the same tab with the same button, and the button is there exactly when
    the order is confirmed. *)
Theorem FarmOrdersTabs_one_tab (orders : list FarmOrdersTabs.Listed)
    (t1 t2 : FarmOrdersTabs.Tab) (o : FarmOrdersTabs.Listed) (b1 b2 : bool) :
  (o, b1) ∈ FarmOrdersTabs.shown t1 orders →
  (o, b2) ∈ FarmOrdersTabs.shown t2 orders →
  t1 = t2 ∧ b1 = b2 ∧ (b1 = true ↔ FarmOrdersTabs.status o = confirmed).
Proof.
  intros H1%FarmOrdersTabs_shown_status H2%FarmOrdersTabs_shown_status.
  destruct t1, t2; try done;
    repeat match goal with
           | H : _ ∧ _ |- _ => destruct H as [? ?]
           | H : _ ∨ _ |- _ => destruct H as [?|?]
           end; subst; split_and!; try done; try congruence;
    split; intros ?; congruence.
Qed.

(** X15, witness: a confirmed order among three. *)
Lemma FarmOrdersTabs_one_tab_witness :
  FarmOrdersTabs.tab_confirmed = FarmOrdersTabs.tab_confirmed ∧ true = true ∧
  (true = true ↔ FarmOrdersTabs.status (listed_row "o2" confirmed) = confirmed).
Proof.
  apply (FarmOrdersTabs_one_tab
           [listed_row "o1" pending; listed_row "o2" confirmed; listed_row "o3" shipped]
           FarmOrdersTabs.tab_confirmed FarmOrdersTabs.tab_confirmed
           (listed_row "o2" confirmed) true true).
  - vm_compute. left.
  - vm_compute. left.
Defined.

Lemma ReservationTabs_shown_elem (today : Z) (orders : list ReservationTabs.Listed)
    (tab : ReservationTabs.Tab) (o : ReservationTabs.Listed)
    (acts : list ReservationTabs.Action) :
  (o, acts) ∈ ReservationTabs.shown today tab orders ↔
  o ∈ orders ∧
  match tab with
  | ReservationTabs.tab_pending =>
      ReservationTabs.status o = pending ∧
      acts = [ReservationTabs.act_confirm; ReservationTabs.act_cancel]
  | ReservationTabs.tab_confirmed =>
      ReservationTabs.status o = confirmed ∧
      ((ReservationTabs.delivery_date o = Some today ∧ acts = [ReservationTabs.act_ship]) ∨
       (ReservationTabs.later today o = true ∧ acts = []))
  | ReservationTabs.tab_shipping => ReservationTabs.status o = shipped ∧ acts = []
  | ReservationTabs.tab_done =>
      (ReservationTabs.status o = delivered ∨ ReservationTabs.status o = cancelled) ∧
      acts = []
  end.
Proof.
  destruct tab; cbn [ReservationTabs.shown]; unfold ReservationTabs.with_actions;
    rewrite ?elem_of_app, !list_elem_of_fmap.
  - unfold ReservationTabs.pending_rows. split.
    + intros (o' & [= -> ->] & [? ?]%list_elem_of_filter). done.
    + intros (? & ? & ->). exists o. by rewrite list_elem_of_filter.
  - unfold ReservationTabs.confirmedToday, ReservationTabs.confirmedLater. split.
    + intros [(o' & [= -> ->] & [[? ?] ?]%list_elem_of_filter)
             |(o' & [= -> ->] & [[? ?%Is_true_eq_true] ?]%list_elem_of_filter)].
      * split_and!; [done|done|by left].
      * split_and!; [done|done|by right].
    + intros (? & ? & [[? ->]|[? ->]]).
      * left. exists o. by rewrite list_elem_of_filter.
      * right. exists o. rewrite list_elem_of_filter. split_and!; try done.
        by apply Is_true_eq_left.
  - unfold ReservationTabs.shipping_rows. split.
    + intros (o' & [= -> ->] & [? ?]%list_elem_of_filter). done.
    + intros (? & ? & ->). exists o. by rewrite list_elem_of_filter.
  - unfold ReservationTabs.done_rows. split.
    + intros (o' & [= -> ->] & [? ?]%list_elem_of_filter). done.
    + intros (? & ? & ->). exists o. by rewrite list_elem_of_filter.
Qed.

Lemma ReservationTabs_later_iff (today : Z) (o : ReservationTabs.Listed) :
  ReservationTabs.later today o = true ↔
  ∃ d, ReservationTabs.delivery_date o = Some d ∧ (today < d)%Z.
Proof.
  unfold ReservationTabs.later. destruct (ReservationTabs.delivery_date o) as [d|].
  - rewrite Z.ltb_lt. split; [by exists d|]. by intros (? & [= <-] & ?).
  - split; [done|]. by intros (? & ? & ?).
Qed.

(** X16: on the farm page over [reservations] a row is listed under some tab
    exactly when it was loaded, is not reviewed and, if confirmed, has a
    delivery date of today or later: a confirmed row without a delivery
    date, or whose date has passed, is listed nowhere. *)
Theorem ReservationTabs_listed_iff (today : Z) (orders : list ReservationTabs.Listed)
    (o : ReservationTabs.Listed) :
  (∃ tab acts, (o, acts) ∈ ReservationTabs.shown today tab orders) ↔
  o ∈ orders ∧ ReservationTabs.status o ≠ reviewed ∧
  (ReservationTabs.status o = confirmed →
   ∃ d, ReservationTabs.delivery_date o = Some d ∧ (today ≤ d)%Z).
Proof.
  split.
  - intros (tab & acts & Hin). apply ReservationTabs_shown_elem in Hin as [Hin Htab].
    split; [done|]. destruct tab.
    + destruct Htab as [Hst _]. rewrite Hst. done.
    + destruct Htab as [Hst [[Hd _]|[Hl _]]]; rewrite Hst; (split; [done|]); intros _.
      * exists today. split; [done|lia].
      * apply ReservationTabs_later_iff in Hl as (d & Hd & Hlt). exists d. split; [done|lia].
    + destruct Htab as [Hst _]. rewrite Hst. done.
    + destruct Htab as [[Hst|Hst] _]; rewrite Hst; done.
  - intros (Hin & Hr & Hc). destruct (ReservationTabs.status o) eqn:Hst; try done.
    + exists ReservationTabs.tab_pending, [ReservationTabs.act_confirm; ReservationTabs.act_cancel].
      by apply ReservationTabs_shown_elem.
    + destruct (Hc eq_refl) as (d & Hd & Hle).
      destruct (decide (d = today)) as [->|Hne].
      * exists ReservationTabs.tab_confirmed, [ReservationTabs.act_ship].
        apply ReservationTabs_shown_elem. split_and!; [done|done|by left].
      * exists ReservationTabs.tab_confirmed, [].
        apply ReservationTabs_shown_elem. split_and!; [done|done|right].
        split; [|done]. apply ReservationTabs_later_iff. exists d. split; [done|lia].
    + exists ReservationTabs.tab_shipping, []. by apply ReservationTabs_shown_elem.
    + exists ReservationTabs.tab_done, [].
      apply ReservationTabs_shown_elem. split_and!; [done|by left|done].
    + exists ReservationTabs.tab_done, [].
      apply ReservationTabs_shown_elem. split_and!; [done|by right|done].
Qed.

(** X17: the buttons of a listed row depend on the row alone: confirm and
    cancel for a pending row, "Ship" for a confirmed row due today, none
    for any other row; so no button cancels a confirmed or shipped row and
    a confirmed row due later cannot be shipped from this page. *)
Theorem ReservationTabs_buttons (today : Z) (orders : list ReservationTabs.Listed)
    (tab : ReservationTabs.Tab) (o : ReservationTabs.Listed)
    (acts : list ReservationTabs.Action) :
  (o, acts) ∈ ReservationTabs.shown today tab orders →
  acts =
    match ReservationTabs.status o with
    | pending => [ReservationTabs.act_confirm; ReservationTabs.act_cancel]
    | confirmed =>
        if bool_decide (ReservationTabs.delivery_date o = Some today)
        then [ReservationTabs.act_ship] else []
    | _ => []
    end.
Proof.
  intros [Hin Htab]%ReservationTabs_shown_elem. destruct tab.
  - destruct Htab as [-> ->]. done.
  - destruct Htab as [-> [[Hd ->]|[Hl ->]]].
    + by rewrite bool_decide_eq_true_2.
    + apply ReservationTabs_later_iff in Hl as (d & Hd & Hlt).
      rewrite bool_decide_eq_false_2; [done|]. rewrite Hd. intros [= ->]. lia.
  - destruct Htab as [-> ->]. done.
  - destruct Htab as [[-> | ->] ->]; done.
Qed.

(** X17, witness: a confirmed row due tomorrow, under the "Confirmed" tab. *)
Lemma ReservationTabs_buttons_witness :
  [] =
    match ReservationTabs.status (reserved_row "o2" confirmed (Some 21%Z)) with
    | pending => [ReservationTabs.act_confirm; ReservationTabs.act_cancel]
    | confirmed =>
        if bool_decide (ReservationTabs.delivery_date (reserved_row "o2" confirmed (Some 21%Z))
                        = Some 20%Z)
        then [ReservationTabs.act_ship] else []
    | _ => []
    end.
Proof.
  apply (ReservationTabs_buttons 20
           [reserved_row "o1" confirmed (Some 20%Z); reserved_row "o2" confirmed (Some 21%Z)]
           ReservationTabs.tab_confirmed (reserved_row "o2" confirmed (Some 21%Z)) []).
  vm_compute. right. left.
Defined.

(** ** The buyer's page: "received" and the review *)

Lemma UserOrdersReceive_confirmReceived_accepted (e : Env) (id : string)
    (st : UserOrders.State) (w : World) (o : Order) :
  orders w !! id = Some o → o_status o = shipped → update_error e id = None →
  UserOrdersReceive.confirmReceived e id st w =
    ({| UserOrders.selectedOrder := Some id;
        UserOrders.rating := UserOrders.rating st;
        UserOrders.comment := UserOrders.comment st;
        UserOrders.openReview := true |},
     [toast_success "ยืนยันรับสินค้าเรียบร้อย"],
     tick (set_orders
             (insert id
                (touch (clock e (S (ticks w)))
                   (apply_patch
                      {| set_status := Some delivered;
                         set_tracking_number := None;
                         set_carrier := None;
                         set_confirmed_at := None;
                         set_shipped_at := None;
                         set_delivered_at := Some (clock e (ticks w));
                         set_cancelled_at := None;
                         set_cancellation_reason := None |} o)))
             (tick w)),
     [UpdateRow orders_table id
        {| set_status := Some delivered;
           set_tracking_number := None;
           set_carrier := None;
           set_confirmed_at := None;
           set_shipped_at := None;
           set_delivered_at := Some (clock e (ticks w));
           set_cancelled_at := None;
           set_cancellation_reason := None |}]).
Proof.
  intros Ho Hst Hu.
  unfold UserOrdersReceive.confirmReceived, bind, new_Date,
    UserOrdersReceive.update_orders_where_status.
  cbn [fst snd result world_of writes_of ticks tick orders].
  rewrite Hu, Ho, bool_decide_eq_true_2 by done. reflexivity.
Qed.

(** X18: "received" on a shipped order, when the store accepts the update,
    leaves the stored row delivered with [delivered_at] at the click's clock
    reading and its buyer, farm, product, quantity, price and shipping
    columns as before; no other row changes, no review is written, and the
    review dialog is opened on that order with the rating and comment the
    page held. *)
Theorem UserOrders_received_accepted (e : Env) (id : string) (st : UserOrders.State)
    (w : World) (o : Order) :
  orders w !! id = Some o → o_status o = shipped → update_error e id = None →
  let r := UserOrdersReceive.confirmReceived e id st w in
  ∃ o',
    orders (world_of r) = <[id := o']> (orders w) ∧
    o_status o' = delivered ∧
    o_delivered_at o' = Some (clock e (ticks w)) ∧
    o_user_id o' = o_user_id o ∧ o_farm_id o' = o_farm_id o ∧
    o_product_id o' = o_product_id o ∧ o_quantity o' = o_quantity o ∧
    o_total_price o' = o_total_price o ∧
    o_tracking_number o' = o_tracking_number o ∧ o_carrier o' = o_carrier o ∧
    o_shipped_at o' = o_shipped_at o ∧
    reviews (world_of r) = reviews w ∧
    UserOrders.selectedOrder (fst (result r)) = Some id ∧
    UserOrders.openReview (fst (result r)) = true ∧
    UserOrders.rating (fst (result r)) = UserOrders.rating st ∧
    UserOrders.comment (fst (result r)) = UserOrders.comment st.
Proof.
  intros Ho Hst Hu. cbn zeta.
  rewrite (UserOrdersReceive_confirmReceived_accepted e id st w o Ho Hst Hu).
  rewrite world_of_triple, result_triple. eexists. split; [reflexivity|]. by cbn.
Qed.

(** X18, witness: the buyer confirms the shipped sample order. *)
Lemma UserOrders_received_accepted_witness :
  let r := UserOrdersReceive.confirmReceived env_ok "o1" orders_page (sample_world shipped) in
  ∃ o',
    orders (world_of r) = <["o1" := o']> (orders (sample_world shipped)) ∧
    o_status o' = delivered ∧
    o_delivered_at o' = Some (clock env_ok (ticks (sample_world shipped))) ∧
    o_user_id o' = o_user_id (sample_order shipped) ∧
    o_farm_id o' = o_farm_id (sample_order shipped) ∧
    o_product_id o' = o_product_id (sample_order shipped) ∧
    o_quantity o' = o_quantity (sample_order shipped) ∧
    o_total_price o' = o_total_price (sample_order shipped) ∧
    o_tracking_number o' = o_tracking_number (sample_order shipped) ∧
    o_carrier o' = o_carrier (sample_order shipped) ∧
    o_shipped_at o' = o_shipped_at (sample_order shipped) ∧
    reviews (world_of r) = reviews (sample_world shipped) ∧
    UserOrders.selectedOrder (fst (result r)) = Some "o1" ∧
    UserOrders.openReview (fst (result r)) = true ∧
    UserOrders.rating (fst (result r)) = UserOrders.rating orders_page ∧
    UserOrders.comment (fst (result r)) = UserOrders.comment orders_page.
Proof.
  apply (UserOrders_received_accepted env_ok "o1" orders_page (sample_world shipped)
           (sample_order shipped)).
  - vm_compute. reflexivity.
  - reflexivity.
  - reflexivity.
Defined.

(** X19: "received" changes nothing unless the order exists, is shipped and
    the store accepts the update: in every other case the orders and the
    reviews are as before, the page's state is untouched (the dialog is not
    opened), and one error toast is shown. *)
Theorem UserOrders_received_rejected (e : Env) (id : string) (st : UserOrders.State)
    (w : World) :
  ¬ (update_error e id = None ∧ ∃ o, orders w !! id = Some o ∧ o_status o = shipped) →
  let r := UserOrdersReceive.confirmReceived e id st w in
  orders (world_of r) = orders w ∧
  reviews (world_of r) = reviews w ∧
  fst (result r) = st ∧
  ∃ msg, snd (result r) = [toast_error msg].
Proof.
  intros Hnot. cbn zeta.
  unfold UserOrdersReceive.confirmReceived, bind, new_Date,
    UserOrdersReceive.update_orders_where_status.
  cbn [fst snd result world_of writes_of ticks tick orders].
  destruct (update_error e id) as [x|] eqn:Hu; [cbn; eauto 6|].
  destruct (orders w !! id) as [o|] eqn:Ho; [|cbn; eauto 6].
  case_bool_decide as Hst; [|cbn; eauto 6].
  exfalso. apply Hnot. eauto.
Qed.

(** X19, witness: a second "received" on the sample order, already
    delivered. *)
Lemma UserOrders_received_rejected_witness :
  let r := UserOrdersReceive.confirmReceived env_ok "o1" orders_page
             (sample_world delivered) in
  orders (world_of r) = orders (sample_world delivered) ∧
  reviews (world_of r) = reviews (sample_world delivered) ∧
  fst (result r) = orders_page ∧
  ∃ msg, snd (result r) = [toast_error msg].
Proof.
  apply (UserOrders_received_rejected env_ok "o1" orders_page (sample_world delivered)).
  intros (_ & o & Ho & Hst). vm_compute in Ho. by simplify_eq.
Defined.

Lemma UserOrdersReceive_confirmReceived_not_shipped (e : Env) (id : string)
    (st : UserOrders.State) (w : World) (o : Order) :
  orders w !! id = Some o → o_status o ≠ shipped →
  let r := UserOrdersReceive.confirmReceived e id st w in
  orders (world_of r) = orders w ∧ ∃ msg, snd (result r) = [toast_error msg].
Proof.
  intros Ho Hst. cbn zeta.
  unfold UserOrdersReceive.confirmReceived, bind, new_Date,
    UserOrdersReceive.update_orders_where_status.
  cbn [fst snd result world_of writes_of ticks tick orders].
  destruct (update_error e id) as [x|]; [cbn; eauto|].
  rewrite Ho, bool_decide_eq_false_2 by done. cbn. eauto.
Qed.

(** X20: the buyer's path from shipped to reviewed. When the store accepts
    the requests and no review of the order exists, "received" followed by
    a submit from the dialog it opened leaves the order reviewed, with
    [delivered_at] kept at the first click's clock reading, and appends one
    review carrying the order's id in all three id columns; a further
    "received" on that order is then rejected and changes no order. *)
Theorem UserOrders_received_then_reviewed (e : Env) (id : string)
    (st : UserOrders.State) (w : World) (o : Order) :
  orders w !! id = Some o → o_status o = shipped →
  update_error e id = None → review_error e = None →
  (∀ r, r ∈ reviews w → r_order_id r ≠ id) →
  (1 ≤ UserOrders.rating st ≤ 5)%Z →
  let r1 := UserOrdersReceive.confirmReceived e id st w in
  let r2 := UserOrders.submitReview e (fst (result r1)) (world_of r1) in
  let r3 := UserOrdersReceive.confirmReceived e id (fst (result r2)) (world_of r2) in
  o_status <$> orders (world_of r2) !! id = Some reviewed ∧
  o_delivered_at <$> orders (world_of r2) !! id = Some (Some (clock e (ticks w))) ∧
  reviews (world_of r2) =
    reviews w ++ [{| r_order_id := id; r_user_id := id; r_farm_id := id;
                     r_rating := UserOrders.rating st;
                     r_comment := UserOrders.comment st |}] ∧
  UserOrders.openReview (fst (result r2)) = false ∧
  orders (world_of r3) = orders (world_of r2) ∧
  ∃ msg, snd (result r3) = [toast_error msg].
Proof.
  intros Ho Hst Hu Hrev Hnone Hrating. cbn zeta.
  rewrite (UserOrdersReceive_confirmReceived_accepted e id st w o Ho Hst Hu).
  rewrite world_of_triple, result_triple. cbn [fst].
  match goal with
  | |- context [UserOrders.submitReview e ?st1 ?w1] =>
      assert (∃ o2 st2 ts ws,
                UserOrders.submitReview e st1 w1 =
                  (st2, ts,
                   tick (set_orders (insert id o2)
                           (add_review
                              {| r_order_id := id; r_user_id := id; r_farm_id := id;
                                 r_rating := UserOrders.rating st;
                                 r_comment := UserOrders.comment st |} w1)), ws) ∧
                o_status o2 = reviewed ∧
                o_delivered_at o2 = Some (clock e (ticks w)) ∧
                UserOrders.openReview st2 = false)
        as (o2 & st2 & ts & ws & -> & Hst2 & Hd2 & Hopen)
  end.
  { unfold UserOrders.submitReview. cbn [UserOrders.selectedOrder].
    unfold bind. rewrite UserOrders_select_review_none by done.
    cbn [reviews tick set_orders fst snd result world_of writes_of].
    unfold UserOrders.insert_review. cbn [r_order_id r_rating UserOrders.rating
      UserOrders.comment orders reviews tick set_orders].
    rewrite Hrev, lookup_insert_eq.
    rewrite bool_decide_eq_false_2 by done.
    rewrite bool_decide_eq_false_2.
    2: { intros (r & Hr & Hin)%list_elem_of_fmap. by apply (Hnone r). }
    rewrite bool_decide_eq_true_2 by done.
    unfold update_orders. rewrite Hu. cbn [orders add_review tick set_orders
      fst snd result world_of writes_of].
    rewrite lookup_insert_eq. unfold ret.
    cbn [fst snd result world_of writes_of orders reviews tick set_orders add_review app].
    eexists _, _, _, _. split; [reflexivity|]. by cbn. }
  rewrite world_of_triple, result_triple.
  cbn [fst orders reviews tick set_orders add_review].
  rewrite lookup_insert_eq. cbn [fmap option_fmap option_map].
  rewrite Hst2, Hd2.
  split_and!; [done|done|done|done| |].
  - eapply UserOrdersReceive_confirmReceived_not_shipped;
      [apply lookup_insert_eq|by rewrite Hst2].
  - eapply UserOrdersReceive_confirmReceived_not_shipped;
      [apply lookup_insert_eq|by rewrite Hst2].
Qed.

(** X20, witness: the shipped sample order, received and reviewed with the
    dialog's default rating. *)
Lemma UserOrders_received_then_reviewed_witness :
  let r1 := UserOrdersReceive.confirmReceived env_ok "o1" orders_page (sample_world shipped) in
  let r2 := UserOrders.submitReview env_ok (fst (result r1)) (world_of r1) in
  let r3 := UserOrdersReceive.confirmReceived env_ok "o1" (fst (result r2)) (world_of r2) in
  o_status <$> orders (world_of r2) !! "o1" = Some reviewed ∧
  o_delivered_at <$> orders (world_of r2) !! "o1" =
    Some (Some (clock env_ok (ticks (sample_world shipped)))) ∧
  reviews (world_of r2) =
    reviews (sample_world shipped) ++
      [{| r_order_id := "o1"; r_user_id := "o1"; r_farm_id := "o1";
          r_rating := UserOrders.rating orders_page;
          r_comment := UserOrders.comment orders_page |}] ∧
  UserOrders.openReview (fst (result r2)) = false ∧
  orders (world_of r3) = orders (world_of r2) ∧
  ∃ msg, snd (result r3) = [toast_error msg].
Proof.
  apply (UserOrders_received_then_reviewed env_ok "o1" orders_page (sample_world shipped)
           (sample_order shipped)).
  - vm_compute. reflexivity.
  - reflexivity.
  - reflexivity.
  - reflexivity.
  - intros r Hr. vm_compute in Hr. by apply elem_of_nil in Hr.
  - vm_compute. split; discriminate.
Defined.

(** X21: [submitReview] asks for the status change only after its review was
    stored: whenever it sends an update, the update is for the selected
    order, asks for reviewed and nothing else, and the review of that order,
    which did not exist before, is now the last row of [reviews]. *)
Theorem UserOrders_status_change_follows_review (e : Env) (st : UserOrders.State)
    (w : World) (t : Table) (k : string) (p : OrderPatch) :
  UpdateRow t k p ∈ writes_of (UserOrders.submitReview e st w) →
  t = orders_table ∧
  UserOrders.selectedOrder st = Some k ∧
  p = status_patch reviewed ∧
  (k ∉ r_order_id <$> reviews w) ∧
  reviews (world_of (UserOrders.submitReview e st w)) = reviews w ++ [review_row k st].
Proof.
  destruct (UserOrders_submitReview_closed e st w)
    as [->|[(k' & _ & ->)|[(k' & msg & _ & ->)|(k' & st' & w' & Hsel & Hfresh & Hrev & ->)]]];
    rewrite writes_of_triple, ?world_of_triple.
  - by intros ?%elem_of_nil.
  - by intros ?%elem_of_nil.
  - intros Hin%list_elem_of_singleton. discriminate.
  - rewrite !elem_of_cons, elem_of_nil. intros [?|[?|[]]]; simplify_eq. done.
Qed.

(** X21, witness: the review of the delivered sample order. *)
Lemma UserOrders_status_change_follows_review_witness :
  orders_table = orders_table ∧
  UserOrders.selectedOrder review_state = Some "o1" ∧
  status_patch reviewed = status_patch reviewed ∧
  ("o1" ∉ r_order_id <$> reviews (sample_world delivered)) ∧
  reviews (world_of (UserOrders.submitReview env_ok review_state (sample_world delivered))) =
    reviews (sample_world delivered) ++ [review_row "o1" review_state].
Proof.
  apply (UserOrders_status_change_follows_review env_ok review_state
           (sample_world delivered) orders_table "o1" (status_patch reviewed)).
  vm_compute. right. left.
Defined.

(** X22: the answer to the status update is not read. When the review is
    stored and the store then refuses the update of the order,
    [submitReview] still reports success and resets the dialog, the review
    stays, and the order keeps the status it had. *)
Theorem UserOrders_review_kept_when_status_refused (e : Env) (st : UserOrders.State)
    (w : World) (k : string) (x : JsThrown) :
  UserOrders.selectedOrder st = Some k →
  (∀ r, r ∈ reviews w → r_order_id r ≠ k) →
  is_Some (orders w !! k) →
  review_error e = None → update_error e k = Some x →
  (1 ≤ UserOrders.rating st ≤ 5)%Z →
  let r := UserOrders.submitReview e st w in
  reviews (world_of r) = reviews w ++ [review_row k st] ∧
  orders (world_of r) = orders w ∧
  result r =
    ({| UserOrders.selectedOrder := None; UserOrders.rating := 5;
        UserOrders.comment := ""; UserOrders.openReview := false |},
     [toast_success "ขอบคุณสำหรับรีวิว 🌟"]).
Proof.
  intros Hsel Hnone [o Ho] Hins Hupd Hrating. cbn zeta.
  unfold UserOrders.submitReview, bind.
  rewrite Hsel, (UserOrders_select_review_none e k w Hnone).
  unfold UserOrders.insert_review. cbn [r_order_id r_rating].
  rewrite Hins, Ho.
  rewrite bool_decide_eq_false_2 by done.
  rewrite bool_decide_eq_false_2.
  2: { intros (r & Hr & Hin)%list_elem_of_fmap. by apply (Hnone r). }
  rewrite bool_decide_eq_true_2 by done.
  unfold update_orders. rewrite Hupd. done.
Qed.

(** X22, witness: the delivered sample order is reviewed while the store
    refuses updates of [orders]. *)
Lemma UserOrders_review_kept_when_status_refused_witness :
  let r := UserOrders.submitReview env_status_refused review_state (sample_world delivered) in
  reviews (world_of r) = reviews (sample_world delivered) ++ [review_row "o1" review_state] ∧
  orders (world_of r) = orders (sample_world delivered) ∧
  result r =
    ({| UserOrders.selectedOrder := None; UserOrders.rating := 5;
        UserOrders.comment := ""; UserOrders.openReview := false |},
     [toast_success "ขอบคุณสำหรับรีวิว 🌟"]).
Proof.
  apply (UserOrders_review_kept_when_status_refused env_status_refused review_state
           (sample_world delivered) "o1" (JsObject "permission denied for table orders")).
  - reflexivity.
  - intros r Hr. vm_compute in Hr. by apply elem_of_nil in Hr.
  - vm_compute. eexists. reflexivity.
  - reflexivity.
  - reflexivity.
  - vm_compute. split; discriminate.
Defined.

Lemma update_orders_keys (e : Env) (id : string) (p : OrderPatch) (w : World) (k : string) :
  reviews (world_of (update_orders e id p w)) = reviews w ∧
  (is_Some (orders w !! k) → is_Some (orders (world_of (update_orders e id p w)) !! k)).
Proof.
  unfold update_orders. destruct (update_error e id); [done|].
  destruct (orders w !! id) as [o|] eqn:Ho; [|done]. cbn. split; [done|].
  intros Hk. destruct (decide (id = k)) as [->|Hne].
  - rewrite lookup_insert_eq. by eexists.
  - by rewrite lookup_insert_ne.
Qed.

(** X23: [submitReview] keeps the constraints of the [reviews] table: if
    every review has a rating from 1 to 5 and belongs to an existing order,
    and no order has two reviews, the same holds afterwards, whatever the
    page's state and whichever requests the store refuses. *)
Theorem UserOrders_submitReview_keeps_constraints (e : Env) (st : UserOrders.State)
    (w : World) :
  reviews_wf w → reviews_wf (world_of (UserOrders.submitReview e st w)).
Proof.
  intros [Hnd Hall]. unfold UserOrders.submitReview.
  destruct (UserOrders.selectedOrder st) as [k|]; [|by split].
  unfold bind.
  destruct (UserOrders_select_review_answer e k w) as [[r|] ->]; [by split|].
  cbn [fst snd result world_of writes_of].
  unfold UserOrders.insert_review. cbn [r_order_id r_rating].
  destruct (review_error e); [by split|].
  case_bool_decide as Hk; [by split|].
  case_bool_decide as Hdup; [by split|].
  case_bool_decide as Hrating; [|by split].
  cbn [fst snd result world_of writes_of].
  match goal with
  | |- context [update_orders e k ?p ?w1] =>
      pose proof (λ j, update_orders_keys e k p w1 j) as Hkeys;
      destruct (update_orders e k p w1) as [[a w2] t2]
  end.
  unfold ret. cbn [fst snd result world_of writes_of] in *.
  destruct (Hkeys k) as [Hrev _]. cbn [reviews add_review] in Hrev.
  split.
  - rewrite Hrev, fmap_app. apply NoDup_app. split_and!; [done| |apply NoDup_singleton].
    intros y Hy Hy'. cbn in Hy'. apply list_elem_of_singleton in Hy'. by subst.
  - intros r. rewrite Hrev, elem_of_app, list_elem_of_singleton. intros [Hr| ->].
    + destruct (Hall r Hr) as [? ?]. split; [done|].
      by apply (Hkeys (r_order_id r)).
    + cbn [r_rating r_order_id]. split; [done|].
      apply (Hkeys k). cbn [orders add_review]. by apply not_eq_None_Some.
Qed.

(** X23, witness: the sample world has no reviews. *)
Lemma UserOrders_submitReview_keeps_constraints_witness :
  reviews_wf (world_of (UserOrders.submitReview env_ok review_state (sample_world delivered))).
Proof.
  apply (UserOrders_submitReview_keeps_constraints env_ok review_state
           (sample_world delivered)).
  split.
  - vm_compute. constructor.
  - intros r Hr. vm_compute in Hr. by apply elem_of_nil in Hr.
Defined.

(** X24: the row [submitReview] sends meets the insert policy of [reviews],
    [auth.uid() = user_id], exactly when the signed-in user's id equals the
    id of the selected order. *)
Theorem UserOrders_review_passes_policy_iff (e : Env) (st : UserOrders.State) (w : World)
    (uid : string) (r : Review) :
  InsertReview r ∈ writes_of (UserOrders.submitReview e st w) →
  Policies.reviews_insert_check uid r = true ↔ UserOrders.selectedOrder st = Some uid.
Proof.
  unfold Policies.reviews_insert_check. rewrite bool_decide_eq_true.
  destruct (UserOrders_submitReview_closed e st w)
    as [->|[(k & _ & ->)|[(k & msg & Hsel & ->)|(k & st' & w' & Hsel & _ & _ & ->)]]];
    rewrite writes_of_triple.
  - by intros ?%elem_of_nil.
  - by intros ?%elem_of_nil.
  - intros Hin%list_elem_of_singleton. simplify_eq. rewrite Hsel. cbn.
    split; [by intros ->|by intros [= ->]].
  - rewrite !elem_of_cons, elem_of_nil. intros [?|[?|[]]]; simplify_eq.
    rewrite Hsel. cbn. split; [by intros ->|by intros [= ->]].
Qed.

(** X24, witness: buyer [u1] reviews the sample order [o1]; the row is
    checked against [u1]. *)
Lemma UserOrders_review_passes_policy_iff_witness :
  Policies.reviews_insert_check "u1" (review_row "o1" review_state) = true ↔
  UserOrders.selectedOrder review_state = Some "u1".
Proof.
  apply (UserOrders_review_passes_policy_iff env_ok review_state (sample_world delivered)
           "u1" (review_row "o1" review_state)).
  vm_compute. left.
Defined.

(** ** The figures of the farm dashboard across a sweep *)








(** ** A session on the buyer's page *)

Lemma UserOrdersReceive_confirmReceived_cases (e : Env) (id : string)
    (st : UserOrders.State) (w : World) :
  let r := UserOrdersReceive.confirmReceived e id st w in
  (orders (world_of r) = orders w ∧ reviews (world_of r) = reviews w ∧ fst (result r) = st)
  ∨ (∃ o o', orders w !! id = Some o ∧ o_status o = shipped ∧ o_status o' = delivered ∧
             orders (world_of r) = <[id := o']> (orders w) ∧
             reviews (world_of r) = reviews w ∧
             UserOrders.selectedOrder (fst (result r)) = Some id ∧
             UserOrders.rating (fst (result r)) = UserOrders.rating st).
Proof.
  cbn zeta. destruct (update_error e id) as [x|] eqn:Hu.
  { left. unfold UserOrdersReceive.confirmReceived, bind, new_Date,
      UserOrdersReceive.update_orders_where_status.
    cbn [fst snd result world_of writes_of ticks tick orders]. by rewrite Hu. }
  destruct (orders w !! id) as [o|] eqn:Ho.
  2: { left. unfold UserOrdersReceive.confirmReceived, bind, new_Date,
         UserOrdersReceive.update_orders_where_status.
       cbn [fst snd result world_of writes_of ticks tick orders]. by rewrite Hu, Ho. }
  destruct (decide (o_status o = shipped)) as [Hst|Hst].
  - right. rewrite (UserOrdersReceive_confirmReceived_accepted e id st w o Ho Hst Hu).
    rewrite world_of_triple, result_triple. eexists o, _.
    split_and!; [done|done| |reflexivity|done|done|done]. done.
  - left. unfold UserOrdersReceive.confirmReceived, bind, new_Date,
      UserOrdersReceive.update_orders_where_status.
    cbn [fst snd result world_of writes_of ticks tick orders].
    by rewrite Hu, Ho, bool_decide_eq_false_2.
Qed.

Lemma UserOrders_submitReview_cases (e : Env) (st : UserOrders.State) (w : World) :
  let r := UserOrders.submitReview e st w in
  (world_of r = w ∧ fst (result r) = st)
  ∨ (∃ k o, UserOrders.selectedOrder st = Some k ∧ orders w !! k = Some o ∧
            (1 ≤ UserOrders.rating st ≤ 5)%Z ∧
            reviews (world_of r) = reviews w ++ [review_row k st] ∧
            fst (result r) =
              {| UserOrders.selectedOrder := None; UserOrders.rating := 5;
                 UserOrders.comment := ""; UserOrders.openReview := false |} ∧
            (orders (world_of r) = orders w ∨
             ∃ t, orders (world_of r) =
                    <[k := touch t (apply_patch (status_patch reviewed) o)]> (orders w))).
Proof.
  cbn zeta. unfold UserOrders.submitReview.
  destruct (UserOrders.selectedOrder st) as [k|]; [|by left].
  unfold bind.
  destruct (UserOrders_select_review_answer e k w) as [[r|] ->]; [by left|].
  cbn [fst snd result world_of writes_of].
  unfold UserOrders.insert_review. cbn [r_order_id r_rating].
  destruct (review_error e); [by left|].
  destruct (orders w !! k) as [o|] eqn:Ho.
  2: { rewrite bool_decide_eq_true_2 by done. by left. }
  rewrite bool_decide_eq_false_2 by done.
  case_bool_decide as Hdup; [by left|].
  case_bool_decide as Hrating; [|by left].
  right. exists k, o. unfold update_orders.
  cbn [fst snd result world_of writes_of orders add_review].
  destruct (update_error e k); rewrite ?Ho; unfold ret;
    cbn [fst snd result world_of writes_of orders reviews add_review tick set_orders];
    (split_and!; [done|done|lia|lia|done|done|]); [by left|right; by eexists].
Qed.

Lemma status_at_insert (w w' : World) (k j : string) (o : Order) :
  orders w' = <[k := o]> (orders w) →
  status_at w' j = if decide (k = j) then Some (o_status o) else status_at w j.
Proof.
  intros Hw. unfold status_at. rewrite Hw. destruct (decide (k = j)) as [->|Hne].
  - by rewrite lookup_insert_eq.
  - by rewrite lookup_insert_ne.
Qed.

Lemma status_at_same (w w' : World) (j : string) :
  orders w' = orders w → status_at w' j = status_at w j.
Proof. intros Hw. unfold status_at. by rewrite Hw. Qed.

Lemma session_inv_step (w0 : World) (e : Env) (a : UserOrdersPage.Action)
    (st : UserOrders.State) (w : World) :
  session_inv w0 st w →
  session_inv w0 (fst (result (UserOrdersPage.step e a st w)))
    (world_of (UserOrdersPage.step e a st w)).
Proof.
  intros Hinv. pose proof Hinv as (Hrating & Hsel & Hstat & Hrev).
  destruct a as [id|i|text|open|]; cbn [UserOrdersPage.step].
  - destruct (UserOrdersReceive_confirmReceived_cases e id st w)
      as [(Ho & Hr & Hs)|(o & o' & Ho & Hst & Hst' & Hw & Hr & Hs & Hrt)].
    + rewrite Hs. split; [done|split; [|split]].
      * intros k Hk. rewrite (status_at_same _ _ _ Ho). by apply Hsel.
      * intros k. rewrite (status_at_same _ _ _ Ho). apply Hstat.
      * intros rv. rewrite Hr, (status_at_same _ _ _ Ho). apply Hrev.
    + assert (status_at w id = Some shipped) as Hid by (unfold status_at; by rewrite Ho, <- Hst).
      assert (status_at w0 id = Some shipped) as Hid0.
      { destruct (Hstat id) as [Heq|[? _]]; [by rewrite <- Heq|done]. }
      split; [|split; [|split]].
      * by rewrite Hrt.
      * intros k. rewrite Hs. intros [= <-].
        rewrite (status_at_insert _ _ _ _ _ Hw), decide_True by done.
        by rewrite Hst'.
      * intros k. rewrite (status_at_insert _ _ _ _ _ Hw).
        destruct (decide (id = k)) as [<-|Hne]; [|apply Hstat].
        right. rewrite Hst'. by split; [|left].
      * intros rv. rewrite Hr, (status_at_insert _ _ _ _ _ Hw). intros Hin.
        destruct (Hrev rv Hin) as [?|(? & ? & Hd)]; [by left|right].
        split; [done|split; [done|]].
        destruct (decide (id = r_order_id rv)) as [Heq|Hne]; [|done].
        rewrite Hst'. by left.
  - destruct (UserOrdersPage.stars !! i) as [n|] eqn:Hn; [|exact Hinv].
    destruct (UserOrders.openReview st); [|exact Hinv].
    split; [|by split_and!]. cbn.
    apply list_elem_of_lookup_2 in Hn. unfold UserOrdersPage.stars in Hn.
    rewrite !elem_of_cons, elem_of_nil in Hn.
    destruct Hn as [->|[->|[->|[->|[->|[]]]]]]; lia.
  - destruct (UserOrders.openReview st); [|exact Hinv]. by split; [|split; [|split]].
  - by split; [|split; [|split]].
  - destruct (UserOrders.openReview st); [|exact Hinv].
    destruct (UserOrders_submitReview_cases e st w)
      as [[-> ->]|(k & o & Hk & Ho & Hrt & Hr & -> & Hw)]; [exact Hinv|].
    destruct (Hsel k Hk) as [Hk0 Hkd].
    assert (∀ j, status_at (world_of (UserOrders.submitReview e st w)) j = status_at w j ∨
                 (j = k ∧ status_at (world_of (UserOrders.submitReview e st w)) j
                          = Some reviewed)) as Hj.
    { intros j. destruct Hw as [Hw|[t Hw]].
      - left. by apply status_at_same.
      - rewrite (status_at_insert _ _ _ _ _ Hw).
        destruct (decide (k = j)) as [<-|Hne]; [right|left]; done. }
    split; [|split; [|split]].
    + cbn. lia.
    + intros j. cbn. discriminate.
    + intros j. destruct (Hj j) as [->|[-> ->]]; [apply Hstat|].
      right. by split; [|right].
    + intros rv. rewrite Hr, elem_of_app, list_elem_of_singleton. intros [Hin| ->].
      * destruct (Hrev rv Hin) as [?|(? & ? & Hd)]; [by left|right].
        split; [done|split; [done|]].
        destruct (Hj (r_order_id rv)) as [->|[_ ->]]; [done|by right].
      * right. cbn [review_row r_rating r_order_id]. split; [done|split; [done|]].
        destruct (Hj k) as [->|[_ ->]]; [by left|by right].
Qed.

Lemma session_inv_run (w0 : World) (steps : list (Env * UserOrdersPage.Action))
    (st : UserOrders.State) (w : World) :
  session_inv w0 st w →
  session_inv w0 (fst (result (UserOrdersPage.run steps st w)))
    (world_of (UserOrdersPage.run steps st w)).
Proof.
  revert st w. induction steps as [|[e a] steps IH]; intros st w Hinv; [done|].
  cbn [UserOrdersPage.run]. unfold bind.
  pose proof (session_inv_step w0 e a st w Hinv) as Hstep.
  destruct (UserOrdersPage.step e a st w) as [[r1 w1] t1].
  cbn [fst snd result world_of writes_of] in *.
  pose proof (IH (fst r1) w1 Hstep) as Hrun.
  destruct (UserOrdersPage.run steps (fst r1) w1) as [[r2 w2] t2].
  by cbn [fst snd result world_of writes_of ret] in *.
Qed.

(** X26: in a session on the buyer's page that starts from the page's
    initial state, with nothing else writing to the store, the rating stays
    between 1 and 5, and every review the session adds has such a rating
    and is for an order that was shipped when the session began and is
    delivered or reviewed at its end: no review is written for an order the
    buyer did not mark as received, and the rating check of the table never
    refuses a review from this page. *)
Theorem UserOrdersPage_reviews_follow_receipt (steps : list (Env * UserOrdersPage.Action))
    (w0 : World) :
  let r := UserOrdersPage.run steps orders_page w0 in
  (1 ≤ UserOrders.rating (fst (result r)) ≤ 5)%Z ∧
  ∀ rv, rv ∈ reviews (world_of r) →
        rv ∈ reviews w0 ∨
        ((1 ≤ r_rating rv ≤ 5)%Z ∧
         status_at w0 (r_order_id rv) = Some shipped ∧
         (status_at (world_of r) (r_order_id rv) = Some delivered ∨
          status_at (world_of r) (r_order_id rv) = Some reviewed)).
Proof.
  cbn zeta.
  assert (session_inv w0 orders_page w0) as Hinit.
  { split; [|split; [|split]].
    - cbn. lia.
    - intros k. cbn. discriminate.
    - intros k. by left.
    - intros rv ?. by left. }
  destruct (session_inv_run w0 steps orders_page w0 Hinit) as (Hrating & _ & _ & Hrev).
  split; [exact Hrating|exact Hrev].
Qed.

(** ** Loading the order page of the farm *)

Lemma filter_key_map_to_list (m : gmap string Order) (id farm : string) :
  filter (λ kv : string * Order, kv.1 = id ∧ o_farm_id kv.2 = farm) (map_to_list m) =
  match m !! id with
  | Some o => if decide (o_farm_id o = farm) then [(id, o)] else []
  | None => []
  end.
Proof.
  induction m as [|k x m Hk Hfirst IH] using map_first_key_ind.
  { by rewrite map_to_list_empty, lookup_empty. }
  rewrite map_to_list_insert_first_key by done. rewrite filter_cons. cbn [fst snd].
  destruct (decide (k = id)) as [->|Hne].
  - rewrite lookup_insert_eq. rewrite IH, Hk.
    destruct (decide (o_farm_id x = farm)) as [Hf|Hf].
    + by rewrite decide_True.
    + rewrite decide_False; [done|]. by intros [_ ?].
  - rewrite lookup_insert_ne by done. rewrite decide_False; [done|]. by intros [? _].
Qed.

Lemma OrderDetailLoad_loadOrder_cases (rd : OrderDetailLoad.Reads) (id : string)
    (st : OrderDetail.State) (w : World) :
  (∃ ts route, OrderDetailLoad.loadOrder rd id st w = (st, ts, Some route))
  ∨ (∃ uid o, OrderDetailLoad.session rd = Some uid ∧
              OrderDetailLoad.farm_profiles rd !! uid = Some (o_farm_id o) ∧
              orders w !! id = Some o ∧
              OrderDetailLoad.loadOrder rd id st w =
                ({| OrderDetail.order := Some (id, o);
                    OrderDetail.trackingNumber := default "" (o_tracking_number o);
                    OrderDetail.updating := OrderDetail.updating st |}, [], None)).
Proof.
  unfold OrderDetailLoad.loadOrder, OrderDetailLoad.failed.
  destruct (OrderDetailLoad.session rd) as [uid|]; [|left; by eexists _, _].
  destruct (OrderDetailLoad.farm_error rd); [left; by eexists _, _|].
  destruct (OrderDetailLoad.farm_profiles rd !! uid) as [farm|] eqn:Hfarm;
    [|left; by eexists _, _].
  destruct (OrderDetailLoad.order_error rd); [left; by eexists _, _|].
  rewrite filter_key_map_to_list.
  destruct (orders w !! id) as [o|] eqn:Ho; [|left; by eexists _, _].
  destruct (decide (o_farm_id o = farm)) as [<-|Hne]; [|left; by eexists _, _].
  right. by exists uid, o.
Qed.

(** X27: [loadOrder] either navigates away and leaves the page's state as it
    was, or shows an order and navigates nowhere; it shows an order exactly
    when there is a session, both selects succeed, and the order with the
    key asked for exists and carries as [farm_id] the id of the farm profile
    of the session's user; the order shown is then that row, and the
    tracking field holds its tracking number, or nothing. *)
Theorem OrderDetail_loadOrder_shows_own_order (rd : OrderDetailLoad.Reads) (id : string)
    (st : OrderDetail.State) (w : World) :
  let r := OrderDetailLoad.loadOrder rd id st w in
  (snd r = None ↔
   OrderDetailLoad.farm_error rd = None ∧ OrderDetailLoad.order_error rd = None ∧
   ∃ uid o, OrderDetailLoad.session rd = Some uid ∧
            OrderDetailLoad.farm_profiles rd !! uid = Some (o_farm_id o) ∧
            orders w !! id = Some o) ∧
  (snd r ≠ None → fst (fst r) = st) ∧
  (snd r = None →
   ∃ o, orders w !! id = Some o ∧
        OrderDetail.order (fst (fst r)) = Some (id, o) ∧
        OrderDetail.trackingNumber (fst (fst r)) = default "" (o_tracking_number o) ∧
        snd (fst r) = []).
Proof.
  cbn zeta. split_and!.
  - unfold OrderDetailLoad.loadOrder, OrderDetailLoad.failed.
    destruct (OrderDetailLoad.session rd) as [uid|].
    2: { split; [done|]. by intros (_ & _ & ? & ? & ? & _). }
    destruct (OrderDetailLoad.farm_error rd).
    { split; [done|]. by intros (? & _). }
    destruct (OrderDetailLoad.farm_profiles rd !! uid) as [farm|] eqn:Hfarm.
    2: { split; [done|]. intros (_ & _ & ? & ? & [= <-] & Hf & _). by rewrite Hfarm in Hf. }
    destruct (OrderDetailLoad.order_error rd).
    { split; [done|]. by intros (_ & ? & _). }
    rewrite filter_key_map_to_list.
    destruct (orders w !! id) as [o|] eqn:Ho.
    2: { split; [done|]. by intros (_ & _ & ? & ? & _ & _ & ?). }
    destruct (decide (o_farm_id o = farm)) as [<-|Hne].
    + split; [|done]. intros _. split_and!; [done|done|]. by exists uid, o.
    + split; [done|]. intros (_ & _ & ? & ? & [= <-] & Hf & [= <-]).
      rewrite Hfarm in Hf. by simplify_eq.
  - destruct (OrderDetailLoad_loadOrder_cases rd id st w)
      as [(ts & route & ->)|(uid & o & _ & _ & _ & ->)]; done.
  - destruct (OrderDetailLoad_loadOrder_cases rd id st w)
      as [(ts & route & ->)|(uid & o & _ & _ & Ho & ->)]; [done|].
    intros _. by exists o.
Qed.

Lemma OrderDetailCard_click_writes (e : Env) (st : OrderDetail.State) (w : World)
    (t : Table) (k : string) (p : OrderPatch) :
  UpdateRow t k p ∈ writes_of (OrderDetailCard.click e st w) →
  ∃ o, OrderDetail.order st = Some (k, o) ∧ t = orders_table ∧
       set_status p = OrderDetailCard.button (o_status o).
Proof.
  unfold OrderDetailCard.click.
  destruct (OrderDetail.order st) as [[id o]|] eqn:Horder; [|by intros ?%elem_of_nil].
  destruct (OrderDetailCard.button (o_status o)) as [s|] eqn:Hbutton;
    [|by intros ?%elem_of_nil].
  destruct (OrderDetail.updating st) eqn:Hupd; [by intros ?%elem_of_nil|].
  unfold OrderDetail.updateStatus. rewrite Horder.
  change (OrderDetail.trackingNumber (OrderDetail.setUpdating true st))
    with (OrderDetail.trackingNumber st).
  destruct (o_status o) eqn:Hst; cbn in Hbutton; simplify_eq;
    try (destruct (falsy _); [by intros ?%elem_of_nil|]);
    rewrite writes_of_bind; unfold OrderDetail.send at 1;
    rewrite writes_of_bind, writes_of_update_orders;
    (destruct (result (update_orders _ _ _ _));
      cbn; intros Hin%list_elem_of_singleton; simplify_eq;
      exists o; by rewrite Hst).
Qed.

(** X28: from mounting the page to a click on its card. After [loadOrder]
    for order [id] in world [w], whatever is typed into the tracking field
    and whatever the store holds at the time of the click, every update the
    click sends is for [id], an order that at loading carried the farm
    profile of the session's user, and asks for the successor of the status
    the order had at loading, not of the status it has when the click
    happens. *)
Theorem OrderDetail_page_updates_loaded_order (rd : OrderDetailLoad.Reads) (id : string)
    (w : World) (typed : string) (e : Env) (w' : World)
    (t : Table) (k : string) (p : OrderPatch) :
  let loaded := fst (fst (OrderDetailLoad.loadOrder rd id OrderDetailLoad.mounted w)) in
  UpdateRow t k p ∈
    writes_of (OrderDetailCard.click e (OrderDetailLoad.setTrackingNumber typed loaded) w') →
  t = orders_table ∧ k = id ∧
  ∃ uid o, OrderDetailLoad.session rd = Some uid ∧
           OrderDetailLoad.farm_profiles rd !! uid = Some (o_farm_id o) ∧
           orders w !! id = Some o ∧
           set_status p = OrderDetailCard.button (o_status o).
Proof.
  cbn zeta. intros (o & Horder & -> & Hp)%OrderDetailCard_click_writes.
  cbn [OrderDetailLoad.setTrackingNumber OrderDetail.order] in Horder.
  destruct (OrderDetailLoad_loadOrder_cases rd id OrderDetailLoad.mounted w)
    as [(ts & route & Hl)|(uid & o' & Hs & Hf & Ho & Hl)];
    rewrite Hl in Horder; cbn in Horder; [done|].
  simplify_eq. split_and!; [done|done|]. by exists uid, o.
Qed.

(** X28, witness: the farmer loads the sample order while it is pending;
    the sweep cancels it in the meantime; the click still asks for
    confirmed. *)
Lemma OrderDetail_page_updates_loaded_order_witness :
  orders_table = orders_table ∧ "o1" = "o1" ∧
  ∃ uid o, OrderDetailLoad.session farmer_reads = Some uid ∧
           OrderDetailLoad.farm_profiles farmer_reads !! uid = Some (o_farm_id o) ∧
           orders (sample_world pending) !! "o1" = Some o ∧
           set_status
             {| set_status := Some confirmed; set_tracking_number := None;
                set_carrier := None; set_confirmed_at := Some 1000000000%Z;
                set_shipped_at := None; set_delivered_at := None;
                set_cancelled_at := None; set_cancellation_reason := None |}
             = OrderDetailCard.button (o_status o).
Proof.
  apply (OrderDetail_page_updates_loaded_order farmer_reads "o1" (sample_world pending)
           "" env_ok (sample_world cancelled) orders_table "o1"
           {| set_status := Some confirmed; set_tracking_number := None;
              set_carrier := None; set_confirmed_at := Some 1000000000%Z;
              set_shipped_at := None; set_delivered_at := None;
              set_cancelled_at := None; set_cancellation_reason := None |}).
  vm_compute. left.
Defined.

(** ** Sessions on the two farm pages *)

Lemma ReservationOrders_updateStatus_writes (e : Env) (id : string) (s : order_status)
    (extra : OrderPatch) (w : World) :
  writes_of (ReservationOrders.updateStatus e id s extra w) =
    [UpdateRow reservations_table id (with_status s extra)].
Proof.
  unfold ReservationOrders.updateStatus, bind, update_reservations.
  by destruct (update_error e id).
Qed.

Lemma ReservationOrders_click_confirm_shipment_cases (e : Env)
    (st : ReservationOrders.State) (w : World) :
  let r := ReservationOrders.click_confirm_shipment e st w in
  (writes_of r = [] ∧ fst (result r) = st)
  ∨ (∃ id p, ReservationOrders.shippingId st = Some id ∧
             ReservationOrders.tracking st ≠ "" ∧
             writes_of r = [UpdateRow reservations_table id p] ∧
             set_status p = Some shipped ∧
             set_tracking_number p = Some (ReservationOrders.tracking st) ∧
             ReservationOrders.shippingId (fst (result r)) = None).
Proof.
  cbn zeta. unfold ReservationOrders.click_confirm_shipment.
  destruct (ReservationOrders.shippingId st) as [id|]; [|by left].
  unfold ReservationOrders.confirm_disabled, falsy.
  case_bool_decide as Hblank; [by left|].
  right. eexists id, _. split; [done|]. split; [done|].
  rewrite writes_of_bind, writes_of_bind, ReservationOrders_updateStatus_writes.
  unfold bind, new_Date, ReservationOrders.updateStatus, bind, update_reservations.
  cbn [fst snd result world_of writes_of].
  destruct (update_error e id); cbn; done.
Qed.

Lemma ReservationPage_offered_spec (pg : ReservationPage.Page)
    (row : ReservationTabs.Listed) (a : ReservationTabs.Action) :
  ReservationPage.offered pg row a = true →
  row ∈ ReservationPage.rows pg ∧
  match a with
  | ReservationTabs.act_confirm | ReservationTabs.act_cancel =>
      ReservationTabs.status row = pending
  | ReservationTabs.act_ship =>
      ReservationTabs.status row = confirmed ∧
      ReservationTabs.delivery_date row = Some (ReservationPage.bucket_day pg)
  end.
Proof.
  unfold ReservationPage.offered, ReservationPage.on_screen.
  intros ([row' acts] & Hin & Hrow & Ha)%bool_decide_eq_true%Exists_exists.
  cbn [fst snd] in Hrow, Ha. subst row'.
  apply ReservationTabs_shown_elem in Hin as [Hin Htab]. split; [done|].
  destruct (ReservationPage.tab pg).
  - destruct Htab as [Hst ->]. rewrite !elem_of_cons, elem_of_nil in Ha.
    destruct Ha as [->|[->|[]]]; done.
  - destruct Htab as [Hst [[Hd ->]|[_ ->]]].
    + apply list_elem_of_singleton in Ha as ->. done.
    + by apply elem_of_nil in Ha.
  - destruct Htab as [_ ->]. by apply elem_of_nil in Ha.
  - destruct Htab as [_ ->]. by apply elem_of_nil in Ha.
Qed.

Lemma ReservationPage_run_cons (e : Env) (ev : ReservationPage.Event)
    (rest : list (Env * ReservationPage.Event)) (pg : ReservationPage.Page) (w : World) :
  fst (result (ReservationPage.run ((e, ev) :: rest) pg w)) =
    fst (result (ReservationPage.run rest
                   (fst (result (ReservationPage.step e ev pg w)))
                   (world_of (ReservationPage.step e ev pg w)))) ∧
  world_of (ReservationPage.run ((e, ev) :: rest) pg w) =
    world_of (ReservationPage.run rest
                (fst (result (ReservationPage.step e ev pg w)))
                (world_of (ReservationPage.step e ev pg w))).
Proof.
  cbn [ReservationPage.run]. unfold bind.
  destruct (ReservationPage.step e ev pg w) as [[r1 w1] t1].
  cbn [fst snd result world_of].
  by destruct (ReservationPage.run rest (fst r1) w1) as [[r2 w2] t2].
Qed.

Lemma ReservationPage_run_app (l1 l2 : list (Env * ReservationPage.Event))
    (pg : ReservationPage.Page) (w : World) :
  fst (result (ReservationPage.run (l1 ++ l2) pg w)) =
    fst (result (ReservationPage.run l2
                   (fst (result (ReservationPage.run l1 pg w)))
                   (world_of (ReservationPage.run l1 pg w)))) ∧
  world_of (ReservationPage.run (l1 ++ l2) pg w) =
    world_of (ReservationPage.run l2
                (fst (result (ReservationPage.run l1 pg w)))
                (world_of (ReservationPage.run l1 pg w))).
Proof.
  revert pg w. induction l1 as [|[e ev] l1 IH]; intros pg w; [done|].
  rewrite <- app_comm_cons.
  destruct (ReservationPage_run_cons e ev (l1 ++ l2) pg w) as [-> ->].
  destruct (ReservationPage_run_cons e ev l1 pg w) as [-> ->].
  apply IH.
Qed.

(** Only a load that sets the rows changes the rows and the day of the
    buckets. *)
Lemma ReservationPage_step_keeps_rows (e : Env) (ev : ReservationPage.Event)
    (pg : ReservationPage.Page) (w : World) :
  ReservationPage.sets_rows ev = false →
  ReservationPage.rows (fst (result (ReservationPage.step e ev pg w))) =
    ReservationPage.rows pg ∧
  ReservationPage.bucket_day (fst (result (ReservationPage.step e ev pg w))) =
    ReservationPage.bucket_day pg.
Proof.
  destruct ev as [[|x|data]|t|row a|text|]; cbn [ReservationPage.sets_rows
    ReservationPage.step]; intros Hev; try done.
  - destruct (ReservationPage.offered pg row a); [|done].
    destruct a; [| |done]; unfold bind.
    + by destruct (ReservationOrders.click_confirm e _ w) as [[? ?] ?].
    + by destruct (ReservationOrders.click_cancel e _ w) as [[? ?] ?].
  - by destruct (ReservationOrders.shippingId (ReservationPage.modal pg)).
  - unfold bind.
    by destruct (ReservationOrders.click_confirm_shipment e _ w) as [[? ?] ?].
Qed.

(** The rows on the page are those of the last load that set them, and the
    buckets are for the day the clock showed at that load. *)
Lemma ReservationPage_last_load (day0 : Z) (steps : list (Env * ReservationPage.Event))
    (w : World) :
  ReservationPage.rows (fst (result (ReservationPage.run steps
                                       (ReservationPage.mounted day0) w))) = []
  ∨ ∃ b1 e1 data b2,
      steps = b1 ++ (e1, ReservationPage.ev_load (ReservationPage.load_rows data)) :: b2 ∧
      Forall (λ s, ReservationPage.sets_rows s.2 = false) b2 ∧
      ReservationPage.rows (fst (result (ReservationPage.run steps
                                           (ReservationPage.mounted day0) w))) =
        default [] data ∧
      ReservationPage.bucket_day (fst (result (ReservationPage.run steps
                                                 (ReservationPage.mounted day0) w))) =
        iso_date (clock e1 (ticks (world_of (ReservationPage.run b1
                                               (ReservationPage.mounted day0) w)))).
Proof.
  induction steps as [|[e ev] steps IH] using rev_ind; [by left|].
  destruct (ReservationPage_run_app steps [(e, ev)] (ReservationPage.mounted day0) w)
    as [-> _].
  destruct (ReservationPage_run_cons e ev []
              (fst (result (ReservationPage.run steps (ReservationPage.mounted day0) w)))
              (world_of (ReservationPage.run steps (ReservationPage.mounted day0) w)))
    as [-> _].
  cbn [ReservationPage.run ret result fst].
  destruct (ReservationPage.sets_rows ev) eqn:Hev.
  - right. destruct ev as [[|x|data]|t|row a|text|]; try done.
    exists steps, e, data, []. split_and!; [done|by apply Forall_nil|done|done].
  - destruct (ReservationPage_step_keeps_rows e ev
                (fst (result (ReservationPage.run steps (ReservationPage.mounted day0) w)))
                (world_of (ReservationPage.run steps (ReservationPage.mounted day0) w)) Hev)
      as [-> ->].
    destruct IH as [Hnil|(b1 & e1 & data & b2 & -> & Hb2 & Hrows & Hday)]; [by left|].
    right. exists b1, e1, data, (b2 ++ [(e, ev)]).
    split_and!; [by rewrite <- app_assoc| |done|done].
    apply Forall_app. split; [done|]. by apply Forall_singleton.
Qed.

Lemma ReservationPage_run_writes (steps : list (Env * ReservationPage.Event))
    (pg : ReservationPage.Page) (w : World) (t : Table) (k : string) (p : OrderPatch) :
  UpdateRow t k p ∈ writes_of (ReservationPage.run steps pg w) →
  t = reservations_table ∧
  ((∃ before e row a after,
      steps = before ++ (e, ReservationPage.ev_press row a) :: after ∧
      ReservationPage.offered
        (fst (result (ReservationPage.run before pg w))) row a = true ∧
      ReservationTabs.id row = k ∧
      ReservationPage.answers (fst (result (ReservationPage.run before pg w))) row a p)
   ∨ (ReservationOrders.shippingId (ReservationPage.modal pg) = Some k ∧
      set_status p = Some shipped ∧
      ∃ text, set_tracking_number p = Some text ∧ text ≠ "")).
Proof.
  revert pg w. induction steps as [|[e ev] steps IH]; intros pg w.
  { by intros ?%elem_of_nil. }
  cbn [ReservationPage.run]. rewrite writes_of_bind, elem_of_app. intros [Hin|Hin].
  - (* written by this event *)
    destruct ev as [[|x|data]|tb|row a|text|]; cbn [ReservationPage.step] in Hin;
      try (by apply elem_of_nil in Hin).
    + destruct (ReservationPage.offered pg row a) eqn:Hoff; [|by apply elem_of_nil in Hin].
      destruct (ReservationPage_offered_spec pg row a Hoff) as [_ Hrow].
      destruct a.
      * rewrite writes_of_bind in Hin. unfold ReservationOrders.click_confirm in Hin.
        rewrite writes_of_bind, ReservationOrders_updateStatus_writes in Hin.
        cbn in Hin. apply list_elem_of_singleton in Hin. simplify_eq.
        split; [done|]. left. exists [], e, row, ReservationTabs.act_confirm, steps.
        by split_and!.
      * rewrite writes_of_bind in Hin. unfold ReservationOrders.click_cancel in Hin.
        rewrite writes_of_bind, ReservationOrders_updateStatus_writes in Hin.
        cbn in Hin. apply list_elem_of_singleton in Hin. simplify_eq.
        split; [done|]. left. exists [], e, row, ReservationTabs.act_cancel, steps.
        by split_and!.
      * by apply elem_of_nil in Hin.
    + destruct (ReservationOrders.shippingId (ReservationPage.modal pg));
        by apply elem_of_nil in Hin.
    + rewrite writes_of_bind, elem_of_app in Hin. destruct Hin as [Hin|Hin].
      2: { by apply elem_of_nil in Hin. }
      destruct (ReservationOrders_click_confirm_shipment_cases e (ReservationPage.modal pg) w)
        as [[Hw _]|(id & p' & Hid & Htr & Hw & Hs & Ht & _)]; rewrite Hw in Hin.
      * by apply elem_of_nil in Hin.
      * apply list_elem_of_singleton in Hin. simplify_eq.
        split; [done|]. right. split_and!; [done|done|]. by eexists.
  - (* written later *)
    rewrite writes_of_bind, elem_of_app in Hin. destruct Hin as [Hin|Hin].
    2: { by apply elem_of_nil in Hin. }
    destruct (IH _ _ Hin)
      as [-> [(before & e0 & row & a & after & -> & Hoff & Hk & Hans)|(Hid & Hs & Ht)]].
    { split; [done|]. left. exists ((e, ev) :: before), e0, row, a, after.
      destruct (ReservationPage_run_cons e ev before pg w) as [-> _].
      by split_and!. }
    split; [done|].
    destruct ev as [[|x|data]|tb|row a|text|]; cbn [ReservationPage.step] in Hid.
    + right. by split_and!.
    + right. by split_and!.
    + right. by split_and!.
    + right. by split_and!.
    + destruct (ReservationPage.offered pg row a) eqn:Hoff; [|right; by split_and!].
      destruct (ReservationPage_offered_spec pg row a Hoff) as [_ Hrow].
      destruct a.
      * right. unfold bind in Hid.
        destruct (ReservationOrders.click_confirm e _ w) as [[? ?] ?]. by split_and!.
      * right. unfold bind in Hid.
        destruct (ReservationOrders.click_cancel e _ w) as [[? ?] ?]. by split_and!.
      * left. cbn in Hid. simplify_eq.
        exists [], e, row, ReservationTabs.act_ship, steps. split_and!; try done.
        unfold ReservationPage.answers. by destruct Hrow.
    + right. destruct (ReservationOrders.shippingId (ReservationPage.modal pg)) eqn:Hsh;
        cbn in Hid; simplify_eq; by split_and!.
    + unfold bind in Hid.
      destruct (ReservationOrders_click_confirm_shipment_cases e (ReservationPage.modal pg) w)
        as [[_ Hst]|(id & p' & _ & _ & _ & _ & _ & Hnone)].
      * right. destruct (ReservationOrders.click_confirm_shipment e _ w) as [[r1 w1] t1].
        cbn in Hid, Hst. rewrite Hst in Hid. by split_and!.
      * destruct (ReservationOrders.click_confirm_shipment e _ w) as [[r1 w1] t1].
        cbn in Hid, Hnone. by rewrite Hnone in Hid.
Qed.

(** X29: on the farm page over [reservations], in any session from the
    mounting of the page, every update sent goes to [reservations] and
    answers a press of that session on a button that was on the screen, on a
    row of the loaded list with that id: confirmed or cancelled for a row
    listed as pending, the cancellation without a reason, and shipped, with
    a non-empty tracking number, for a row listed as confirmed whose
    delivery date is the day of the page's buckets.  That day is the day the
    clock showed at the last load that set the rows before the press, which
    need not be the day of the press. *)
Theorem ReservationPage_updates_answer_presses (day0 : Z)
    (steps : list (Env * ReservationPage.Event)) (w : World)
    (t : Table) (k : string) (p : OrderPatch) :
  UpdateRow t k p ∈
    writes_of (ReservationPage.run steps (ReservationPage.mounted day0) w) →
  t = reservations_table ∧
  ∃ before e row a after,
    steps = before ++ (e, ReservationPage.ev_press row a) :: after ∧
    let pg := fst (result (ReservationPage.run before (ReservationPage.mounted day0) w)) in
    row ∈ ReservationPage.rows pg ∧
    ReservationPage.offered pg row a = true ∧
    ReservationTabs.id row = k ∧
    ReservationPage.answers pg row a p ∧
    ∃ b1 e1 data b2,
      before = b1 ++ (e1, ReservationPage.ev_load (ReservationPage.load_rows data)) :: b2 ∧
      Forall (λ s, ReservationPage.sets_rows s.2 = false) b2 ∧
      ReservationPage.rows pg = default [] data ∧
      ReservationPage.bucket_day pg =
        iso_date (clock e1 (ticks (world_of (ReservationPage.run b1
                                               (ReservationPage.mounted day0) w)))).
Proof.
  intros Hin.
  destruct (ReservationPage_run_writes steps (ReservationPage.mounted day0) w t k p Hin)
    as [Ht [(before & e & row & a & after & Hsteps & Hoff & Hk & Hans)|(Hid & _)]].
  2: { cbn in Hid. discriminate. }
  split; [exact Ht|]. exists before, e, row, a, after. cbn zeta.
  destruct (ReservationPage_offered_spec _ row a Hoff) as [Hrow _].
  split_and!; [done|done|done|done|done|].
  destruct (ReservationPage_last_load day0 before w) as [Hnil|Hload]; [|exact Hload].
  rewrite Hnil in Hrow. by apply elem_of_nil in Hrow.
Qed.

(** X29, witness: the rows are loaded on day 11 with a confirmed row due
    that day; the farmer opens the "Confirmed" tab and ships it. *)
Lemma ReservationPage_updates_answer_presses_witness :
  reservations_table = reservations_table ∧
  ∃ before e row a after,
    reservation_session = before ++ (e, ReservationPage.ev_press row a) :: after ∧
    let pg := fst (result (ReservationPage.run before (ReservationPage.mounted 0)
                             (sample_world confirmed))) in
    row ∈ ReservationPage.rows pg ∧
    ReservationPage.offered pg row a = true ∧
    ReservationTabs.id row = "o1" ∧
    ReservationPage.answers pg row a
      {| set_status := Some shipped; set_tracking_number := Some "TH123";
         set_carrier := None; set_confirmed_at := None;
         set_shipped_at := Some 1000000000%Z; set_delivered_at := None;
         set_cancelled_at := None; set_cancellation_reason := None |} ∧
    ∃ b1 e1 data b2,
      before = b1 ++ (e1, ReservationPage.ev_load (ReservationPage.load_rows data)) :: b2 ∧
      Forall (λ s, ReservationPage.sets_rows s.2 = false) b2 ∧
      ReservationPage.rows pg = default [] data ∧
      ReservationPage.bucket_day pg =
        iso_date (clock e1 (ticks (world_of (ReservationPage.run b1
                                               (ReservationPage.mounted 0)
                                               (sample_world confirmed))))).
Proof.
  apply (ReservationPage_updates_answer_presses 0 reservation_session
           (sample_world confirmed) reservations_table "o1"
           {| set_status := Some shipped; set_tracking_number := Some "TH123";
              set_carrier := None; set_confirmed_at := None;
              set_shipped_at := Some 1000000000%Z; set_delivered_at := None;
              set_cancelled_at := None; set_cancellation_reason := None |}).
  vm_compute. left.
Defined.

Lemma FarmOrders_click_confirm_shipment_cases (e : Env) (st : FarmOrders.State) (w : World) :
  let r := FarmOrders.click_confirm_shipment e st w in
  (writes_of r = [] ∧ fst (result r) = st)
  ∨ (∃ id p, FarmOrders.shippingId st = Some id ∧
             writes_of r = [UpdateRow orders_table id p] ∧
             set_status p = Some shipped ∧
             set_tracking_number p = Some (trim (FarmOrders.tracking st)) ∧
             set_carrier p = Some (trim (FarmOrders.carrier st)) ∧
             trim (FarmOrders.tracking st) ≠ "" ∧
             trim (FarmOrders.carrier st) ≠ "" ∧
             FarmOrders.shippingId (fst (result r)) = None).
Proof.
  cbn zeta. unfold FarmOrders.click_confirm_shipment.
  destruct (FarmOrders.shippingId st) as [id|]; [|by left].
  destruct (FarmOrders.confirm_disabled st) eqn:Hdis; [by left|].
  unfold FarmOrders.confirm_disabled, falsy in Hdis.
  apply orb_false_iff in Hdis as [Hc%bool_decide_eq_false Ht%bool_decide_eq_false].
  right. unfold bind, new_Date, FarmOrders.updateOrder, bind, update_orders.
  cbn [fst snd result world_of writes_of ticks tick orders].
  destruct (update_error e id) as [x|].
  - cbn. eexists id, _. split_and!; try reflexivity; done.
  - destruct (orders w !! id) as [o|]; cbn; eexists id, _;
      split_and!; try reflexivity; done.
Qed.

Lemma FarmOrdersPage_run_writes (steps : list (Env * FarmOrdersPage.Event))
    (st : FarmOrders.State) (w : World) (t : Table) (k : string) (p : OrderPatch) :
  FarmOrdersPage.presses_offered steps →
  UpdateRow t k p ∈ writes_of (FarmOrdersPage.run steps st w) →
  (t = orders_table ∧ set_status p = Some shipped ∧
   set_cancelled_at p = None ∧
   ∃ tracking carrier, set_tracking_number p = Some tracking ∧ tracking ≠ "" ∧
                       set_carrier p = Some carrier ∧ carrier ≠ "") ∧
  ((∃ pr, FarmOrdersPage.ev_ship pr ∈ steps.*2 ∧
          FarmOrdersTabs.id (FarmOrdersPage.row pr) = k ∧
          FarmOrdersTabs.status (FarmOrdersPage.row pr) = confirmed)
   ∨ FarmOrders.shippingId st = Some k).
Proof.
  revert st w. induction steps as [|[e ev] steps IH]; intros st w Hoff.
  { by intros ?%elem_of_nil. }
  apply Forall_cons in Hoff as [Hev Hoff]. cbn [snd] in Hev.
  cbn [FarmOrdersPage.run]. rewrite writes_of_bind, elem_of_app. intros [Hin|Hin].
  - destruct ev as [pr|text|text|]; cbn [FarmOrdersPage.step] in Hin.
    + by apply elem_of_nil in Hin.
    + destruct (FarmOrders.shippingId st); by apply elem_of_nil in Hin.
    + destruct (FarmOrders.shippingId st); by apply elem_of_nil in Hin.
    + destruct (FarmOrders_click_confirm_shipment_cases e st w)
        as [[Hw _]|(id & p' & Hid & Hw & Hs & Ht & Hc & Htn & Hcn & _)]; rewrite Hw in Hin.
      * by apply elem_of_nil in Hin.
      * apply list_elem_of_singleton in Hin. simplify_eq.
        split; [|by right]. split_and!; [done|done| |by eexists _, _].
        unfold FarmOrders.click_confirm_shipment, FarmOrders.confirm_disabled, falsy in Hw.
        rewrite Hid in Hw.
        rewrite !bool_decide_eq_false_2 in Hw by done. cbn [orb] in Hw.
        rewrite writes_of_bind, writes_of_bind in Hw. unfold FarmOrders.updateOrder in Hw.
        rewrite writes_of_bind, writes_of_update_orders in Hw.
        cbn [new_Date writes_of result world_of fst snd app] in Hw.
        destruct (result (update_orders _ _ _ _)); cbn in Hw; by simplify_eq.
  - rewrite writes_of_bind, elem_of_app in Hin. destruct Hin as [Hin|Hin].
    2: { by apply elem_of_nil in Hin. }
    destruct (IH _ _ Hoff Hin) as [Hp [(pr & Hpr & Hk & Hst)|Hid]].
    { split; [done|]. left. exists pr. rewrite fmap_cons. split_and!; [by right|done|done]. }
    split; [done|].
    destruct ev as [pr|text|text|]; cbn [FarmOrdersPage.step] in Hid.
    + left. cbn in Hid. simplify_eq. exists pr. rewrite fmap_cons. split_and!; [by left|done|].
      unfold FarmOrdersPage.offered in Hev.
      apply FarmOrdersTabs_shown_status in Hev.
      destruct (FarmOrdersPage.tab pr); try done; by destruct Hev.
    + right. destruct (FarmOrders.shippingId st) eqn:Hsh; cbn in Hid; by simplify_eq.
    + right. destruct (FarmOrders.shippingId st) eqn:Hsh; cbn in Hid; by simplify_eq.
    + destruct (FarmOrders_click_confirm_shipment_cases e st w)
        as [[_ Hst]|(id & p' & _ & _ & _ & _ & _ & _ & _ & Hnone)].
      * right. by rewrite Hst in Hid.
      * by rewrite Hnone in Hid.
Qed.

(** X30: the page FarmOrders.tsx writes nothing but shipments of confirmed
    orders. In a session that starts when the page is mounted and presses
    "Ship" only where the page shows it, every update sent goes to [orders],
    asks for shipped with a non-empty tracking number and carrier and sets no
    [cancelled_at], and is for an order on whose row "Ship" was pressed in
    that session, listed as confirmed at that press. *)
Theorem FarmOrdersPage_updates_ship_confirmed (steps : list (Env * FarmOrdersPage.Event))
    (w : World) (t : Table) (k : string) (p : OrderPatch) :
  FarmOrdersPage.presses_offered steps →
  UpdateRow t k p ∈ writes_of (FarmOrdersPage.run steps FarmOrdersPage.mounted w) →
  t = orders_table ∧ set_status p = Some shipped ∧ set_cancelled_at p = None ∧
  (∃ tracking carrier, set_tracking_number p = Some tracking ∧ tracking ≠ "" ∧
                       set_carrier p = Some carrier ∧ carrier ≠ "") ∧
  ∃ pr, FarmOrdersPage.ev_ship pr ∈ steps.*2 ∧
        FarmOrdersTabs.id (FarmOrdersPage.row pr) = k ∧
        FarmOrdersTabs.status (FarmOrdersPage.row pr) = confirmed.
Proof.
  intros Hoff Hin.
  destruct (FarmOrdersPage_run_writes steps FarmOrdersPage.mounted w t k p Hoff Hin)
    as [(Ht & Hs & Hc & Htr) [Hpr|Hid]].
  - by split_and!.
  - cbn in Hid. discriminate.
Qed.

(** X30, witness: the farmer ships the confirmed sample order. *)
Lemma FarmOrdersPage_updates_ship_confirmed_witness :
  orders_table = orders_table ∧ Some shipped = Some shipped ∧ @None Z = None ∧
  (∃ tracking carrier, Some "TH123" = Some tracking ∧ tracking ≠ "" ∧
                       Some "Kerry" = Some carrier ∧ carrier ≠ "") ∧
  ∃ pr, FarmOrdersPage.ev_ship pr ∈ farm_orders_session.*2 ∧
        FarmOrdersTabs.id (FarmOrdersPage.row pr) = "o1" ∧
        FarmOrdersTabs.status (FarmOrdersPage.row pr) = confirmed.
Proof.
  apply (FarmOrdersPage_updates_ship_confirmed farm_orders_session (sample_world confirmed)
           orders_table "o1"
           {| set_status := Some shipped; set_tracking_number := Some "TH123";
              set_carrier := Some "Kerry"; set_confirmed_at := None;
              set_shipped_at := Some 1000000000%Z; set_delivered_at := None;
              set_cancelled_at := None; set_cancellation_reason := None |}).
  - unfold FarmOrdersPage.presses_offered, farm_orders_session.
    repeat apply Forall_cons_2; try exact I; [|apply Forall_nil_2].
    vm_compute. left.
  - vm_compute. left.
Defined.
